(** * AIDE V2 (chat based, Ollama): requirement chain, readiness gate,
      structure planner and file generator

    A shallow embedding of the agent server of the repository:
    - [agents/orchestrator.py]      (module [Orchestrator])
    - [agents/integration_agent.py] (module [IntegrationAgent])
    - [services/project_builder.py] (module [ProjectBuilder])
    - [storage/local_storage.py]    (module [LocalStorage])
    - [main.py]                     (module [AIDEServer])

    Conventions of the embedding.
    - A Python [str] is a [string]; a character is read as the code point
      of the same number (0..255), and [lower], [strip] follow Python on
      that range.
    - A Python [dict] keyed by strings is a [gmap string _], except the
      literal tables of the code that are iterated in their written order,
      which are association lists.
    - The completion service, the file system and the preview process are
      outside the program; what they answer is a field of [Env].
    - Wall-clock fields (created_at, updated_at, generated_at, timestamp)
      and the display icon are left out: nothing below reads them. *)

From Stdlib Require Import Ascii String NArith ZArith Lia.
From stdpp Require Import base option list strings gmap pretty.

Local Open Scope bool_scope.

(** ** Python string primitives *)

Module Py.

Definition ord (c : ascii) : N := N_of_ascii c.

(** [str.isspace] of one character. *)
Definition isspace (c : ascii) : bool :=
  let n := ord c in
  ((9 <=? n) && (n <=? 13) || (28 <=? n) && (n <=? 32)
   || (n =? 133) || (n =? 160))%N.

Definition isalpha_ascii (c : ascii) : bool :=
  let n := ord c in
  ((65 <=? n) && (n <=? 90) || (97 <=? n) && (n <=? 122))%N.

Definition lower_char (c : ascii) : ascii :=
  let n := ord c in
  if ((65 <=? n) && (n <=? 90)
      || (192 <=? n) && (n <=? 222) && negb (n =? 215))%N
  then ascii_of_N (n + 32) else c.

(** [s.lower()] *)
Fixpoint lower (s : string) : string :=
  match s with
  | EmptyString => EmptyString
  | String c s' => String (lower_char c) (lower s')
  end.

Fixpoint lstrip (s : string) : string :=
  match s with
  | EmptyString => EmptyString
  | String c s' => if isspace c then lstrip s' else s
  end.

Definition rstrip (s : string) : string :=
  String.rev (lstrip (String.rev s)).

(** [s.strip()] *)
Definition strip (s : string) : string := rstrip (lstrip s).

(** [len(s)] *)
Definition len (s : string) : nat := String.length s.

(** [s.startswith(p)] *)
Definition startswith (p s : string) : bool := String.prefix p s.

(** [s.endswith(p)] *)
Definition endswith (p s : string) : bool :=
  String.prefix (String.rev p) (String.rev s).

(** [sub in s] *)
Fixpoint contains (sub s : string) : bool :=
  String.prefix sub s ||
  match s with
  | EmptyString => false
  | String _ s' => contains sub s'
  end.

(** [any(k in s for k in ks)] *)
Definition any_in (ks : list string) (s : string) : bool :=
  existsb (fun k => contains k s) ks.

(** [s.startswith((p1, p2, ...))] *)
Definition startswith_any (ps : list string) (s : string) : bool :=
  existsb (fun p => startswith p s) ps.

(** [s.split(sep)] for a one-character separator. *)
Fixpoint split (sep : ascii) (s : string) : list string :=
  match s with
  | EmptyString => [EmptyString]
  | String c s' =>
      if Ascii.eqb c sep then EmptyString :: split sep s'
      else match split sep s' with
           | w :: ws => String c w :: ws
           | [] => [String c EmptyString]
           end
  end.

(** [sep.join(l)] *)
Definition join (sep : string) (l : list string) : string :=
  String.concat sep l.

(** [s.count(c)] for one character. *)
Fixpoint count (c : ascii) (s : string) : nat :=
  match s with
  | EmptyString => 0
  | String d s' => (if Ascii.eqb d c then 1 else 0) + count c s'
  end.

(** [x in l] for a list of strings. *)
Definition mem (x : string) (l : list string) : bool :=
  existsb (String.eqb x) l.

(** [s[:n]] *)
Definition take (n : nat) (s : string) : string := String.substring 0 n s.

(** [l[0]] and [l[-1]] on the result of a split, which is never empty. *)
Definition first (l : list string) : string := hd EmptyString l.
Definition final (l : list string) : string := List.last l EmptyString.

Definition newline : ascii := "010"%char.
Definition nl : string := String newline EmptyString.

End Py.

(** [d.get(k)] on a literal table kept in its written order. *)
Fixpoint assoc {A : Type} (k : string) (d : list (string * A)) : option A :=
  match d with
  | [] => None
  | (k', v) :: d' => if String.eqb k k' then Some v else assoc k d'
  end.

(** [l.index(x)] *)
Fixpoint index_of (x : string) (l : list string) : option nat :=
  match l with
  | [] => None
  | y :: l' => if String.eqb x y then Some 0 else S <$> index_of x l'
  end.

(** ** Data model: the project document of [storage/local_storage.py] *)

Record RequirementRecord := mkRequirement {
  full_response : string;
  req_user_message : string;
  req_agent : string;
  has_substance : bool
}.

(** One entry of [project_data['messages']]: the text of a user message
    or of the reply of an agent. *)
Record Message := mkMessage {
  msg_role : string;      (* 'user' or 'agent' *)
  msg_text : string;      (* 'message', a text *)
  msg_agent : string      (* the active agent when the message was stored *)
}.

(** One entry of [project_data['generated_files']]. *)
Record FileEntry := mkFileEntry {
  fe_path : string;
  fe_content : string;    (* a preview: at most 500 characters and "..." *)
  fe_size : nat
}.

(** A Python dict keeps its keys in insertion order and the JSON file
    keeps that order: the 'requirements' dict is the map of its entries
    together with the list of its keys in the order the dict holds
    them. *)
Record Project := mkProject {
  proj_id : string;
  proj_name : string;
  proj_status : string;
  requirements : gmap string RequirementRecord;
  requirements_order : list string;
  messages : list Message;
  generated_files : list FileEntry;
  active_agent : string
}.

(** One record of the list returned by [ProjectBuilder.generate_project]. *)
Record GeneratedFile := mkGenerated {
  gf_path : string;
  gf_content : string;
  gf_size : nat;
  gf_type : string;
  gf_language : string
}.

(** What [existing_files_context] holds for one earlier file. *)
Record FileContext := mkContext {
  fc_path : string;
  fc_content_preview : string
}.

(** The dict returned by [Orchestrator.can_generate_code]. *)
Record Status := mkStatus {
  can_generate : bool;
  st_substantial_agents : nat;
  agent_contributions : list string;
  has_minimal_requirements : bool;
  st_message : string
}.

(** ** The world outside the program *)

(** Outcome of one [ollama.chat] call: the text of the reply, or the
    exception the call (or the access to the reply) raised. *)
Inductive Completion :=
| Reply (text : string)
| Failure (error : string).

Record Env := mkEnv {
  (** what [_call_agent_enhanced] returns: the role prompt, the completion
      call (whose failure is turned into a text there) and, for the UI
      role, the code filter *)
  agent_reply : string -> string -> Project -> string;
  (** the completion call of [plan_project_structure]; its prompt is built
      from the name, the id and the requirements of the project *)
  plan_completion :
    string -> string -> gmap string RequirementRecord -> Completion;
  (** the completion call of [generate_file_content_with_context]; its
      prompt is built from the name and the requirements of the project,
      the path and the earlier files *)
  file_completion :
    string -> gmap string RequirementRecord -> string -> list FileContext
    -> Completion;
  (** [_clean_project_directory] gets the directory removed within its
      three attempts *)
  fs_clean : string -> bool;
  (** creating the parent directory and writing the file succeed *)
  fs_write : string -> string -> string -> bool;
  (** [_start_preview_server]: the port, or 0 *)
  start_preview_server : string -> gmap string nat -> nat;
  (** [str(uuid.uuid4())[:8]], drawn when the store holds these projects *)
  uuid4 : gmap string Project -> string
}.


(** ** Effects: server state, exceptions and the trace of outside calls *)

Inductive Exn :=
| ProjectNotFound (project_id : string)   (* FileNotFoundError of get_project *)
| CleanupFailed (project_id : string)     (* last retry of _clean_project_directory *)
| AttributeError (attribute : string).    (* data.get on a value that is not a dict *)

(** The text of an agent message: the fixed welcome text of
    [start_conversation], or a reply. *)
Inductive Body :=
| Welcome
| Text (s : string).

(** Messages sent to the client ([websocket.send]), by their 'type'. *)
Inductive Outbound :=
| project_created (project_id project_name : string)
| agent_response (message : Body) (agent : string)
| generation_status (project_id : string) (status : Status)
| generation_started (project_id : string)
| code_generated (project_id : string) (files : list GeneratedFile)
    (preview_url : string) (file_count total_size : nat)
| generation_failed (project_id : string) (message : string)
| code_generation_error (project_id : string) (e : Exn)
| preview_url (url : string)
| error (message : string) (e : option Exn)
| pong.

(** Calls that leave the request handler, in the order they are made. *)
Inductive Event :=
| AskAgent (agent : string)                  (* _call_agent_enhanced *)
| PlanStructure (project_id : string)        (* plan_project_structure *)
| GenerateFile (file_path : string)          (* generate_file_content_with_context *)
| ValidationWarning (validator file_path : string)   (* the printed warning *)
| CompletionFailed (file_path error : string)        (* the printed failure *)
| FileSkipped (file_path : string)           (* except branch of the file loop *)
| BuildPreview (project_id : string)         (* _build_preview_reliable *)
| StartPreview (project_id : string)         (* _start_preview_server *)
| Send (m : Outbound).

Record Server := mkServer {
  storage : gmap string Project;              (* the project-<id>.json files *)
  agent_progress : gmap string (gset string); (* Orchestrator.agent_progress *)
  preview_ports : gmap string nat             (* ProjectBuilder.preview_ports *)
}.

Inductive Result (A : Type) : Type :=
| Ok (a : A)
| Raise (e : Exn).
Arguments Ok {A} a.
Arguments Raise {A} e.

(** A computation reads and writes the server state, may raise, and
    leaves a trace. What was written before a raise stays written. *)
Definition M (A : Type) : Type := Server -> Result A * Server * list Event.

Definition ret {A} (a : A) : M A := fun s => (Ok a, s, []).

Definition bind {A B} (m : M A) (k : A -> M B) : M B :=
  fun s =>
    match m s with
    | (Ok a, s1, t1) => let '(r, s2, t2) := k a s1 in (r, s2, t1 ++ t2)
    | (Raise e, s1, t1) => (Raise e, s1, t1)
    end.

Definition raise {A} (e : Exn) : M A := fun s => (Raise e, s, []).

(** [try: m except Exception as e: h e] *)
Definition try_except {A} (m : M A) (h : Exn -> M A) : M A :=
  fun s =>
    match m s with
    | (Ok a, s1, t1) => (Ok a, s1, t1)
    | (Raise e, s1, t1) => let '(r, s2, t2) := h e s1 in (r, s2, t1 ++ t2)
    end.

Definition emit (ev : Event) : M unit := fun s => (Ok tt, s, [ev]).
Definition emit_all (evs : list Event) : M unit := fun s => (Ok tt, s, evs).
Definition get_state : M Server := fun s => (Ok s, s, []).
Definition put_state (s : Server) : M unit := fun _ => (Ok tt, s, []).
Definition send (m : Outbound) : M unit := emit (Send m).

Notation "'do' x <- m ; k" := (bind m (fun x => k))
  (at level 10, x name, m at level 100, k at level 200).
Notation "m ;; k" := (bind m (fun _ => k))
  (at level 100, k at level 200, right associativity).

Definition state_of {A} (r : Result A * Server * list Event) : Server := r.1.2.
Definition trace_of {A} (r : Result A * Server * list Event) : list Event := r.2.
Definition result_of {A} (r : Result A * Server * list Event) : Result A := r.1.1.

(** ** [storage/local_storage.py] *)

Module LocalStorage.

Definition set_messages (l : list Message) (p : Project) : Project :=
  mkProject (proj_id p) (proj_name p) (proj_status p) (requirements p)
            (requirements_order p) l (generated_files p) (active_agent p).

(** The keys of the dict after [d[k] = v]: a key the dict holds keeps
    its place, a new key comes last. *)
Definition keys_with (k : string) (p : Project) : list string :=
  match requirements p !! k with
  | Some _ => requirements_order p
  | None => requirements_order p ++ [k]
  end.

(** [project_data['requirements'][agent_name] = r] *)
Definition set_requirement (agent_name : string) (r : RequirementRecord)
    (p : Project) : Project :=
  mkProject (proj_id p) (proj_name p) (proj_status p)
            (<[agent_name := r]> (requirements p)) (keys_with agent_name p)
            (messages p) (generated_files p) (active_agent p).

Definition set_generated_files (l : list FileEntry) (p : Project) : Project :=
  mkProject (proj_id p) (proj_name p) (proj_status p) (requirements p)
            (requirements_order p) (messages p) l (active_agent p).

Definition set_active (a : string) (p : Project) : Project :=
  mkProject (proj_id p) (proj_name p) (proj_status p) (requirements p)
            (requirements_order p) (messages p) (generated_files p) a.

(** [json.dump(project_data, f)] into the file of the project. *)
Definition write_project (project_id : string) (p : Project) : M unit :=
  do s <- get_state;
  put_state (mkServer (<[project_id := p]> (storage s))
                      (agent_progress s) (preview_ports s)).

Definition new_project (project_id name : string) : Project :=
  {| proj_id := project_id; proj_name := name; proj_status := "active";
     requirements := ∅; requirements_order := []; messages := [];
     generated_files := []; active_agent := "requirements_evolver" |}.

Definition create_project (project_id name : string) : M string :=
  write_project project_id (new_project project_id name) ;;
  ret project_id.

Definition get_project (project_id : string) : M Project :=
  do s <- get_state;
  match storage s !! project_id with
  | Some p => ret p
  | None => raise (ProjectNotFound project_id)
  end.

(** [update_project], whose one caller passes [{'active_agent': a}]. *)
Definition update_project (project_id : string)
    (updates : Project -> Project) : M unit :=
  do project_data <- get_project project_id;
  write_project project_id (updates project_data).

Definition add_message (project_id role message : string) : M unit :=
  do project_data <- get_project project_id;
  let message_data := mkMessage role message (active_agent project_data) in
  write_project project_id
    (set_messages (messages project_data ++ [message_data]) project_data).

Definition update_requirements (project_id agent_name : string)
    (r : RequirementRecord) : M unit :=
  do project_data <- get_project project_id;
  write_project project_id (set_requirement agent_name r project_data).

Definition set_active_agent (project_id agent_name : string) : M unit :=
  update_project project_id (set_active agent_name).

(** ['content': content[:500] + "..." if len(content) > 500 else content] *)
Definition file_data (file_path content : string) : FileEntry :=
  {| fe_path := file_path;
     fe_content := if 500 <? Py.len content
                   then Py.take 500 content +:+ "..." else content;
     fe_size := Py.len content |}.

Definition add_generated_file (project_id file_path content : string)
    : M unit :=
  do project_data <- get_project project_id;
  write_project project_id
    (set_generated_files
       (generated_files project_data ++ [file_data file_path content])
       project_data).

(** [cleanup_project]: the file of the project is removed. *)
Definition cleanup_project (project_id : string) : M unit :=
  do s <- get_state;
  put_state (mkServer (delete project_id (storage s))
                      (agent_progress s) (preview_ports s)).

End LocalStorage.

(** ** [agents/orchestrator.py]: classifier, gate and router *)

Module Orchestrator.

Definition agent_chain : list string :=
  [ "requirements_evolver"; "ux_architect"; "ui_designer";
    "frontend_engineer"; "data_architect"; "api_designer"; "devops" ].

(** *** Substance classifier *)

Definition early_agents : list string :=
  [ "requirements_evolver"; "ux_architect"; "ui_designer" ].

Definition question_phrases : list string :=
  [ "what would"; "can you"; "please provide" ].

Definition technical_indicators : list (string * list string) :=
  [ ("frontend_engineer", ["javascript"; "framework"; "component"; "interaction"]);
    ("data_architect", ["database"; "storage"; "data"; "schema"]);
    ("api_designer", ["endpoint"; "api"; "rest"; "backend"]);
    ("devops", ["deployment"; "hosting"; "server"; "cloud"]) ].

Definition _has_substantial_content (response agent_name : string) : bool :=
  if (Py.len response =? 0) || (Py.len (Py.strip response) <? 20) then false
  else
    let response_lower := Py.strip (Py.lower response) in
    let response_clean := Py.strip response in
    if Py.mem agent_name early_agents then
      let is_pure_question :=
        Py.endswith "?" response_clean
        && (Py.len response_clean <? 80)
        && Py.any_in question_phrases response_lower in
      (30 <=? Py.len response_clean) && negb is_pure_question
    else
      let agent_indicators :=
        default [] (assoc agent_name technical_indicators) in
      let has_technical_content := Py.any_in agent_indicators response_lower in
      (40 <=? Py.len response_clean) && has_technical_content.

(** *** Generation readiness gate *)

(** [sum(1 for agent_data in requirements.values()
          if agent_data and agent_data.get('has_substance', False))] *)
Definition substantial_agents (reqs : gmap string RequirementRecord) : nat :=
  length (filter (fun kv => has_substance kv.2 = true) (map_to_list reqs)).

Definition has_requirements_evolver
    (reqs : gmap string RequirementRecord) : bool :=
  match reqs !! "requirements_evolver" with
  | Some r => has_substance r
  | None => false
  end.

Definition _has_minimal_requirements (project_data : Project) : bool :=
  let reqs := requirements project_data in
  let n := substantial_agents reqs in
  (2 <=? n) || (has_requirements_evolver reqs && (1 <=? n)) || (3 <=? n).

Definition _get_generation_status_message
    (can_generate : bool) (n : nat) : string :=
  if can_generate then
    "Ready to generate! Collected requirements from " +:+ pretty n +:+ " agents."
  else if n =? 0 then
    "Please describe your project requirements first."
  else if n =? 1 then
    "Getting there! A bit more detail about design or functionality would help."
  else
    "Making progress! A few more details about your preferences would be great.".

(** [req_data and req_data.get('has_substance', False)] for the entry
    of [agent_name]. *)
Definition is_substantial (reqs : gmap string RequirementRecord)
    (agent_name : string) : bool :=
  match reqs !! agent_name with
  | Some r => has_substance r
  | None => false
  end.

(** The loop over [requirements.items()] goes through the entries in the
    order of the dict and appends the names of the substantial ones. *)
Definition status_of (project_data : Project) : Status :=
  let reqs := requirements project_data in
  let n := substantial_agents reqs in
  let ok := _has_minimal_requirements project_data in
  {| can_generate := ok;
     st_substantial_agents := n;
     agent_contributions :=
       filter (fun agent_name => is_substantial reqs agent_name = true)
              (requirements_order project_data);
     has_minimal_requirements := ok;
     st_message := _get_generation_status_message ok n |}.

(** *** Agent router *)

Definition approval_keywords : list string :=
  [ "approved"; "perfect"; "looks good"; "proceed"; "move forward";
    "next phase"; "next agent"; "switch to" ].

Definition approval_override (current_agent : string) : option string :=
  if String.eqb current_agent "ui_designer" then Some "frontend_engineer"
  else if String.eqb current_agent "requirements_evolver" then Some "ux_architect"
  else if String.eqb current_agent "ux_architect" then Some "frontend_engineer"
  else None.

(** The dict literal [agent_keywords], in the order it is written: a
    Python dict is iterated in insertion order. *)
Definition agent_keywords : list (string * list string) :=
  [ ("ui_designer", ["change design"; "change color"; "ui design"; "ui"]);
    ("ux_architect", ["navigate"; "user flow"; "ux"; "experience"; "usability"; "interface"]);
    ("data_architect", ["database"; "data"; "store"; "save"; "storage"; "persist"]);
    ("api_designer", ["api"; "backend"; "server"; "endpoint"; "rest"; "json"]);
    ("frontend_engineer", ["javascript"; "react"; "vue"; "frontend"; "client"; "browser"; "technical"; "implementation"]);
    ("devops", ["deploy"; "host"; "server"; "domain"; "production"; "cloud"]) ].

(** The loop [for agent_name, keywords in agent_keywords.items()]. *)
Fixpoint keyword_switch (table : list (string * list string))
    (message_lower : string) : option string :=
  match table with
  | [] => None
  | (agent_name, keywords) :: rest =>
      if Py.any_in keywords message_lower then Some agent_name
      else keyword_switch rest message_lower
  end.

Definition current_has_contributed (current_agent : string)
    (project_data : Project) : bool :=
  match requirements project_data !! current_agent with
  | Some r => has_substance r
  | None => false
  end.

Definition message_count (current_agent : string)
    (project_data : Project) : nat :=
  length (filter (fun m => msg_agent m = current_agent) (messages project_data)).

(** The block under [if current_agent in self.agent_chain]. The index
    test makes [agent_chain[current_index + 1]] defined. *)
Definition progress_switch (current_agent : string)
    (project_data : Project) : option string :=
  match index_of current_agent agent_chain with
  | None => None
  | Some current_index =>
      if (current_has_contributed current_agent project_data
          || (2 <=? message_count current_agent project_data))
         && (current_index <? length agent_chain - 1)
      then agent_chain !! (current_index + 1)
      else None
  end.

Definition _determine_next_agent_enhanced
    (current_agent user_message : string) (project_data : Project) : string :=
  let message_lower := Py.lower user_message in
  let approved :=
    if Py.any_in approval_keywords message_lower
    then approval_override current_agent else None in
  match approved with
  | Some a => a
  | None =>
      match keyword_switch agent_keywords message_lower with
      | Some a => a
      | None =>
          match progress_switch current_agent project_data with
          | Some a => a
          | None => current_agent
          end
      end
  end.

(** *** Conversation turns *)

Definition start_conversation (project_id : string) : M Body :=
  LocalStorage.set_active_agent project_id "requirements_evolver" ;;
  do s <- get_state;
  put_state (mkServer (storage s)
                      (<[project_id := ∅]> (agent_progress s))
                      (preview_ports s)) ;;
  ret Welcome.

Definition _call_agent_enhanced (env : Env)
    (agent_name user_message : string) (project_data : Project) : M string :=
  emit (AskAgent agent_name) ;;
  ret (agent_reply env agent_name user_message project_data).

Definition _extract_requirements_enhanced
    (project_id agent_name response user_message : string) : M bool :=
  let substance := _has_substantial_content response agent_name in
  LocalStorage.update_requirements project_id agent_name
    {| full_response := response; req_user_message := user_message;
       req_agent := agent_name; has_substance := substance |} ;;
  ret substance.

(** [if project_id in self.agent_progress:
       self.agent_progress[project_id].add(current_agent)] *)
Definition track_progress (project_id current_agent : string) : M unit :=
  do s <- get_state;
  match agent_progress s !! project_id with
  | Some seen =>
      put_state (mkServer (storage s)
                          (<[project_id := {[current_agent]} ∪ seen]>
                             (agent_progress s))
                          (preview_ports s))
  | None => ret tt
  end.

Record Routed := mkRouted {
  rt_message : string;
  rt_agent : string;
  should_generate : bool
}.

Definition route_message (env : Env) (project_id user_message : string)
    : M Routed :=
  do project_data <- LocalStorage.get_project project_id;
  let current_agent := active_agent project_data in
  let next_agent :=
    _determine_next_agent_enhanced current_agent user_message project_data in
  (if decide (next_agent = current_agent) then ret tt
   else LocalStorage.set_active_agent project_id next_agent) ;;
  let current_agent := next_agent in
  do agent_response <-
    _call_agent_enhanced env current_agent user_message project_data;
  do requirements_updated <-
    _extract_requirements_enhanced project_id current_agent
      agent_response user_message;
  track_progress project_id current_agent ;;
  ret {| rt_message := agent_response; rt_agent := current_agent;
         should_generate := false |}.

Definition can_generate_code (project_id : string) : M Status :=
  do project_data <- LocalStorage.get_project project_id;
  ret (status_of project_data).

End Orchestrator.

(** ** [agents/integration_agent.py]: structure planner, extraction,
       advisory validators *)

Module IntegrationAgent.

Definition dquote : string := String (ascii_of_nat 34) EmptyString.

(** *** Structure planner *)

Definition essential_files : list string :=
  [ "app.py"; "requirements.txt"; "templates/index.html";
    "static/css/style.css"; "static/js/app.js" ].

Definition valid_extensions : list string :=
  [ ".py"; ".html"; ".css"; ".js"; ".json"; ".md"; ".txt" ].

Definition code_patterns : list string :=
  [ "from "; "import "; "@app"; "def "; "class "; "<!DOCTYPE"; "// "; "/*" ].

Definition syntax_chars : list string :=
  [ "("; ")"; "{"; "}"; "["; "]"; "=="; "=" ].

Definition bad_chars : list string :=
  [ "*"; "?"; dquote; "<"; ">"; "|" ].

Definition path_mapping : list (string * string) :=
  [ ("style.css", "static/css/style.css");
    ("app.js", "static/js/app.js");
    ("index.html", "templates/index.html");
    ("scripts.js", "static/js/app.js");
    ("styles.css", "static/css/style.css") ].

Definition _normalize_file_path (file_path : string) : string :=
  default file_path (assoc file_path path_mapping).

Definition conflict_groups : list (string * list string) :=
  [ ("index.html", ["index.html"; "templates/index.html"]);
    ("style.css", ["style.css"; "static/css/style.css"; "styles.css"]);
    ("app.js", ["app.js"; "static/js/app.js"; "scripts.js"]) ].

(** [[f for f in conflict_group if f.startswith(('templates/', 'static/'))]] *)
Definition preferred (conflict_group : list string) : list string :=
  List.filter (Py.startswith_any ["templates/"; "static/"]) conflict_group.

(** The inner loop over [conflict_groups.values()], left at the first
    group that holds the path: what it appends to [resolved_files], and
    [None] when no group holds the path ([has_conflict] stays False). *)
Fixpoint conflict_step (groups : list (string * list string))
    (resolved_files : list string) (file_path : string)
    : option (list string) :=
  match groups with
  | [] => None
  | (_, conflict_group) :: rest =>
      if Py.mem file_path conflict_group then
        match preferred conflict_group with
        | p :: _ =>
            if Py.mem p resolved_files then Some resolved_files
            else Some (resolved_files ++ [p])
        | [] => Some resolved_files
        end
      else conflict_step rest resolved_files file_path
  end.

Definition resolve_step (resolved_files : list string)
    (file_path : string) : list string :=
  match conflict_step conflict_groups resolved_files file_path with
  | Some resolved => resolved
  | None =>
      if Py.mem file_path resolved_files then resolved_files
      else resolved_files ++ [file_path]
  end.

Definition _resolve_file_conflicts (file_list : list string) : list string :=
  fold_left resolve_step file_list [].

(** The body of the loop over the lines of the reply: the path the line
    contributes, if any. *)
Definition path_of_line (raw_line : string) : option string :=
  let line := Py.strip raw_line in
  if Py.len line =? 0 then None
  else if Py.any_in code_patterns line then None
  else if Py.any_in syntax_chars line then None
  else if Py.startswith "#" line || Py.contains "://" line
          || Py.startswith "//" line then None
  else
    let clean_path :=
      Py.strip (Py.first (Py.split "[" (Py.first (Py.split "#" line)))) in
    if negb (Py.len clean_path =? 0)
       && (Py.any_in valid_extensions clean_path
           || (Py.contains "/" clean_path
               && Py.contains "." (Py.final (Py.split "/" clean_path))))
    then
      if (Py.len clean_path <? 100)
         && negb (Py.any_in bad_chars clean_path)
         && negb (Py.endswith "/" clean_path)
      then Some (_normalize_file_path clean_path)
      else None
    else None.

(** [for essential in essential_files:
       if essential not in file_list: file_list.append(essential)] *)
Definition add_essential (file_list : list string) (essential : string)
    : list string :=
  if Py.mem essential file_list then file_list else file_list ++ [essential].

Definition _extract_file_list_deduplicated (response : string) : list string :=
  let lines := Py.split Py.newline (Py.strip response) in
  let file_list := omap path_of_line lines in
  let file_list := _resolve_file_conflicts file_list in
  fold_left add_essential essential_files file_list.

Definition plan_project_structure (env : Env) (project_data : Project)
    : list string :=
  match plan_completion env (proj_name project_data) (proj_id project_data)
          (requirements project_data) with
  | Reply content => _extract_file_list_deduplicated content
  | Failure _ =>
      [ "app.py"; "requirements.txt"; "templates/index.html";
        "static/css/style.css"; "static/js/app.js" ]
  end.

(** *** Extraction of the source text from a raw reply *)

(** [re.sub(r'```[a-z]*\n?', '', s, flags=re.IGNORECASE)], read from left
    to right; [in_tag] holds while the letters after a fence are being
    consumed. *)
Fixpoint sub_fence_open (in_tag : bool) (s : string) : string :=
  match s with
  | EmptyString => EmptyString
  | String c s1 =>
      if in_tag && Py.isalpha_ascii c then sub_fence_open true s1
      else if in_tag && Ascii.eqb c Py.newline then sub_fence_open false s1
      else
        match c, s1 with
        | "`"%char, String "`"%char (String "`"%char s3) =>
            sub_fence_open true s3
        | _, _ => String c (sub_fence_open false s1)
        end
  end.

(** [re.sub(r'```', '', s)] *)
Fixpoint sub_fence (s : string) : string :=
  match s with
  | EmptyString => EmptyString
  | String c s1 =>
      match c, s1 with
      | "`"%char, String "`"%char (String "`"%char s3) => sub_fence s3
      | _, _ => String c (sub_fence s1)
      end
  end.

Definition explanation_openers : list string :=
  [ "this is"; "here is"; "the following"; "sure,"; "certainly," ].

Definition is_explanation (stripped : string) : bool :=
  Py.startswith_any explanation_openers (Py.lower stripped)
  && negb (Py.contains "{" stripped)
  && negb (Py.contains "<" stripped)
  && negb (Py.contains "import" stripped).

Fixpoint code_lines (found_code_start : bool) (lines : list string)
    : list string :=
  match lines with
  | [] => []
  | line :: rest =>
      let stripped := Py.strip line in
      if Py.len stripped =? 0 then code_lines found_code_start rest
      else if negb found_code_start && is_explanation stripped
      then code_lines false rest
      else line :: code_lines true rest
  end.

Definition _extract_pure_code_enhanced (raw_response : string) : string :=
  if Py.len raw_response =? 0 then EmptyString
  else
    let clean := sub_fence (sub_fence_open false raw_response) in
    let lines := Py.split Py.newline clean in
    let result := Py.strip (Py.join Py.nl (code_lines false lines)) in
    if (Py.len result =? 0) || (Py.len result <? 10)
    then Py.strip raw_response
    else result.

(** *** Advisory validators *)

Definition _is_valid_python_content_trusted (content file_path : string) : bool :=
  let content_lower := Py.lower content in
  if String.eqb file_path "app.py" then
    (Py.contains "flask" content_lower
     || Py.contains "@app" content
     || Py.contains "render_template" content
     || (Py.contains "flask" content_lower && Py.contains "import" content)
     || Py.contains "from flask" content)
    || (100 <? Py.len (Py.strip content))
  else if String.eqb file_path "requirements.txt" then
    Py.any_in ["="; ">"; "<"; Py.nl] content && (5 <? Py.len (Py.strip content))
  else
    Py.any_in ["import "; "def "; "class "; "from "; "print("; "return "] content
    || (50 <? Py.len (Py.strip content)).

Definition _is_valid_html_content_trusted (content : string) : bool :=
  (Py.any_in ["<!doctype"; "<html"; "<head"; "<body"] (Py.lower content)
   || Py.any_in ["<div"; "<p>"; "<h1"; "<form"] content)
  && Py.contains "<" content && Py.contains ">" content.

Definition css_words : list string :=
  [ "color"; "font"; "margin"; "padding"; "width"; "height" ].

Definition _is_valid_css_content_trusted (content : string) : bool :=
  if (Py.len content =? 0) || (Py.len (Py.strip content) <? 10) then false
  else
    let clean_content := Py.strip content in
    let has_any_css :=
      (Py.contains "{" clean_content && Py.contains "}" clean_content)
      || Py.any_in [":"; ";"; "#"; "."] clean_content
      || Py.any_in css_words (Py.lower clean_content) in
    let balanced_braces :=
      Py.count "{" clean_content =? Py.count "}" clean_content in
    has_any_css || (balanced_braces && (25 <? Py.len clean_content)).

Definition frameworks : list string :=
  [ "import react"; "from react"; "vue"; "angular" ].

Definition _is_valid_javascript_content_trusted (content : string) : bool :=
  let content_lower := Py.lower content in
  let js_indicators :=
    Py.any_in ["function"; "const "; "let "; "document."] content
    || Py.any_in ["addeventlistener"; "getelementbyid"] content_lower
    || Py.contains "fetch" content
    || Py.contains "api" content_lower in
  let no_frameworks := negb (Py.any_in frameworks content_lower) in
  (js_indicators || (50 <? Py.len (Py.strip content))) && no_frameworks.

Definition _is_valid_file_content_trusted (content file_path : string) : bool :=
  if (Py.len content =? 0) || (Py.len (Py.strip content) <? 15) then false
  else if Py.endswith ".py" file_path then
    _is_valid_python_content_trusted content file_path
  else if Py.endswith ".html" file_path then
    _is_valid_html_content_trusted content
  else if Py.endswith ".css" file_path then
    _is_valid_css_content_trusted content
  else if Py.endswith ".js" file_path then
    _is_valid_javascript_content_trusted content
  else if Py.endswith ".txt" file_path || Py.endswith ".md" file_path then
    5 <? Py.len (Py.strip content)
  else 10 <? Py.len (Py.strip content).

(** *** One file *)

(** The text returned by the [except] branch. *)
Definition error_placeholder (file_path error : string) : string :=
  "# Error generating " +:+ file_path +:+ ". Please try again."
  +:+ Py.nl +:+ "# " +:+ error.

(** The content returned for one file and what was printed on the way. *)
Definition generate_file_content_with_context (env : Env)
    (project_data : Project) (file_path : string)
    (existing_files : list FileContext) : string * list Event :=
  match file_completion env (proj_name project_data)
          (requirements project_data) file_path existing_files with
  | Reply content =>
      let clean_code := _extract_pure_code_enhanced content in
      if _is_valid_file_content_trusted clean_code file_path
      then (clean_code, [])
      else (clean_code, [ValidationWarning "integration_agent" file_path])
  | Failure e =>
      (error_placeholder file_path e, [CompletionFailed file_path e])
  end.

End IntegrationAgent.

(** ** [services/project_builder.py]: file generator and preview binding *)

Module ProjectBuilder.

(** *** Advisory validators of the builder *)

Definition _is_valid_python_content_trusted (content file_path : string) : bool :=
  let content_lower := Py.lower content in
  if String.eqb file_path "app.py" then
    Py.contains "flask" content_lower
    || Py.any_in ["@app.route"; "render_template"; "from flask"; "import flask"] content
  else if String.eqb file_path "requirements.txt" then
    (5 <? Py.len (Py.strip content)) && Py.any_in ["="; ">"; "<"; Py.nl] content
  else
    Py.any_in ["import "; "def "; "class "; "from "; "print("; "return "] content
    || (50 <? Py.len (Py.strip content)).

Definition _is_valid_html_content_trusted (content : string) : bool :=
  (Py.any_in ["<!doctype"; "<html"; "<head"; "<body"] (Py.lower content)
   || Py.any_in ["<div"; "<p>"; "<h1"] content)
  && Py.contains "<" content && Py.contains ">" content.

Definition is_property_char (c : ascii) : bool :=
  Py.isalpha_ascii c || Ascii.eqb c "-".

(** What must follow the colon in [[a-zA-Z-]+\s*:\s*[^;]+;]: one
    character other than the semicolon, and a semicolon later. *)
Definition declaration_value (s : string) : bool :=
  match s with
  | EmptyString => false
  | String c rest => negb (Ascii.eqb c ";") && Py.contains ";" rest
  end.

(** [re.search(r'[a-zA-Z-]+\s*:\s*[^;]+;', s)]; [armed] holds when the
    text read so far ends with a property character and white space. *)
Fixpoint search_declaration (armed : bool) (s : string) : bool :=
  match s with
  | EmptyString => false
  | String c rest =>
      (armed && Ascii.eqb c ":" && declaration_value rest)
      || search_declaration
           (is_property_char c || (armed && Py.isspace c)) rest
  end.

(** [re.search(r'[.#][a-zA-Z][^{]*\{', s)] *)
Fixpoint search_selector (s : string) : bool :=
  match s with
  | EmptyString => false
  | String c rest =>
      match rest with
      | String d rest' =>
          ((Ascii.eqb c "." || Ascii.eqb c "#")
           && Py.isalpha_ascii d && Py.contains "{" rest')
          || search_selector rest
      | EmptyString => false
      end
  end.

Definition _is_valid_css_content_trusted (content : string) : bool :=
  if (Py.len content =? 0) || (Py.len (Py.strip content) <? 10) then false
  else
    let clean_content := Py.strip content in
    let has_any_css :=
      (Py.contains "{" clean_content && Py.contains "}" clean_content)
      || Py.any_in [":"; ";"; "#"; "."] clean_content
      || Py.any_in IntegrationAgent.css_words (Py.lower clean_content)
      || search_declaration false clean_content
      || search_selector clean_content in
    let balanced_braces :=
      Py.count "{" clean_content =? Py.count "}" clean_content in
    has_any_css || (balanced_braces && (20 <? Py.len clean_content)).

Definition _is_valid_javascript_content_trusted (content : string) : bool :=
  let content_lower := Py.lower content in
  let js_indicators :=
    Py.any_in ["function"; "const "; "let "; "document."] content
    || Py.any_in ["addeventlistener"; "getelementbyid"; "queryselector"]
                 content_lower in
  let no_frameworks :=
    negb (Py.any_in IntegrationAgent.frameworks content_lower) in
  (js_indicators || (50 <? Py.len (Py.strip content))) && no_frameworks.

Definition _is_valid_generated_content_trusted (content file_path : string)
    : bool :=
  if (Py.len content =? 0) || (Py.len (Py.strip content) <? 5) then false
  else if Py.endswith ".py" file_path then
    _is_valid_python_content_trusted content file_path
  else if Py.endswith ".html" file_path then
    _is_valid_html_content_trusted content
  else if Py.endswith ".css" file_path then
    _is_valid_css_content_trusted content
  else if Py.endswith ".js" file_path then
    _is_valid_javascript_content_trusted content
  else if Py.endswith ".txt" file_path || Py.endswith ".md" file_path then
    3 <? Py.len (Py.strip content)
  else 5 <? Py.len (Py.strip content).

(** *** File metadata *)

Definition extension (file_path : string) : string :=
  Py.lower (Py.final (Py.split "." file_path)).

Definition _get_file_type (file_path : string) : string :=
  default "text"
    (assoc (extension file_path)
       [ ("py", "python"); ("html", "html"); ("css", "stylesheet");
         ("js", "javascript"); ("json", "json"); ("md", "markdown");
         ("txt", "text") ]).

Definition _get_file_language (file_path : string) : string :=
  default "text"
    (assoc (extension file_path)
       [ ("py", "python"); ("html", "html"); ("css", "css");
         ("js", "javascript"); ("json", "json"); ("md", "markdown") ]).

Definition file_record (file_path content : string) : GeneratedFile :=
  {| gf_path := file_path; gf_content := content;
     gf_size := Py.len content;
     gf_type := _get_file_type file_path;
     gf_language := _get_file_language file_path |}.

(** *** The file loop of [generate_project] *)

(** [[{'path': f['path'], 'content_preview': f['content'][:500]}
      for f in generated_files]] *)
Definition existing_files_context (generated : list GeneratedFile)
    : list FileContext :=
  map (fun f => mkContext (gf_path f) (Py.take 500 (gf_content f))) generated.

(** One turn of the loop: the new value of [generated_files] and what was
    called and printed. A failed write is the exception the [except]
    branch of the loop swallows. *)
Definition generate_one (env : Env) (project_data : Project)
    (generated : list GeneratedFile) (file_path : string)
    : list GeneratedFile * list Event :=
  let '(content, printed) :=
    IntegrationAgent.generate_file_content_with_context env project_data
      file_path (existing_files_context generated) in
  let warned :=
    if _is_valid_generated_content_trusted content file_path then []
    else [ValidationWarning "project_builder" file_path] in
  if fs_write env (proj_id project_data) file_path content then
    (generated ++ [file_record file_path content],
     GenerateFile file_path :: printed ++ warned)
  else
    (generated,
     GenerateFile file_path :: printed ++ warned ++ [FileSkipped file_path]).

Fixpoint generate_files (env : Env) (project_data : Project)
    (file_structure : list string) (generated : list GeneratedFile)
    : list GeneratedFile * list Event :=
  match file_structure with
  | [] => (generated, [])
  | file_path :: rest =>
      let '(generated1, t1) :=
        generate_one env project_data generated file_path in
      let '(generated2, t2) :=
        generate_files env project_data rest generated1 in
      (generated2, t1 ++ t2)
  end.

Definition generate_project (env : Env) (project_data : Project)
    : M (list GeneratedFile) :=
  let project_id := proj_id project_data in
  (if fs_clean env project_id then ret tt
   else raise (CleanupFailed project_id)) ;;
  emit (PlanStructure project_id) ;;
  let file_structure :=
    IntegrationAgent.plan_project_structure env project_data in
  let '(generated, printed) :=
    generate_files env project_data file_structure [] in
  emit_all printed ;;
  emit (BuildPreview project_id) ;;
  ret generated.

(** *** Preview binding *)

Definition url_of (port : nat) : string := "http://localhost:" +:+ pretty port.

Definition get_preview_url (env : Env) (project_id : string) : M string :=
  do s <- get_state;
  match preview_ports s !! project_id with
  | Some port => ret (url_of port)
  | None =>
      emit (StartPreview project_id) ;;
      let port := start_preview_server env project_id (preview_ports s) in
      if port =? 0 then ret EmptyString
      else
        put_state (mkServer (storage s) (agent_progress s)
                            (<[project_id := port]> (preview_ports s))) ;;
        ret (url_of port)
  end.

End ProjectBuilder.

(** ** [main.py]: the request handlers *)

Module AIDEServer.

(** The decoded value of an inbound text, as [process_request] gets it:
    an object, read by its 'type', or a value that is not an object (a
    list, a string, a number, true, false or null). The fields
    'project_name', 'project_id' and 'message' of an object are strings
    where they are there, as the client of the repository sends them; a
    missing or null 'project_id' is [None]. *)
Inductive Request :=
| new_project (project_name : option string)
| user_message (project_id : option string) (message : string)
| get_preview (project_id : option string)
| check_generation_status (project_id : option string)
| generate_code (project_id : option string)
| ping
| unknown (message_type : string)
| not_an_object.

(** [if not project_id]: the id when it is there and not empty. *)
Definition given (project_id : option string) : option string :=
  match project_id with
  | Some p => if Py.len p =? 0 then None else Some p
  | None => None
  end.

Fixpoint for_each {A} (l : list A) (body : A -> M unit) : M unit :=
  match l with
  | [] => ret tt
  | x :: rest => body x ;; for_each rest body
  end.

Definition send_error (message : string) (e : option Exn) : M unit :=
  send (error message e).

Definition handle_new_project (env : Env) (project_name : option string)
    : M unit :=
  do s <- get_state;
  let name := default "New Project" project_name in
  let project_id := uuid4 env (storage s) in
  try_except
    (LocalStorage.create_project project_id name ;;
     send (project_created project_id name) ;;
     do welcome_msg <- Orchestrator.start_conversation project_id;
     send (agent_response welcome_msg "requirements_evolver"))
    (fun e =>
       LocalStorage.cleanup_project project_id ;;
       send_error "Failed to create project" (Some e)).

Definition handle_user_message (env : Env) (project_id : option string)
    (message : string) : M unit :=
  try_except
    (match given project_id with
     | None => send_error "No project ID provided" None
     | Some project_id =>
         LocalStorage.add_message project_id "user" message ;;
         do current_project_data <- LocalStorage.get_project project_id;
         do routed <- Orchestrator.route_message env project_id message;
         LocalStorage.add_message project_id "agent"
           (Orchestrator.rt_message routed) ;;
         send (agent_response (Text (Orchestrator.rt_message routed))
                              (Orchestrator.rt_agent routed)) ;;
         do status <- Orchestrator.can_generate_code project_id;
         send (generation_status project_id status)
     end)
    (fun e => send_error "Failed to process message" (Some e)).

Definition handle_check_generation_status (project_id : option string)
    : M unit :=
  try_except
    (match given project_id with
     | None => send_error "No project ID provided" None
     | Some project_id =>
         do status <- Orchestrator.can_generate_code project_id;
         send (generation_status project_id status)
     end)
    (fun e => send_error "Failed to check generation status" (Some e)).

Definition generate_project_code (env : Env) (project_id : string) : M unit :=
  try_except
    (do project_data <- LocalStorage.get_project project_id;
     send (generation_started project_id) ;;
     do generated <- ProjectBuilder.generate_project env project_data;
     for_each generated
       (fun f => LocalStorage.add_generated_file project_id
                   (gf_path f) (gf_content f)) ;;
     do url <- ProjectBuilder.get_preview_url env project_id;
     send (code_generated project_id generated url (length generated)
             (foldr (fun f n => gf_size f + n) 0 generated)))
    (fun e =>
       send (code_generation_error project_id e) ;;
       send_error "Failed to generate code" (Some e)).

Definition handle_generate_code (env : Env) (project_id : option string)
    : M unit :=
  try_except
    (match given project_id with
     | None => send_error "No project ID provided" None
     | Some project_id =>
         do status <- Orchestrator.can_generate_code project_id;
         if can_generate status then generate_project_code env project_id
         else send (generation_failed project_id (st_message status))
     end)
    (fun e => send_error "Failed to generate code" (Some e)).

(** [handle_get_preview] passes the id on as it is; a missing id reads
    as the text Python prints for it. *)
Definition handle_get_preview (env : Env) (project_id : option string)
    : M unit :=
  try_except
    (do url <- ProjectBuilder.get_preview_url env (default "None" project_id);
     send (preview_url url))
    (fun e => send_error "Failed to get preview" (Some e)).

Definition process_request (env : Env) (data : Request) : M unit :=
  match data with
  | new_project project_name => handle_new_project env project_name
  | user_message project_id message =>
      handle_user_message env project_id message
  | get_preview project_id => handle_get_preview env project_id
  | check_generation_status project_id =>
      handle_check_generation_status project_id
  | generate_code project_id => handle_generate_code env project_id
  | ping => send pong
  | unknown message_type => send_error "Unknown message type" None
  | not_an_object => raise (AttributeError "get")
  end.

(** A text received on the socket: JSON text, with the value it decodes
    to, or a text [json.loads] refuses. *)
Inductive Inbound :=
| Json (data : Request)
| NotJson.

(** [process_message]: the decoding and the request under one [try]. *)
Definition process_message (env : Env) (message : Inbound) : M unit :=
  match message with
  | NotJson => send_error "Invalid JSON format" None
  | Json data =>
      try_except (process_request env data)
        (fun e => send_error "Processing error" (Some e))
  end.

(** A session: the decoded requests of a client, served in arrival
    order as [handle_connection] does, one [process_message] each. *)
Fixpoint serve (env : Env) (requests : list Request) : M unit :=
  match requests with
  | [] => ret tt
  | data :: rest => process_message env (Json data) ;; serve env rest
  end.

Definition initial : Server :=
  {| storage := ∅; agent_progress := ∅; preview_ports := ∅ |}.

End AIDEServer.


(** ** More of [agents/orchestrator.py]: summaries and the database spec *)

Module OrchestratorText.

Definition _create_agent_summary (response : string) : string :=
  if Py.len response <=? 100 then response
  else
    let lines := Py.split "." response in
    if negb (length lines =? 0) && (20 <? Py.len (Py.first lines))
    then Py.first lines +:+ "..."
    else Py.take 97 response +:+ "...".

(** The loop of [_create_intelligent_summary_enhanced] over the lines,
    left by [break] once the joined lines pass 150 characters. *)
Fixpoint meaningful_lines (found lines : list string) : list string :=
  match lines with
  | [] => found
  | line :: rest =>
      let stripped := Py.strip line in
      if negb (Py.len stripped =? 0)
         && negb (Py.startswith_any ["#"; "//"; "/*"] stripped)
         && (10 <? Py.len stripped)
      then
        let found' := found ++ [stripped] in
        if 150 <? Py.len (Py.join Py.nl found') then found'
        else meaningful_lines found' rest
      else meaningful_lines found rest
  end.

Definition _create_intelligent_summary_enhanced (response : string) : string :=
  if Py.len response <=? 200 then response
  else
    let summary :=
      Py.join Py.nl (meaningful_lines [] (Py.split Py.newline response)) in
    if 200 <? Py.len summary then Py.take 197 summary +:+ "..."
    else summary.

(** [_extract_data_specs_enhanced] returns a dict with at most the key
    'database'; the model returns the value stored under it, if any. *)
Definition _extract_data_specs_enhanced (response : string) : option string :=
  let response_lower := Py.lower response in
  if Py.any_in ["sql"; "postgres"; "mysql"] response_lower then Some "sql"
  else if Py.any_in ["nosql"; "mongodb"] response_lower then Some "nosql"
  else if Py.any_in ["local storage"; "browser storage"] response_lower
  then Some "local"
  else None.

End OrchestratorText.

(** ** More of [storage/local_storage.py]: the conversation history *)

Module StorageQueries.

(** [l[-limit:]] for any integer [limit], as Python slices: a negative
    start counts from the end and is clamped at the first element, a
    start past the end gives the empty list. *)
Definition last_slice {A : Type} (limit : Z) (l : list A) : list A :=
  let n := Z.of_nat (length l) in
  let start := (- limit)%Z in
  let start :=
    if (start <? 0)%Z then Z.max (start + n) 0 else Z.min start n in
  drop (Z.to_nat start) l.

Definition get_conversation_history (project_id : string) (limit : Z)
    : M (list Message) :=
  do project_data <- LocalStorage.get_project project_id;
  ret (last_slice limit (messages project_data)).

End StorageQueries.

(** ** More of [services/project_builder.py]: ports and readiness *)

Module PreviewServer.

(** [settings.PREVIEW_PORT_RANGE] *)
Definition PREVIEW_PORT_RANGE : nat * nat := (3001, 3010).

(** [port not in self.preview_ports.values() and is_port_available(port)];
    [bindable] is the answer of the socket bind. *)
Definition usable (bindable : nat -> bool) (preview_ports : gmap string nat)
    (port : nat) : bool :=
  negb (bool_decide (port ∈ (map_to_list preview_ports).*2))
  && bindable port.

(** [_get_available_port]: the configured range, then 8000..8999, then
    the port the system picks for a bind to port 0. *)
Definition _get_available_port (bindable : nat -> bool) (ephemeral : nat)
    (preview_ports : gmap string nat) : nat :=
  let start_port := PREVIEW_PORT_RANGE.1 in
  let end_port := PREVIEW_PORT_RANGE.2 in
  match List.find (usable bindable preview_ports)
                  (seq start_port (end_port + 1 - start_port)) with
  | Some port => port
  | None =>
      match List.find (usable bindable preview_ports) (seq 8000 1000) with
      | Some port => port
      | None => ephemeral
      end
  end.

(** What one [requests.get] of the readiness poll gives: a response with
    its status code, or an exception. *)
Inductive Probe :=
| Answer (status_code : nat)
| NoAnswer.

Definition alive (p : Probe) : bool :=
  match p with
  | Answer status_code => (status_code =? 200) || (status_code =? 404)
  | NoAnswer => false
  end.

(** The loop of [_wait_for_server_ready] from attempt [attempt] with
    [remaining] attempts left: whether the server answered, and how many
    probes were made. *)
Fixpoint wait_from (probe : nat -> Probe) (attempt remaining : nat)
    : bool * nat :=
  match remaining with
  | 0 => (false, 0)
  | S remaining' =>
      if alive (probe attempt) then (true, 1)
      else
        let '(ready, probes) := wait_from probe (S attempt) remaining' in
        (ready, S probes)
  end.

Definition _wait_for_server_ready (probe : nat -> Probe) (max_attempts : nat)
    : bool * nat :=
  wait_from probe 0 max_attempts.

End PreviewServer.

(** ** Vocabulary of the further properties *)

Module Laws.

(** The paths of the file generator calls of a trace, in order. *)
Definition generated_paths (t : list Event) : list string :=
  omap (fun ev => match ev with GenerateFile p => Some p | _ => None end) t.

(** The messages sent to the client in a trace, in order. *)
Definition sent (t : list Event) : list Outbound :=
  omap (fun ev => match ev with Send m => Some m | _ => None end) t.

(** A path the planner lets through: not empty, shorter than 100
    characters, free of the characters a file system refuses, and not a
    directory. *)
Definition plain_path (p : string) : Prop :=
  Py.len p <> 0
  /\ Py.len p < 100
  /\ Py.any_in IntegrationAgent.bad_chars p = false
  /\ Py.endswith "/" p = false.

(** [port in range(lo, hi)] *)
Definition in_range (lo hi : Z) (port : nat) : Prop :=
  (lo <= Z.of_nat port < hi)%Z.

(** The paths of the files the loop gave up on, in order. *)
Definition skipped_paths (t : list Event) : list string :=
  omap (fun ev => match ev with FileSkipped p => Some p | _ => None end) t.

(** The bare names the conflict groups replace. *)
Definition bare_aliases : list string :=
  [ "index.html"; "style.css"; "styles.css"; "app.js"; "scripts.js" ].

(** The record kept for an answer of [agent] to [user_message]. *)
Definition record_for (agent response user_message : string)
    : RequirementRecord :=
  {| full_response := response; req_user_message := user_message;
     req_agent := agent;
     has_substance := Orchestrator._has_substantial_content response agent |}.



(** A conversation turn on a project stored as [p]: the document as the
    router sees it, with the user message filed under the agent active
    before the turn; the agent that answers; its reply. *)
Definition heard (message : string) (p : Project) : Project :=
  LocalStorage.set_messages
    (messages p ++ [mkMessage "user" message (active_agent p)]) p.

Definition turn_agent (message : string) (p : Project) : string :=
  Orchestrator._determine_next_agent_enhanced (active_agent p) message
    (heard message p).

Definition turn_reply (env : Env) (message : string) (p : Project) : string :=
  agent_reply env (turn_agent message p) message (heard message p).

(** The document the turn leaves: both messages appended, the record of
    the answering agent overwritten, that agent active. *)
Definition after_turn (env : Env) (message : string) (p : Project) : Project :=
  {| proj_id := proj_id p; proj_name := proj_name p;
     proj_status := proj_status p;
     requirements :=
       <[turn_agent message p :=
           record_for (turn_agent message p) (turn_reply env message p)
             message]> (requirements p);
     requirements_order := LocalStorage.keys_with (turn_agent message p) p;
     messages :=
       messages p
       ++ [ mkMessage "user" message (active_agent p);
            mkMessage "agent" (turn_reply env message p)
              (turn_agent message p) ];
     generated_files := generated_files p;
     active_agent := turn_agent message p |}.

(** The keyword table of the router without "ui design", "database" and
    the "server" of the deployment role. *)
Definition decisive_keywords : list (string * list string) :=
  [ ("ui_designer", ["change design"; "change color"; "ui"]);
    ("ux_architect", ["navigate"; "user flow"; "ux"; "experience"; "usability"; "interface"]);
    ("data_architect", ["data"; "store"; "save"; "storage"; "persist"]);
    ("api_designer", ["api"; "backend"; "server"; "endpoint"; "rest"; "json"]);
    ("frontend_engineer", ["javascript"; "react"; "vue"; "frontend"; "client"; "browser"; "technical"; "implementation"]);
    ("devops", ["deploy"; "host"; "domain"; "production"; "cloud"]) ].

(** The keys of the 'requirements' dict are listed once each, as a dict
    holds them. *)
Definition keys_in_order (p : Project) : Prop :=
  NoDup (requirements_order p)
  /\ forall k, k ∈ requirements_order p <-> is_Some (requirements p !! k).


(** [s'] holds for project [q] what [s] holds for it. *)
Definition same_project (q : string) (s s' : Server) : Prop :=
  storage s' !! q = storage s !! q
  /\ agent_progress s' !! q = agent_progress s !! q
  /\ preview_ports s' !! q = preview_ports s !! q.

(** [m] leaves what is held for project [q] as it is. *)
Definition keeps (q : string) {A : Type} (m : M A) : Prop :=
  forall s, same_project q s (state_of (m s)).

End Laws.


(** ** Vocabulary of the properties *)

Module Spec.

Import Orchestrator.

(** A reply is a short pure clarifying question: it ends in a question
    mark, is shorter than 80 characters and holds one of the question
    openers. *)
Definition pure_question (response : string) : Prop :=
  Py.endswith "?" (Py.strip response) = true
  /\ Py.len (Py.strip response) < 80
  /\ exists phrase, phrase ∈ question_phrases
       /\ Py.contains phrase (Py.strip (Py.lower response)) = true.

(** A reply holds a technical keyword of the vocabulary of the role. *)
Definition has_technical_keyword (role response : string) : Prop :=
  exists vocabulary keyword,
    assoc role technical_indicators = Some vocabulary
    /\ keyword ∈ vocabulary
    /\ Py.contains keyword (Py.strip (Py.lower response)) = true.

(** The roles whose keywords occur in the message, in the order of the
    keyword table. *)
Definition keyword_roles (message : string) : list string :=
  (List.filter (fun entry => Py.any_in entry.2 (Py.lower message))
               agent_keywords).*1.

(** No approval override applies: the message holds no approval phrase,
    or the current role has no entry in the override map. *)
Definition no_override (current_agent message : string) : Prop :=
  Py.any_in approval_keywords (Py.lower message) = false
  \/ approval_override current_agent = None.

(** [r] is the candidate that comes first in [order]. *)
Definition first_in (order candidates : list string) (r : string) : Prop :=
  r ∈ candidates
  /\ exists i, index_of r order = Some i
       /\ forall r' j, r' ∈ candidates -> index_of r' order = Some j -> i <= j.

(** Keywords of two or more roles other than the current one occur. *)
Definition two_other_roles_match (current_agent message : string) : Prop :=
  exists r1 r2, r1 <> r2 /\ r1 <> current_agent /\ r2 <> current_agent
    /\ r1 ∈ keyword_roles message /\ r2 ∈ keyword_roles message.

(** The order of the keyword table. *)
Definition keyword_order : list string := agent_keywords.*1.

(** The jump as C4 words it: with keywords of two or more other roles
    and no override, the router returns the matching role other than the
    current one that comes first in the order of the chain. *)
Definition jumps_to_first_in_chain : Prop :=
  forall (current_agent message : string) (project_data : Project),
    no_override current_agent message ->
    two_other_roles_match current_agent message ->
    first_in agent_chain
      (filter (fun r => r <> current_agent) (keyword_roles message))
      (_determine_next_agent_enhanced current_agent message project_data).

(** *** Sessions *)

(** Every stored project has its active agent in the chain. *)
Definition agents_in_chain (s : Server) : Prop :=
  forall project_id project_data,
    storage s !! project_id = Some project_data ->
    active_agent project_data ∈ agent_chain.

(** The project is stored, and every stored project has its active agent
    in the chain. *)
Definition project_in_chain (project_id : string) (s : Server) : Prop :=
  is_Some (storage s !! project_id) /\ agents_in_chain s.

(** Events of the generation run: planner, file generator and the build
    of the preview directory. *)
Definition generation_event (ev : Event) : bool :=
  match ev with
  | PlanStructure _ | GenerateFile _ | ValidationWarning _ _
  | CompletionFailed _ _ | FileSkipped _ | BuildPreview _ => true
  | _ => false
  end.

(** Events of the whole pipeline: the generation run and the start of a
    preview server. *)
Definition pipeline_event (ev : Event) : bool :=
  generation_event ev
  || match ev with StartPreview _ => true | _ => false end.

(** [m] keeps the invariant [I] of the server, leaves no event that [P]
    marks, and returns values that satisfy [Q]. *)
Definition triple (I : Server -> Prop) (P : Event -> bool) {A : Type}
    (m : M A) (Q : A -> Prop) : Prop :=
  forall s, I s ->
    I (state_of (m s))
    /\ Forall (fun ev => P ev = false) (trace_of (m s))
    /\ forall a, result_of (m s) = Ok a -> Q a.

(** *** Generation runs *)

(** The records of a run over the planned files [plan]. *)
Definition run_files (env : Env) (project_data : Project)
    (plan : list string) : list GeneratedFile :=
  (ProjectBuilder.generate_files env project_data plan []).1.

Definition run_trace (env : Env) (project_data : Project)
    (plan : list string) : list Event :=
  (ProjectBuilder.generate_files env project_data plan []).2.

(** The outcome of the completion call for [file_path] when the files of
    [before] have been gone through. *)
Definition completion_after (env : Env) (project_data : Project)
    (before : list string) (file_path : string) : Completion :=
  file_completion env (proj_name project_data) (requirements project_data)
    file_path
    (ProjectBuilder.existing_files_context (run_files env project_data before)).

(** The count as C2 words it: a failed completion call for one planned
    file makes the run return fewer records than planned files. *)
Definition failed_completion_lowers_count : Prop :=
  forall (env : Env) (project_data : Project) (s : Server)
         (before : list string) (file_path : string) (after : list string)
         (e : string) (files : list GeneratedFile),
    IntegrationAgent.plan_project_structure env project_data
      = before ++ file_path :: after ->
    completion_after env project_data before file_path = Failure e ->
    result_of (ProjectBuilder.generate_project env project_data s) = Ok files ->
    length files < length (before ++ file_path :: after).

(** The entry the project document gets for a record of a run. *)
Definition entry_of (f : GeneratedFile) : FileEntry :=
  LocalStorage.file_data (gf_path f) (gf_content f).


(** *** Planned structures *)

(** The path that stands for [file_path]: the nested path of its
    conflict group when it belongs to one, and the path itself
    otherwise. *)
Definition canonical (file_path : string) : string :=
  match List.find (fun g => Py.mem file_path g.2)
                  IntegrationAgent.conflict_groups with
  | Some g => default file_path (head (IntegrationAgent.preferred g.2))
  | None => file_path
  end.

(** The elements of a list in the order they are first seen. *)
Definition first_seen (l : list string) : list string :=
  reverse (remove_dups (reverse l)).

(** The path belongs to none of the conflict groups. *)
Definition outside_groups (file_path : string) : Prop :=
  forall key group,
    (key, group) ∈ IntegrationAgent.conflict_groups -> file_path ∉ group.

End Spec.


(** ** Concrete inputs used by the examples *)

Module Examples.

Definition reply_text : string :=
  "The app keeps a list of tasks with owners and due dates.".

(** The record [_extract_requirements_enhanced] stores for a reply. *)
Definition record_of (agent response : string) : RequirementRecord :=
  {| full_response := response; req_user_message := "a todo app";
     req_agent := agent;
     has_substance := Orchestrator._has_substantial_content response agent |}.

Definition fresh : Project := LocalStorage.new_project "abcd1234" "Todo App".

(** A project where the requirements role alone has answered. *)
Definition requirements_only : Project :=
  LocalStorage.set_requirement "requirements_evolver"
    (record_of "requirements_evolver" reply_text) fresh.

Definition css_text : string := "body { color: #333; margin: 0; }".

(** A world where planning fails, the completion call for app.py fails,
    and every other file gets the same style sheet text. *)
Definition env : Env :=
  {| agent_reply := fun _ _ _ => reply_text;
     plan_completion := fun _ _ _ => Failure "connection refused";
     file_completion := fun _ _ file_path _ =>
       if String.eqb file_path "app.py" then Failure "timed out"
       else Reply css_text;
     fs_clean := fun _ => true;
     fs_write := fun _ _ _ => true;
     start_preview_server := fun _ _ => 3001;
     uuid4 := fun _ => "abcd1234" |}.

(** A new project and two conversation turns. *)
Definition session : list AIDEServer.Request :=
  [ AIDEServer.new_project (Some "Todo App");
    AIDEServer.user_message (Some "abcd1234") "a todo list for my team";
    AIDEServer.user_message (Some "abcd1234") "keep the tasks in a database" ].

Definition after_session : Server :=
  state_of (AIDEServer.serve env session AIDEServer.initial).

(** A project where the two design roles have answered with substance,
    and a world where every agent answers with a short question. *)
Definition two_designers : Project :=
  LocalStorage.set_requirement "ui_designer"
    (record_of "ui_designer" reply_text)
    (LocalStorage.set_requirement "ux_architect"
       (record_of "ux_architect" reply_text)
       (LocalStorage.set_active "ui_designer" fresh)).

Definition asking_env : Env :=
  {| agent_reply := fun _ _ _ => "Could you say more?";
     plan_completion := plan_completion env;
     file_completion := file_completion env;
     fs_clean := fs_clean env;
     fs_write := fs_write env;
     start_preview_server := start_preview_server env;
     uuid4 := uuid4 env |}.

(** A text of 110 characters without a full stop. *)
Definition long_text : string :=
  Py.join EmptyString (replicate 11 "ten chars ").

(** The document of the project after the session. *)
Definition stored : Project :=
  default fresh (storage after_session !! "abcd1234").

(** A server that stores the project of the two design roles. *)
Definition designing : Server :=
  {| storage := {[ "abcd1234" := two_designers ]};
     agent_progress := ∅; preview_ports := ∅ |}.


End Examples.


(** * Properties *)

(** ** Strings *)

Lemma any_in_true (ks : list string) (s : string) :
  Py.any_in ks s = true <-> exists k, k ∈ ks /\ Py.contains k s = true.
Proof.
  unfold Py.any_in. rewrite existsb_exists.
  split; intros (k & Hk & Hc); exists k; split; auto;
    by apply list_elem_of_In.
Qed.

Lemma mem_true (x : string) (l : list string) :
  Py.mem x l = true <-> x ∈ l.
Proof.
  unfold Py.mem. rewrite existsb_exists. split.
  - intros (y & Hy & Heq). apply String.eqb_eq in Heq. subst.
    by apply list_elem_of_In.
  - intros H. exists x. split; [by apply list_elem_of_In | apply String.eqb_refl].
Qed.

Lemma mem_false (x : string) (l : list string) :
  Py.mem x l = false <-> x ∉ l.
Proof.
  rewrite <- mem_true. by destruct (Py.mem x l).
Qed.

Lemma len_strip_of_empty (s : string) :
  Py.len s = 0 -> Py.len (Py.strip s) = 0.
Proof. destruct s; [reflexivity | discriminate]. Qed.

(** ** C5: the substance classifier *)

Section Classifier.

Import Orchestrator Spec.

Lemma pure_question_test (response : string) :
  pure_question response <->
  Py.endswith "?" (Py.strip response)
  && (Py.len (Py.strip response) <? 80)
  && Py.any_in question_phrases (Py.strip (Py.lower response)) = true.
Proof.
  unfold pure_question.
  rewrite !andb_true_iff, Nat.ltb_lt, any_in_true. tauto.
Qed.

Lemma technical_keyword_test (role response : string) :
  has_technical_keyword role response <->
  Py.any_in (default [] (assoc role technical_indicators))
            (Py.strip (Py.lower response)) = true.
Proof.
  unfold has_technical_keyword. rewrite any_in_true. split.
  - intros (vocabulary & keyword & Hv & Hk & Hc). rewrite Hv. simpl. eauto.
  - intros (keyword & Hk & Hc).
    destruct (assoc role technical_indicators) as [vocabulary|] eqn:Hv.
    + exists vocabulary, keyword. auto.
    + simpl in Hk. by apply elem_of_nil in Hk.
Qed.

Lemma early_role_test (role : string) :
  role ∈ take 3 agent_chain -> Py.mem role early_agents = true.
Proof. intros H. apply mem_true. exact H. Qed.

Lemma technical_role_test (role : string) :
  role ∈ drop 3 agent_chain -> Py.mem role early_agents = false.
Proof.
  intros H. apply mem_false. intros Hearly.
  simpl in H. unfold early_agents in Hearly.
  repeat (apply elem_of_cons in H as [-> | H];
          [ repeat (apply elem_of_cons in Hearly as [Heq | Hearly];
                    [discriminate Heq |]);
            by apply elem_of_nil in Hearly | ]).
  by apply elem_of_nil in H.
Qed.

(** C5. Replies of fewer than 20 stripped characters are never
    substantial. For the first three roles of the chain a reply is
    substantial exactly when it has at least 30 stripped characters and is
    not a short pure clarifying question. For the other four roles it is
    substantial exactly when it has at least 40 stripped characters and
    holds a technical keyword of the role. *)
Theorem substance_classifier_rules (role response : string) :
  (Py.len (Py.strip response) < 20 ->
   _has_substantial_content response role = false)
  /\ (role ∈ take 3 agent_chain ->
      (_has_substantial_content response role = true <->
       30 <= Py.len (Py.strip response) /\ ~ pure_question response))
  /\ (role ∈ drop 3 agent_chain ->
      (_has_substantial_content response role = true <->
       40 <= Py.len (Py.strip response)
       /\ has_technical_keyword role response)).
Proof.
  split; [| split].
  - intros Hshort. unfold _has_substantial_content.
    apply Nat.ltb_lt in Hshort. rewrite Hshort.
    by rewrite orb_true_r.
  - intros Hrole. unfold _has_substantial_content.
    rewrite (early_role_test role Hrole), pure_question_test.
    destruct (Py.len response =? 0) eqn:Hempty;
      rewrite ?orb_true_l, ?orb_false_l; cbv iota.
    + apply Nat.eqb_eq, len_strip_of_empty in Hempty. rewrite Hempty.
      split; [discriminate | intros [Hlen _]; lia].
    + destruct (Nat.ltb_spec (Py.len (Py.strip response)) 20) as [Hlt | Hge].
      * split; [discriminate | intros [Hlen _]; lia].
      * cbv iota. rewrite andb_true_iff, Nat.leb_le, negb_true_iff.
        by rewrite not_true_iff_false.
  - intros Hrole. unfold _has_substantial_content.
    rewrite (technical_role_test role Hrole), technical_keyword_test.
    destruct (Py.len response =? 0) eqn:Hempty;
      rewrite ?orb_true_l, ?orb_false_l; cbv iota.
    + apply Nat.eqb_eq, len_strip_of_empty in Hempty. rewrite Hempty.
      split; [discriminate | intros [Hlen _]; lia].
    + destruct (Nat.ltb_spec (Py.len (Py.strip response)) 20) as [Hlt | Hge].
      * split; [discriminate | intros [Hlen _]; lia].
      * cbv iota. by rewrite andb_true_iff, Nat.leb_le.
Qed.

Lemma substance_classifier_rules_witness :
  _has_substantial_content "Sounds good to me." "devops" = false
  /\ _has_substantial_content Examples.reply_text "ux_architect" = true
  /\ _has_substantial_content
       "Host it on a small cloud server behind a proxy." "devops" = true.
Proof.
  split; [| split].
  - destruct (substance_classifier_rules "devops" "Sounds good to me.")
      as (Hshort & _ & _).
    apply Hshort. vm_compute. lia.
  - destruct (substance_classifier_rules "ux_architect" Examples.reply_text)
      as (_ & Hearly & _).
    apply Hearly.
    + apply mem_true. reflexivity.
    + split; [vm_compute; lia |].
      intros (Hend & _). vm_compute in Hend. discriminate.
  - destruct (substance_classifier_rules "devops"
                "Host it on a small cloud server behind a proxy.")
      as (_ & _ & Htechnical).
    apply Htechnical.
    + apply mem_true. reflexivity.
    + split; [vm_compute; lia |].
      exists ["deployment"; "hosting"; "server"; "cloud"], "cloud".
      split; [reflexivity |]. split; [| reflexivity].
      apply mem_true. reflexivity.
Defined.

(** A short question of an early role is not substantial, a long one is. *)
Example clarifying_question_not_substantial :
  _has_substantial_content
    "What would you like the application to do?" "requirements_evolver" = false.
Proof. reflexivity. Qed.

End Classifier.

(** ** C1: the generation readiness gate *)

Section Gate.

Import Orchestrator.

Lemma substantial_agents_pos (reqs : gmap string RequirementRecord)
    (agent : string) (r : RequirementRecord) :
  reqs !! agent = Some r -> has_substance r = true ->
  1 <= substantial_agents reqs.
Proof.
  intros Hlookup Hsub. unfold substantial_agents.
  assert (Hin : (agent, r) ∈
            filter (fun kv : string * RequirementRecord =>
                      has_substance kv.2 = true) (map_to_list reqs)).
  { apply list_elem_of_filter. split; [exact Hsub |].
    by apply elem_of_map_to_list. }
  destruct (filter _ _) as [| x l]; [by apply elem_of_nil in Hin |].
  simpl. lia.
Qed.

(** The gate is the formula of the code over the count of substantial
    roles and the flag of the requirements role. *)
Lemma gate_formula (project_data : Project) :
  let n := substantial_agents (requirements project_data) in
  _has_minimal_requirements project_data = true <->
  2 <= n
  \/ (has_requirements_evolver (requirements project_data) = true /\ 1 <= n)
  \/ 3 <= n.
Proof.
  unfold _has_minimal_requirements. cbv zeta.
  rewrite !orb_true_iff, andb_true_iff, !Nat.leb_le. tauto.
Qed.

(** C1. When the requirements role has a substantial record and no other
    role has one (the count of substantial roles is 1), the gate returns
    True: the second disjunct of the formula asks for a count of 1, which
    the requirements role already gives. *)
Theorem gate_opens_for_requirements_alone (project_data : Project) :
  has_requirements_evolver (requirements project_data) = true ->
  substantial_agents (requirements project_data) = 1 ->
  _has_minimal_requirements project_data = true.
Proof.
  intros Hre Hone. apply gate_formula. right. left. split; [exact Hre | lia].
Qed.

Lemma gate_opens_for_requirements_alone_witness :
  has_requirements_evolver (requirements Examples.requirements_only) = true
  /\ substantial_agents (requirements Examples.requirements_only) = 1
  /\ _has_minimal_requirements Examples.requirements_only = true.
Proof.
  split; [| split].
  - vm_compute. reflexivity.
  - vm_compute. reflexivity.
  - apply (gate_opens_for_requirements_alone Examples.requirements_only);
      vm_compute; reflexivity.
Defined.

(** With the requirements role substantial the count plays no part. *)
Lemma gate_is_requirements_or_two (project_data : Project) :
  _has_minimal_requirements project_data = true <->
  has_requirements_evolver (requirements project_data) = true
  \/ 2 <= substantial_agents (requirements project_data).
Proof.
  rewrite gate_formula. cbv zeta. split.
  - intros [H | [[H _] | H]]; auto. right. lia.
  - intros [H | H]; auto. right. left. split; [exact H |].
    unfold has_requirements_evolver in H.
    destruct (requirements project_data !! "requirements_evolver")
      as [r|] eqn:Hr; [| discriminate].
    eapply substantial_agents_pos; eauto.
Qed.

End Gate.

(** ** C4 and C10: the agent router *)

Section Router.

Import Orchestrator Spec.

Lemma keyword_switch_head (table : list (string * list string))
    (message_lower : string) :
  keyword_switch table message_lower =
  head (List.filter (fun entry => Py.any_in entry.2 message_lower) table).*1.
Proof.
  induction table as [| [agent_name keywords] rest IH]; [reflexivity |].
  simpl. destruct (Py.any_in keywords message_lower); [reflexivity | exact IH].
Qed.

Lemma keyword_switch_in_table (table : list (string * list string))
    (message_lower a : string) :
  keyword_switch table message_lower = Some a -> a ∈ table.*1.
Proof.
  induction table as [| [agent_name keywords] rest IH]; [discriminate |].
  simpl. destruct (Py.any_in keywords message_lower).
  - intros [= ->]. apply elem_of_cons. by left.
  - intros H. apply elem_of_cons. right. by apply IH.
Qed.

Lemma filtered_keys_in_table (table : list (string * list string))
    (keep : string * list string -> bool) (r : string) :
  r ∈ (List.filter keep table).*1 -> r ∈ table.*1.
Proof.
  intros H. apply list_elem_of_fmap in H as (entry & -> & Hentry).
  apply list_elem_of_In, filter_In in Hentry as [Hentry _].
  apply list_elem_of_fmap. exists entry. split; [reflexivity |].
  by apply list_elem_of_In.
Qed.

Lemma index_of_cons_ne (x y : string) (l : list string) :
  x <> y -> index_of x (y :: l) = S <$> index_of x l.
Proof.
  intros Hne. simpl. destruct (String.eqb_spec x y); [contradiction | reflexivity].
Qed.

(** In a table without repeated keys the first entry that matches is the
    first of the matching keys in the order of the table. *)
Lemma first_match_is_first_in (table : list (string * list string))
    (keep : string * list string -> bool) (r : string) :
  NoDup table.*1 ->
  head (List.filter keep table).*1 = Some r ->
  first_in table.*1 (List.filter keep table).*1 r.
Proof.
  induction table as [| [agent_name keywords] rest IH]; [discriminate |].
  intros Hnodup Hhead.
  rewrite fmap_cons in Hnodup. cbn [fst] in Hnodup.
  apply NoDup_cons in Hnodup as [Hfresh Hnodup].
  rewrite fmap_cons. cbn [fst List.filter] in *.
  destruct (keep (agent_name, keywords)) eqn:Hkeep.
  - rewrite fmap_cons in *. cbn [fst head] in *.
    injection Hhead as ->. split; [apply elem_of_cons; by left |].
    exists 0. split; [| intros; lia].
    unfold index_of. by rewrite String.eqb_refl.
  - destruct (IH Hnodup Hhead) as (Hin & i & Hi & Hmin).
    assert (Hother : forall r', r' ∈ (List.filter keep rest).*1 ->
                                 r' <> agent_name).
    { intros r' Hr' ->. apply Hfresh. by eapply filtered_keys_in_table. }
    split; [exact Hin |]. exists (S i). split.
    + rewrite index_of_cons_ne by auto. by rewrite Hi.
    + intros r' j Hr' Hj.
      rewrite index_of_cons_ne in Hj by auto.
      destruct (index_of r' rest.*1) as [j' |] eqn:Hj'; [| discriminate].
      injection Hj as <-. specialize (Hmin r' j' Hr' Hj'). lia.
Qed.

Lemma keyword_order_nodup : NoDup keyword_order.
Proof. apply (bool_decide_unpack _). vm_compute. exact I. Qed.

Lemma no_override_falls_through (current_agent message : string) :
  no_override current_agent message ->
  (if Py.any_in approval_keywords (Py.lower message)
   then approval_override current_agent else None) = None.
Proof. intros [-> | ->]; [reflexivity | by destruct (Py.any_in _ _)]. Qed.

(** The jump for every message that holds a keyword of the table. *)
Lemma keyword_jump (current_agent message r : string)
    (project_data : Project) :
  no_override current_agent message ->
  head (keyword_roles message) = Some r ->
  _determine_next_agent_enhanced current_agent message project_data = r
  /\ first_in keyword_order (keyword_roles message) r.
Proof.
  intros Hno Hhead. split.
  - unfold _determine_next_agent_enhanced. cbv zeta.
    rewrite (no_override_falls_through _ _ Hno), keyword_switch_head.
    fold (keyword_roles message). by rewrite Hhead.
  - apply first_match_is_first_in; [exact keyword_order_nodup | exact Hhead].
Qed.

(** C4, amended. With keywords of two or more roles other than the
    current one in the lowered message and no applicable approval
    override, the router returns the one role that comes first in the
    order of the keyword table (UI, UX, data, API, frontend, deployment)
    among all the roles whose keywords occur, the current role included. *)
Theorem keyword_jump_first_in_table (current_agent message : string)
    (project_data : Project) :
  no_override current_agent message ->
  two_other_roles_match current_agent message ->
  first_in keyword_order (keyword_roles message)
    (_determine_next_agent_enhanced current_agent message project_data).
Proof.
  intros Hno (r1 & r2 & _ & _ & _ & Hr1 & _).
  destruct (keyword_roles message) as [| r rest] eqn:Hroles;
    [by apply elem_of_nil in Hr1 |].
  destruct (keyword_jump current_agent message r project_data Hno)
    as [-> Hfirst]; [by rewrite Hroles |].
  by rewrite Hroles in Hfirst.
Qed.

Lemma keyword_jump_first_in_table_witness :
  no_override "requirements_evolver" "make the ux and ui better"
  /\ two_other_roles_match "requirements_evolver" "make the ux and ui better"
  /\ first_in keyword_order (keyword_roles "make the ux and ui better")
       (_determine_next_agent_enhanced "requirements_evolver"
          "make the ux and ui better" Examples.fresh).
Proof.
  assert (Hno : no_override "requirements_evolver" "make the ux and ui better")
    by (left; reflexivity).
  assert (Htwo : two_other_roles_match "requirements_evolver"
                   "make the ux and ui better").
  { exists "ui_designer", "ux_architect".
    repeat split; try discriminate; apply mem_true; reflexivity. }
  split; [exact Hno | split; [exact Htwo |]].
  exact (keyword_jump_first_in_table "requirements_evolver"
           "make the ux and ui better" Examples.fresh Hno Htwo).
Defined.

(** C4 as stated fails: "ux" and "ui" both occur, the UX role comes
    before the UI role in the chain, and the router returns the UI role,
    whose entry is written first in the keyword table. *)
Lemma jump_is_not_first_in_chain : ~ jumps_to_first_in_chain.
Proof.
  intros Hclaim.
  destruct (Hclaim "requirements_evolver" "make the ux and ui better"
              Examples.fresh) as (_ & i & Hi & Hmin).
  - left. reflexivity.
  - exists "ui_designer", "ux_architect".
    repeat split; try discriminate; apply mem_true; reflexivity.
  - vm_compute in Hi. injection Hi as <-.
    specialize (Hmin "ux_architect" 1).
    assert (2 <= 1); [| lia].
    apply Hmin; [| reflexivity].
    apply list_elem_of_filter. split; [discriminate |].
    apply mem_true. reflexivity.
Qed.

Example ui_wins_over_ux :
  _determine_next_agent_enhanced "requirements_evolver"
    "make the ux and ui better" Examples.fresh = "ui_designer".
Proof. reflexivity. Qed.

(** A keyword of the current role keeps the router on it even when
    keywords of later entries of the table occur too. *)
Example current_role_can_win :
  _determine_next_agent_enhanced "ui_designer"
    "the ui needs a database and an api"
    (LocalStorage.set_active "ui_designer" Examples.fresh) = "ui_designer".
Proof. reflexivity. Qed.

(** *** C10: the router stays inside the chain *)

Lemma approval_override_in_chain (current_agent a : string) :
  approval_override current_agent = Some a -> a ∈ agent_chain.
Proof.
  unfold approval_override.
  repeat (destruct (String.eqb current_agent _);
          [intros [= <-]; apply mem_true; reflexivity |]).
  discriminate.
Qed.

Lemma keyword_order_in_chain (a : string) :
  a ∈ keyword_order -> a ∈ agent_chain.
Proof.
  revert a. apply Forall_forall.
  apply (bool_decide_unpack _). vm_compute. exact I.
Qed.

Lemma progress_switch_in_chain (current_agent a : string)
    (project_data : Project) :
  progress_switch current_agent project_data = Some a -> a ∈ agent_chain.
Proof.
  unfold progress_switch.
  destruct (index_of current_agent agent_chain) as [i |]; [| discriminate].
  destruct (_ && _); [| discriminate].
  apply list_elem_of_lookup_2.
Qed.

(** The next-agent function maps a role of the chain to a role of the
    chain, whatever the message and the project. *)
Lemma next_agent_in_chain (current_agent message : string)
    (project_data : Project) :
  current_agent ∈ agent_chain ->
  _determine_next_agent_enhanced current_agent message project_data
    ∈ agent_chain.
Proof.
  intros Hcurrent. unfold _determine_next_agent_enhanced. cbv zeta.
  destruct (if Py.any_in approval_keywords (Py.lower message)
            then approval_override current_agent else None)
    as [a |] eqn:Happroved.
  { destruct (Py.any_in approval_keywords (Py.lower message));
      [| discriminate].
    by eapply approval_override_in_chain. }
  destruct (keyword_switch agent_keywords (Py.lower message))
    as [a |] eqn:Hkeyword.
  { eapply keyword_order_in_chain, keyword_switch_in_table, Hkeyword. }
  destruct (progress_switch current_agent project_data) as [a |] eqn:Hprogress.
  { by eapply progress_switch_in_chain. }
  exact Hcurrent.
Qed.

End Router.

(** ** A small program logic for the handlers *)

Section Logic.

Import Spec.

Context (I : Server -> Prop) (P : Event -> bool).

Lemma triple_ret {A} (a : A) (Q : A -> Prop) :
  Q a -> triple I P (ret a) Q.
Proof.
  intros HQ s HI. repeat split; [exact HI | constructor |].
  intros a' [= <-]. exact HQ.
Qed.

Lemma triple_bind {A B} (m : M A) (k : A -> M B)
    (Q : A -> Prop) (R : B -> Prop) :
  triple I P m Q -> (forall a, Q a -> triple I P (k a) R) ->
  triple I P (bind m k) R.
Proof.
  intros Hm Hk s HI. destruct (Hm s HI) as (HI1 & Ht1 & HQ).
  unfold bind, state_of, trace_of, result_of in *.
  destruct (m s) as [[[a | e] s1] t1]; simpl in *.
  - destruct (Hk a (HQ a eq_refl) s1 HI1) as (HI2 & Ht2 & HR).
    unfold state_of, trace_of, result_of in *.
    destruct (k a s1) as [[r s2] t2]; simpl in *.
    repeat split; [exact HI2 | by apply Forall_app | exact HR].
  - repeat split; [exact HI1 | exact Ht1 | discriminate].
Qed.

Lemma triple_try {A} (m : M A) (h : Exn -> M A) (Q : A -> Prop) :
  triple I P m Q -> (forall e, triple I P (h e) Q) ->
  triple I P (try_except m h) Q.
Proof.
  intros Hm Hh s HI. destruct (Hm s HI) as (HI1 & Ht1 & HQ).
  unfold try_except, state_of, trace_of, result_of in *.
  destruct (m s) as [[[a | e] s1] t1]; simpl in *.
  - repeat split; [exact HI1 | exact Ht1 | exact HQ].
  - destruct (Hh e s1 HI1) as (HI2 & Ht2 & HR).
    unfold state_of, trace_of, result_of in *.
    destruct (h e s1) as [[r s2] t2]; simpl in *.
    repeat split; [exact HI2 | by apply Forall_app | exact HR].
Qed.

Lemma triple_weaken {A} (m : M A) (Q Q' : A -> Prop) :
  (forall a, Q a -> Q' a) -> triple I P m Q -> triple I P m Q'.
Proof.
  intros HQ Hm s HI. destruct (Hm s HI) as (HI1 & Ht1 & Ha).
  repeat split; auto.
Qed.

Lemma triple_raise {A} (e : Exn) (Q : A -> Prop) :
  triple I P (raise e) Q.
Proof. intros s HI. repeat split; [exact HI | constructor | discriminate]. Qed.

Lemma triple_emit (ev : Event) :
  P ev = false -> triple I P (emit ev) (fun _ => True).
Proof.
  intros HP s HI. repeat split; [exact HI |].
  constructor; [exact HP | constructor].
Qed.

Lemma triple_emit_all (evs : list Event) :
  Forall (fun ev => P ev = false) evs ->
  triple I P (emit_all evs) (fun _ => True).
Proof. intros HP s HI. repeat split; [exact HI | exact HP]. Qed.

Lemma triple_get_state : triple I P get_state I.
Proof.
  intros s HI. repeat split; [exact HI | constructor |].
  intros a [= <-]. exact HI.
Qed.

Lemma triple_put_state (s' : Server) :
  I s' -> triple I P (put_state s') (fun _ => True).
Proof. intros HI' s HI. repeat split; [exact HI' | constructor]. Qed.

End Logic.

(** ** The handlers, for any invariant the storage layer keeps *)

Section Handlers.

Import Spec.

(** [I] is an invariant of the server, [G] the property of a project
    document it rests on, [P] marks the events that must not occur. *)
Context (I : Server -> Prop) (G : Project -> Prop) (P : Event -> bool).

Hypothesis read_good :
  forall project_id, triple I P (LocalStorage.get_project project_id) G.
Hypothesis write_good :
  forall project_id p, G p ->
    triple I P (LocalStorage.write_project project_id p) (fun _ => True).
Hypothesis storage_only :
  forall s s', storage s' = storage s -> I s -> I s'.

Hypothesis good_messages :
  forall l p, G p -> G (LocalStorage.set_messages l p).
Hypothesis good_requirements :
  forall k r p, G p -> G (LocalStorage.set_requirement k r p).
Hypothesis good_files :
  forall l p, G p -> G (LocalStorage.set_generated_files l p).
Hypothesis good_next :
  forall message p p', G p -> G p' ->
    G (LocalStorage.set_active
         (Orchestrator._determine_next_agent_enhanced
            (active_agent p) message p) p').

Hypothesis send_unmarked : forall m, P (Send m) = false.
Hypothesis ask_unmarked : forall agent, P (AskAgent agent) = false.

Ltac step := eapply triple_bind; [| intros ? ?].

Lemma triple_send (m : Outbound) : triple I P (send m) (fun _ => True).
Proof. apply triple_emit, send_unmarked. Qed.

Lemma triple_add_message (project_id role message : string) :
  triple I P (LocalStorage.add_message project_id role message)
         (fun _ => True).
Proof.
  unfold LocalStorage.add_message. step; [apply read_good |].
  apply write_good. by apply good_messages.
Qed.

Lemma triple_update_requirements (project_id agent_name : string)
    (r : RequirementRecord) :
  triple I P (LocalStorage.update_requirements project_id agent_name r)
         (fun _ => True).
Proof.
  unfold LocalStorage.update_requirements. step; [apply read_good |].
  apply write_good. by apply good_requirements.
Qed.

Lemma triple_add_generated_file (project_id file_path content : string) :
  triple I P (LocalStorage.add_generated_file project_id file_path content)
         (fun _ => True).
Proof.
  unfold LocalStorage.add_generated_file. step; [apply read_good |].
  apply write_good. by apply good_files.
Qed.

Lemma triple_track_progress (project_id current_agent : string) :
  triple I P (Orchestrator.track_progress project_id current_agent)
         (fun _ => True).
Proof.
  unfold Orchestrator.track_progress. step; [apply triple_get_state |].
  destruct (agent_progress _ !! project_id).
  - apply triple_put_state. eapply storage_only; [| eassumption]. reflexivity.
  - by apply triple_ret.
Qed.

Lemma triple_can_generate_code (project_id : string) :
  triple I P (Orchestrator.can_generate_code project_id) (fun _ => True).
Proof.
  unfold Orchestrator.can_generate_code. step; [apply read_good |].
  by apply triple_ret.
Qed.

(** A conversation turn returns [should_generate = False]. *)
Lemma triple_route_message (env : Env) (project_id message : string) :
  triple I P (Orchestrator.route_message env project_id message)
         (fun routed => Orchestrator.should_generate routed = false).
Proof.
  unfold Orchestrator.route_message. step; [apply read_good |]. cbv zeta.
  step.
  { destruct (decide _); [by apply (triple_ret I P _ (fun _ => True)) |].
    unfold LocalStorage.set_active_agent, LocalStorage.update_project.
    step; [apply read_good |]. apply write_good. by apply good_next. }
  step.
  { unfold Orchestrator._call_agent_enhanced.
    step; [apply triple_emit, ask_unmarked |].
    by apply (triple_ret I P _ (fun _ => True)). }
  step.
  { unfold Orchestrator._extract_requirements_enhanced. cbv zeta.
    step; [apply triple_update_requirements |].
    by apply (triple_ret I P _ (fun _ => True)). }
  step; [apply triple_track_progress |].
  by apply triple_ret.
Qed.

Lemma triple_handle_user_message (env : Env) (project_id : option string)
    (message : string) :
  triple I P (AIDEServer.handle_user_message env project_id message)
         (fun _ => True).
Proof.
  unfold AIDEServer.handle_user_message, AIDEServer.send_error.
  apply triple_try; [| intros e; apply triple_send].
  destruct (AIDEServer.given project_id); [| apply triple_send].
  step; [apply triple_add_message |].
  step; [apply read_good |].
  step; [apply triple_route_message |].
  step; [apply triple_add_message |].
  step; [apply triple_send |].
  step; [apply triple_can_generate_code |].
  apply triple_send.
Qed.

Lemma triple_handle_check_generation_status (project_id : option string) :
  triple I P (AIDEServer.handle_check_generation_status project_id)
         (fun _ => True).
Proof.
  unfold AIDEServer.handle_check_generation_status, AIDEServer.send_error.
  apply triple_try; [| intros e; apply triple_send].
  destruct (AIDEServer.given project_id); [| apply triple_send].
  step; [apply triple_can_generate_code |].
  apply triple_send.
Qed.

Lemma triple_get_preview_url (env : Env) (project_id : string) :
  P (StartPreview project_id) = false ->
  triple I P (ProjectBuilder.get_preview_url env project_id) (fun _ => True).
Proof.
  intros Hstart. unfold ProjectBuilder.get_preview_url.
  step; [apply triple_get_state |].
  destruct (preview_ports _ !! project_id); [by apply triple_ret |].
  step; [by apply triple_emit |]. cbv zeta.
  destruct (_ =? 0); [by apply triple_ret |].
  step; [| by apply triple_ret].
  apply triple_put_state. eapply storage_only; [| eassumption]. reflexivity.
Qed.

Lemma triple_handle_get_preview (env : Env) (project_id : option string) :
  (forall p, P (StartPreview p) = false) ->
  triple I P (AIDEServer.handle_get_preview env project_id) (fun _ => True).
Proof.
  intros Hstart. unfold AIDEServer.handle_get_preview, AIDEServer.send_error.
  apply triple_try; [| intros e; apply triple_send].
  step; [by apply triple_get_preview_url |].
  apply triple_send.
Qed.

Lemma triple_for_each {A} (l : list A) (body : A -> M unit) :
  (forall x, triple I P (body x) (fun _ => True)) ->
  triple I P (AIDEServer.for_each l body) (fun _ => True).
Proof.
  intros Hbody. induction l as [| x rest IH]; simpl.
  - by apply triple_ret.
  - step; [apply Hbody | exact IH].
Qed.

Lemma triple_generate_project (env : Env) (project_data : Project) :
  (forall ev, P ev = false) ->
  triple I P (ProjectBuilder.generate_project env project_data)
         (fun _ => True).
Proof.
  intros Hall. unfold ProjectBuilder.generate_project. cbv zeta.
  step.
  { destruct (fs_clean env _);
      [by apply (triple_ret I P _ (fun _ => True)) | apply triple_raise]. }
  step; [by apply triple_emit |].
  destruct (ProjectBuilder.generate_files _ _ _ _) as [generated printed].
  step; [apply triple_emit_all; by apply Forall_forall |].
  step; [by apply triple_emit |].
  by apply triple_ret.
Qed.

Lemma triple_handle_generate_code (env : Env) (project_id : option string) :
  (forall ev, P ev = false) ->
  triple I P (AIDEServer.handle_generate_code env project_id) (fun _ => True).
Proof.
  intros Hall.
  unfold AIDEServer.handle_generate_code, AIDEServer.send_error.
  apply triple_try; [| intros e; apply triple_send].
  destruct (AIDEServer.given project_id) as [pid |]; [| apply triple_send].
  step; [apply triple_can_generate_code |].
  destruct (can_generate _); [| apply triple_send].
  unfold AIDEServer.generate_project_code, AIDEServer.send_error.
  apply triple_try.
  - step; [apply read_good |].
    step; [apply triple_send |].
    step; [by apply triple_generate_project |].
    step; [apply triple_for_each; intros f; apply triple_add_generated_file |].
    step; [by apply triple_get_preview_url |].
    apply triple_send.
  - intros e. step; apply triple_send.
Qed.

(** *** Creating a project *)

Hypothesis cleanup_good :
  forall project_id,
    triple I P (LocalStorage.cleanup_project project_id) (fun _ => True).
Hypothesis good_new :
  forall project_id name, G (LocalStorage.new_project project_id name).
Hypothesis good_first :
  forall p, G p -> G (LocalStorage.set_active "requirements_evolver" p).

Lemma triple_handle_new_project (env : Env) (project_name : option string) :
  triple I P (AIDEServer.handle_new_project env project_name) (fun _ => True).
Proof.
  unfold AIDEServer.handle_new_project, AIDEServer.send_error.
  step; [apply triple_get_state |]. cbv zeta.
  apply triple_try.
  - step.
    { unfold LocalStorage.create_project.
      step; [apply write_good, good_new |].
      by apply (triple_ret I P _ (fun _ => True)). }
    step; [apply triple_send |].
    step; [| apply triple_send].
    unfold Orchestrator.start_conversation.
    step.
    { unfold LocalStorage.set_active_agent, LocalStorage.update_project.
      step; [apply read_good |]. apply write_good. by apply good_first. }
    step; [apply triple_get_state |].
    step; [| by apply (triple_ret I P _ (fun _ => True))].
    apply triple_put_state. eapply storage_only; [| eassumption]. reflexivity.
  - intros e. step; [apply cleanup_good | apply triple_send].
Qed.

(** Every request but generate-code, when starting a preview server is
    not marked. *)
Lemma triple_process_other (env : Env) (data : AIDEServer.Request) :
  (forall p, P (StartPreview p) = false) ->
  (forall project_id, data <> AIDEServer.generate_code project_id) ->
  triple I P (AIDEServer.process_request env data) (fun _ => True).
Proof.
  intros Hstart Hother. destruct data; simpl.
  - apply triple_handle_new_project.
  - apply triple_handle_user_message.
  - by apply triple_handle_get_preview.
  - apply triple_handle_check_generation_status.
  - by destruct (Hother project_id).
  - apply triple_send.
  - apply triple_send.
  - apply triple_raise.
Qed.

Lemma triple_process_request (env : Env) (data : AIDEServer.Request) :
  (forall ev, P ev = false) ->
  triple I P (AIDEServer.process_request env data) (fun _ => True).
Proof.
  intros Hall. destruct data as [| | | | project_id | | |].
  5: by apply triple_handle_generate_code.
  all: apply triple_process_other; [intros; apply Hall | discriminate].
Qed.

Lemma triple_serve (env : Env) (requests : list AIDEServer.Request) :
  (forall ev, P ev = false) ->
  triple I P (AIDEServer.serve env requests) (fun _ => True).
Proof.
  intros Hall. induction requests as [| data rest IH]; cbn [AIDEServer.serve].
  - by apply triple_ret.
  - step; [| exact IH]. cbn [AIDEServer.process_message].
    apply triple_try; [by apply triple_process_request |].
    intros e. apply triple_send.
Qed.

End Handlers.

(** ** The storage layer keeps the invariants *)

Section Storage.

Import Spec.

Lemma read_by_lookup (I : Server -> Prop) (G : Project -> Prop)
    (P : Event -> bool) :
  (forall s project_id p, I s -> storage s !! project_id = Some p -> G p) ->
  forall project_id, triple I P (LocalStorage.get_project project_id) G.
Proof.
  intros Hlookup project_id s HI.
  unfold LocalStorage.get_project, bind, get_state, ret, raise,
    state_of, trace_of, result_of.
  destruct (storage s !! project_id) as [p |] eqn:Hp; simpl.
  - repeat split; [exact HI | constructor |].
    intros a [= <-]. by eapply Hlookup.
  - repeat split; [exact HI | constructor | discriminate].
Qed.

Lemma write_by_insert (I : Server -> Prop) (G : Project -> Prop)
    (P : Event -> bool) :
  (forall s project_id p, I s -> G p ->
     I (mkServer (<[project_id := p]> (storage s))
                 (agent_progress s) (preview_ports s))) ->
  forall project_id p, G p ->
    triple I P (LocalStorage.write_project project_id p) (fun _ => True).
Proof.
  intros Hinsert project_id p HG s HI.
  unfold LocalStorage.write_project, bind, get_state, put_state,
    state_of, trace_of, result_of. simpl.
  repeat split; [by apply Hinsert | constructor].
Qed.

Lemma cleanup_by_delete (I : Server -> Prop) (P : Event -> bool) :
  (forall s project_id, I s ->
     I (mkServer (delete project_id (storage s))
                 (agent_progress s) (preview_ports s))) ->
  forall project_id,
    triple I P (LocalStorage.cleanup_project project_id) (fun _ => True).
Proof.
  intros Hdelete project_id s HI.
  unfold LocalStorage.cleanup_project, bind, get_state, put_state,
    state_of, trace_of, result_of. simpl.
  repeat split; [by apply Hdelete | constructor].
Qed.

Lemma agents_in_chain_insert (s : Server) (project_id : string) (p : Project) :
  agents_in_chain s -> active_agent p ∈ Orchestrator.agent_chain ->
  agents_in_chain (mkServer (<[project_id := p]> (storage s))
                            (agent_progress s) (preview_ports s)).
Proof.
  intros HI Hp k q. simpl. intros Hq.
  apply lookup_insert_Some in Hq as [[_ <-] | [_ Hq]]; [exact Hp |].
  by eapply HI.
Qed.

Lemma agents_in_chain_delete (s : Server) (project_id : string) :
  agents_in_chain s ->
  agents_in_chain (mkServer (delete project_id (storage s))
                            (agent_progress s) (preview_ports s)).
Proof.
  intros HI k q. simpl. intros Hq.
  apply lookup_delete_Some in Hq as [_ Hq]. by eapply HI.
Qed.

Lemma agents_in_chain_storage (s s' : Server) :
  storage s' = storage s -> agents_in_chain s -> agents_in_chain s'.
Proof. intros Heq HI k q. rewrite Heq. apply HI. Qed.

Lemma project_in_chain_insert (project_id0 : string) (s : Server)
    (project_id : string) (p : Project) :
  project_in_chain project_id0 s ->
  active_agent p ∈ Orchestrator.agent_chain ->
  project_in_chain project_id0
    (mkServer (<[project_id := p]> (storage s))
              (agent_progress s) (preview_ports s)).
Proof.
  intros [Hthere HI] Hp. split; [| by apply agents_in_chain_insert].
  simpl. destruct (decide (project_id = project_id0)) as [-> | Hne].
  - rewrite lookup_insert_eq. by eexists.
  - by rewrite lookup_insert_ne.
Qed.

Lemma project_in_chain_storage (project_id0 : string) (s s' : Server) :
  storage s' = storage s ->
  project_in_chain project_id0 s -> project_in_chain project_id0 s'.
Proof.
  intros Heq [Hthere HI]. split; [by rewrite Heq |].
  by eapply agents_in_chain_storage.
Qed.

End Storage.

(** ** C10: the active agent over whole sessions *)

Section Sessions.

Import Spec Orchestrator AIDEServer.

Lemma first_role_in_chain : "requirements_evolver" ∈ agent_chain.
Proof. apply mem_true. reflexivity. Qed.

(** A user turn keeps a stored project stored, with every active agent
    in the chain. *)
Lemma user_turn_keeps_project (env : Env) (project_id0 : string)
    (project_id : option string) (message : string) :
  triple (project_in_chain project_id0) (fun _ => false)
         (handle_user_message env project_id message) (fun _ => True).
Proof.
  apply (triple_handle_user_message (project_in_chain project_id0)
           (fun p => active_agent p ∈ agent_chain) (fun _ => false)).
  - apply read_by_lookup. intros s k p [_ HI] Hp. by eapply HI.
  - apply write_by_insert. intros s k p HI Hp.
    by apply project_in_chain_insert.
  - apply project_in_chain_storage.
  - intros l p Hp. exact Hp.
  - intros k r p Hp. exact Hp.
  - intros m p p' Hp _. by apply next_agent_in_chain.
  - reflexivity.
  - reflexivity.
Qed.

Lemma user_turns_keep_project (env : Env) (project_id0 : string)
    (turns : list (option string * string)) :
  triple (project_in_chain project_id0) (fun _ => false)
         (serve env (map (fun t => user_message t.1 t.2) turns))
         (fun _ => True).
Proof.
  induction turns as [| t rest IH]; cbn [map serve].
  - by apply triple_ret.
  - eapply triple_bind; [| intros _ _; exact IH].
    cbn [process_message process_request].
    apply triple_try; [apply user_turn_keeps_project |].
    intros e. by apply triple_emit.
Qed.

(** Any session keeps every active agent in the chain. *)
Lemma session_keeps_agents_in_chain (env : Env) (requests : list Request) :
  triple agents_in_chain (fun _ => false) (serve env requests)
         (fun _ => True).
Proof.
  apply (triple_serve agents_in_chain
           (fun p => active_agent p ∈ agent_chain) (fun _ => false)).
  - apply read_by_lookup. intros s k p HI Hp. by eapply HI.
  - apply write_by_insert. intros s k p HI Hp.
    by apply agents_in_chain_insert.
  - apply agents_in_chain_storage.
  - intros l p Hp. exact Hp.
  - intros k r p Hp. exact Hp.
  - intros l p Hp. exact Hp.
  - intros m p p' Hp _. by apply next_agent_in_chain.
  - reflexivity.
  - reflexivity.
  - apply cleanup_by_delete. intros s k HI. by apply agents_in_chain_delete.
  - intros k name. exact first_role_in_chain.
  - intros p _. exact first_role_in_chain.
  - reflexivity.
Qed.

(** What the new-project request leaves in an empty server. *)
Lemma new_project_from_initial (env : Env) (project_name : option string) :
  let project_id := uuid4 env ∅ in
  state_of (process_request env (new_project project_name) initial) =
  mkServer
    {[ project_id :=
         LocalStorage.new_project project_id
           (default "New Project" project_name) ]}
    {[ project_id := ∅ ]} ∅
  /\ result_of (process_request env (new_project project_name) initial)
     = Ok tt.
Proof.
  cbv zeta.
  unfold process_request, handle_new_project, try_except, bind, get_state,
    LocalStorage.create_project, Orchestrator.start_conversation,
    LocalStorage.set_active_agent, LocalStorage.update_project,
    LocalStorage.get_project, LocalStorage.write_project, bind, get_state,
    put_state, ret, send, emit, state_of, result_of, initial.
  simpl. rewrite lookup_insert_eq. simpl.
  rewrite insert_insert_eq. split; reflexivity.
Qed.

(** A request that returns is served like by [process_request] itself,
    and the session goes on from the state it leaves. *)
Lemma serve_cons_run (env : Env) (data : Request) (rest : list Request)
    (s s1 : Server) (t1 : list Event) :
  process_request env data s = (Ok tt, s1, t1) ->
  state_of (serve env (data :: rest) s) = state_of (serve env rest s1).
Proof.
  intros Hrun. cbn [serve process_message]. unfold bind, try_except.
  rewrite Hrun. by destruct (serve env rest s1) as [[r s2] t2].
Qed.

End Sessions.

Section Invariant.

Import Spec Orchestrator AIDEServer.

(** C10. The next-agent function maps a role of the chain and any message
    to a role of the chain; after a new-project request and any sequence
    of user turns the project is stored with an active agent of the
    chain; and after any sequence of requests every stored project has an
    active agent of the chain. *)
Theorem active_agent_always_in_chain :
  (forall (current_agent message : string) (project_data : Project),
     current_agent ∈ agent_chain ->
     _determine_next_agent_enhanced current_agent message project_data
       ∈ agent_chain)
  /\ (forall (env : Env) (project_name : option string)
             (turns : list string),
        let project_id := uuid4 env ∅ in
        exists project_data,
          storage (state_of
            (serve env (new_project project_name
                        :: map (user_message (Some project_id)) turns)
                   initial)) !! project_id = Some project_data
          /\ active_agent project_data ∈ agent_chain)
  /\ (forall (env : Env) (requests : list Request)
             (project_id : string) (project_data : Project),
        storage (state_of (serve env requests initial)) !! project_id
          = Some project_data ->
        active_agent project_data ∈ agent_chain).
Proof.
  split; [exact next_agent_in_chain | split].
  - intros env project_name turns project_id.
    destruct (new_project_from_initial env project_name) as [Hstate Hresult].
    fold project_id in Hstate.
    destruct (process_request env (new_project project_name) initial)
      as [[r s1] t1] eqn:Hrun.
    unfold state_of, result_of in Hstate, Hresult.
    simpl in Hstate, Hresult. subst r s1.
    rewrite (serve_cons_run env _ _ initial _ t1 Hrun).
    assert (Hstart : project_in_chain project_id
              (mkServer
                 {[ project_id :=
                      LocalStorage.new_project project_id
                        (default "New Project" project_name) ]}
                 {[ project_id := ∅ ]} ∅)).
    { split; simpl.
      - rewrite lookup_singleton_eq. by eexists.
      - intros k q Hq. simpl in Hq.
        apply lookup_singleton_Some in Hq as [_ <-].
        exact first_role_in_chain. }
    pose proof (user_turns_keep_project env project_id
                  (map (fun m => (Some project_id, m)) turns) _ Hstart)
      as ([[pd Hpd] HI] & _ & _).
    rewrite map_map in Hpd, HI. simpl in Hpd, HI.
    exists pd. split; [exact Hpd | by eapply HI].
  - intros env requests project_id project_data Hlookup.
    destruct (session_keeps_agents_in_chain env requests initial)
      as (HI & _ & _).
    + intros k q Hq. simpl in Hq. by rewrite lookup_empty in Hq.
    + by eapply HI.
Qed.

Lemma active_agent_always_in_chain_witness :
  "ui_designer" ∈ agent_chain
  /\ _determine_next_agent_enhanced "ui_designer" "looks good, proceed"
       Examples.fresh ∈ agent_chain
  /\ exists project_data,
       storage (state_of (serve Examples.env Examples.session initial))
         !! "abcd1234" = Some project_data
       /\ active_agent project_data ∈ agent_chain.
Proof.
  destruct active_agent_always_in_chain as (Hnext & _ & Hsession).
  assert (Hui : "ui_designer" ∈ agent_chain) by (apply mem_true; reflexivity).
  split; [exact Hui | split; [by apply Hnext |]].
  eexists. split; [vm_compute; reflexivity |].
  apply (Hsession Examples.env Examples.session "abcd1234").
  vm_compute. reflexivity.
Defined.

Example session_ends_on_data_architect :
  active_agent <$>
    storage (state_of (serve Examples.env Examples.session initial))
      !! "abcd1234" = Some "data_architect".
Proof. vm_compute. reflexivity. Qed.

End Invariant.

(** ** C9: conversation turns never start the pipeline *)

Section Conversation.

Import Spec Orchestrator AIDEServer.

Lemma read_any (P : Event -> bool) (project_id : string) :
  triple (fun _ => True) P (LocalStorage.get_project project_id)
         (fun _ => True).
Proof. by apply read_by_lookup. Qed.

Lemma write_any (P : Event -> bool) (project_id : string) (p : Project) :
  True ->
  triple (fun _ => True) P (LocalStorage.write_project project_id p)
         (fun _ => True).
Proof. by apply (write_by_insert (fun _ => True) (fun _ => True)). Qed.

(** A user message leaves no event of the pipeline in the trace. *)
Lemma user_message_starts_nothing (env : Env) (project_id : option string)
    (message : string) (s : Server) :
  Forall (fun ev => pipeline_event ev = false)
         (trace_of (handle_user_message env project_id message s)).
Proof.
  assert (Hturn : triple (fun _ => True) pipeline_event
                    (handle_user_message env project_id message)
                    (fun _ => True)).
  { apply (triple_handle_user_message (fun _ => True)
             (fun _ : Project => True) pipeline_event);
      try done; intros; first [apply read_any | by apply write_any]. }
  exact (proj1 (proj2 (Hturn s Logic.I))).
Qed.

Lemma route_message_never_asks_to_generate (env : Env)
    (project_id message : string) (s : Server) (routed : Routed) :
  result_of (route_message env project_id message s) = Ok routed ->
  should_generate routed = false.
Proof.
  assert (Hturn : triple (fun _ => True) pipeline_event
                    (route_message env project_id message)
                    (fun routed => should_generate routed = false)).
  { apply (triple_route_message (fun _ => True)
             (fun _ : Project => True) pipeline_event);
      try done; intros; first [apply read_any | by apply write_any]. }
  exact (proj2 (proj2 (Hturn s Logic.I)) routed).
Qed.

(** Requests other than generate-code leave no event of a generation
    run in the trace. *)
Lemma other_requests_generate_nothing (env : Env) (data : Request)
    (s : Server) :
  (forall project_id, data <> generate_code project_id) ->
  Forall (fun ev => generation_event ev = false)
         (trace_of (process_request env data s)).
Proof.
  intros Hother.
  assert (Hrequest : triple (fun _ => True) generation_event
                       (process_request env data) (fun _ => True)).
  { apply (triple_process_other (fun _ => True)
             (fun _ : Project => True) generation_event);
      try done; intros;
      first [apply read_any | by apply write_any
            | by apply cleanup_by_delete]. }
  exact (proj1 (proj2 (Hrequest s Logic.I))).
Qed.

(** C9. Handling a user message never calls the structure planner, the
    file generator or the preview manager, and the routed turn reports
    [should_generate = False]; a request whose handling does run the
    planner or the file generator is a generate-code request. *)
Theorem conversation_never_generates :
  (forall (env : Env) (project_id : option string) (message : string)
          (s : Server),
     Forall (fun ev => pipeline_event ev = false)
            (trace_of (process_request env
                         (user_message project_id message) s)))
  /\ (forall (env : Env) (project_id message : string) (s : Server)
             (routed : Routed),
        result_of (route_message env project_id message s) = Ok routed ->
        should_generate routed = false)
  /\ (forall (env : Env) (data : Request) (s : Server),
        Exists (fun ev => generation_event ev = true)
               (trace_of (process_request env data s)) ->
        exists project_id, data = generate_code project_id).
Proof.
  split; [| split].
  - intros. apply user_message_starts_nothing.
  - apply route_message_never_asks_to_generate.
  - intros env data s Hgenerated.
    apply Exists_exists in Hgenerated as (ev & Hin & Hev).
    destruct data as [| | | | project_id | | |];
      try (match type of Hin with
           | _ ∈ trace_of (process_request _ ?d _) =>
               assert (Hother : forall p, d <> generate_code p)
                 by discriminate
           end;
           pose proof (other_requests_generate_nothing env _ s Hother)
             as Hquiet;
           rewrite Forall_forall in Hquiet;
           specialize (Hquiet ev Hin); congruence).
    by exists project_id.
Qed.

Lemma conversation_never_generates_witness :
  (exists routed,
     result_of (route_message Examples.env "abcd1234" "keep it simple"
                  Examples.after_session) = Ok routed
     /\ should_generate routed = false)
  /\ Exists (fun ev => generation_event ev = true)
       (trace_of (process_request Examples.env
                    (generate_code (Some "abcd1234"))
                    Examples.after_session))
  /\ exists project_id,
       generate_code (Some "abcd1234") = generate_code project_id.
Proof.
  destruct conversation_never_generates as (_ & Hrouted & Hgenerate).
  assert (Hrun : Exists (fun ev => generation_event ev = true)
            (trace_of (process_request Examples.env
                         (generate_code (Some "abcd1234"))
                         Examples.after_session))).
  { apply Exists_exists. exists (PlanStructure "abcd1234").
    split; [| reflexivity].
    apply list_elem_of_In. vm_compute. auto 10. }
  split; [| split; [exact Hrun | exact (Hgenerate _ _ _ Hrun)]].
  eexists. split; [vm_compute; reflexivity |].
  eapply (Hrouted Examples.env "abcd1234" "keep it simple"
            Examples.after_session).
  vm_compute. reflexivity.
Defined.

Example turn_trace_has_no_pipeline_event :
  trace_of (process_request Examples.env
              (user_message (Some "abcd1234") "hello")
              (state_of (process_request Examples.env
                           (new_project (Some "Todo App")) initial)))
  = [ AskAgent "requirements_evolver";
      Send (agent_response (Text Examples.reply_text) "requirements_evolver");
      Send (generation_status "abcd1234"
              {| can_generate := true; st_substantial_agents := 1;
                 agent_contributions := ["requirements_evolver"];
                 has_minimal_requirements := true;
                 st_message :=
                   "Ready to generate! Collected requirements from 1 agents."
              |}) ].
Proof. vm_compute. reflexivity. Qed.

End Conversation.

(** ** C2 and C6: the file loop *)

Section Generator.

Import Spec Laws ProjectBuilder.

Context (env : Env) (project_data : Project).

Lemma generate_files_app (l1 l2 : list string) (acc : list GeneratedFile) :
  generate_files env project_data (l1 ++ l2) acc =
  ( (generate_files env project_data l2
       (generate_files env project_data l1 acc).1).1,
    (generate_files env project_data l1 acc).2
    ++ (generate_files env project_data l2
          (generate_files env project_data l1 acc).1).2 ).
Proof.
  revert acc. induction l1 as [| p rest IH]; intros acc; simpl.
  - by destruct (generate_files env project_data l2 acc).
  - destruct (generate_one env project_data acc p) as [g1 t1].
    rewrite IH. simpl.
    destruct (generate_files env project_data rest g1) as [g2 t2]. simpl.
    by rewrite app_assoc.
Qed.

(** A turn of the loop never drops a record. *)
Lemma generate_one_extends (acc : list GeneratedFile) (file_path : string) :
  exists more, (generate_one env project_data acc file_path).1 = acc ++ more.
Proof.
  unfold generate_one.
  destruct (IntegrationAgent.generate_file_content_with_context _ _ _ _)
    as [content printed].
  destruct (fs_write env _ _ _); simpl.
  - by eexists.
  - exists []. by rewrite app_nil_r.
Qed.

Lemma generate_files_extends (plan : list string) (acc : list GeneratedFile) :
  exists more, (generate_files env project_data plan acc).1 = acc ++ more.
Proof.
  revert acc. induction plan as [| p rest IH]; intros acc; simpl.
  - exists []. by rewrite app_nil_r.
  - destruct (generate_one_extends acc p) as [m1 H1].
    destruct (generate_one env project_data acc p) as [g1 t1]. simpl in H1.
    destruct (IH g1) as [m2 H2].
    destruct (generate_files env project_data rest g1) as [g2 t2].
    simpl in *. subst. exists (m1 ++ m2). by rewrite app_assoc.
Qed.

(** The turn for a file whose content is [content] and whose write
    succeeds appends the record of that content. *)
Lemma generate_one_written (acc : list GeneratedFile)
    (file_path content : string) :
  (IntegrationAgent.generate_file_content_with_context env project_data
     file_path (existing_files_context acc)).1 = content ->
  fs_write env (proj_id project_data) file_path content = true ->
  (generate_one env project_data acc file_path).1
  = acc ++ [file_record file_path content].
Proof.
  intros Hcontent Hwrite. unfold generate_one.
  destruct (IntegrationAgent.generate_file_content_with_context _ _ _ _)
    as [c printed]. simpl in Hcontent. subst c.
  by rewrite Hwrite.
Qed.

(** With every write succeeding each planned file gets its record. *)
Lemma run_paths (plan : list string) (acc : list GeneratedFile) :
  (forall file_path content,
     fs_write env (proj_id project_data) file_path content = true) ->
  map gf_path (generate_files env project_data plan acc).1
  = map gf_path acc ++ plan.
Proof.
  intros Hwrite. revert acc. induction plan as [| p rest IH]; intros acc.
  - simpl. by rewrite app_nil_r.
  - simpl. specialize (IH (generate_one env project_data acc p).1).
    unfold generate_one in *.
    destruct (IntegrationAgent.generate_file_content_with_context _ _ _ _)
      as [content printed].
    rewrite Hwrite in *. simpl in *.
    destruct (generate_files env project_data rest _) as [g2 t2].
    simpl in *. rewrite IH, map_app. simpl. by rewrite <- app_assoc.
Qed.

(** One turn of the loop makes one completion call, sends nothing, and
    either appends the record of the file or skips the file. *)
Lemma generate_one_step (acc : list GeneratedFile) (file_path : string) :
  generated_paths (generate_one env project_data acc file_path).2
  = [file_path]
  /\ sent (generate_one env project_data acc file_path).2 = []
  /\ ((exists content,
         (generate_one env project_data acc file_path).1
         = acc ++ [file_record file_path content]
         /\ skipped_paths (generate_one env project_data acc file_path).2 = [])
      \/ ((generate_one env project_data acc file_path).1 = acc
          /\ skipped_paths (generate_one env project_data acc file_path).2
             = [file_path])).
Proof.
  unfold generate_one, IntegrationAgent.generate_file_content_with_context.
  destruct (file_completion env _ _ _ _) as [content | e].
  - destruct (IntegrationAgent._is_valid_file_content_trusted _ _);
      destruct (_is_valid_generated_content_trusted _ _);
      destruct (fs_write env _ _ _);
      (split; [reflexivity | split; [reflexivity |]]);
      first [ left; eexists; split; reflexivity
            | right; split; reflexivity ].
  - destruct (_is_valid_generated_content_trusted _ _);
      destruct (fs_write env _ _ _);
      (split; [reflexivity | split; [reflexivity |]]);
      first [ left; eexists; split; reflexivity
            | right; split; reflexivity ].
Qed.

(** The whole loop from any list of earlier records. *)
Lemma generate_files_account (plan : list string) (acc : list GeneratedFile) :
  exists recorded,
    (generate_files env project_data plan acc).1 = acc ++ recorded
    /\ generated_paths (generate_files env project_data plan acc).2 = plan
    /\ sent (generate_files env project_data plan acc).2 = []
    /\ map gf_path recorded `sublist_of` plan
    /\ skipped_paths (generate_files env project_data plan acc).2
       `sublist_of` plan
    /\ length recorded
       + length (skipped_paths (generate_files env project_data plan acc).2)
       = length plan
    /\ Forall (fun f => f = file_record (gf_path f) (gf_content f)) recorded.
Proof.
  revert acc. induction plan as [| p rest IH]; intros acc.
  - exists []. cbn. rewrite app_nil_r. repeat split; constructor.
  - cbn [generate_files].
    destruct (generate_one_step acc p) as (Hcall & Hsent & Hstep).
    destruct (generate_one env project_data acc p) as [g1 t1].
    cbn [fst snd] in Hcall, Hsent, Hstep.
    destruct (IH g1) as (more & Hfiles & Hcalls & Hsents & Hsub & Hskip
                         & Hcount & Hrecords).
    destruct (generate_files env project_data rest g1) as [g2 t2].
    cbn [fst snd] in *. unfold generated_paths, sent, skipped_paths in *.
    rewrite !omap_app, Hcall, Hsent, Hcalls, Hsents.
    destruct Hstep as [(content & -> & ->) | (-> & ->)].
    + exists (file_record p content :: more).
      split; [by rewrite Hfiles, <- app_assoc |].
      split; [reflexivity | split; [reflexivity |]].
      split; [by apply sublist_skip |].
      split; [by apply sublist_cons |].
      split; [cbn; lia |]. by constructor.
    + exists more. split; [exact Hfiles |].
      split; [reflexivity | split; [reflexivity |]].
      split; [by apply sublist_cons |].
      split; [by apply sublist_skip |].
      split; [cbn in *; lia | exact Hrecords].
Qed.

(** The turn for a file whose content cannot be written leaves the
    records as they are and reports the file as skipped. *)
Lemma generate_one_skipped (acc : list GeneratedFile)
    (file_path content : string) :
  (IntegrationAgent.generate_file_content_with_context env project_data
     file_path (existing_files_context acc)).1 = content ->
  fs_write env (proj_id project_data) file_path content = false ->
  (generate_one env project_data acc file_path).1 = acc
  /\ FileSkipped file_path ∈ (generate_one env project_data acc file_path).2.
Proof.
  intros Hcontent Hwrite. unfold generate_one.
  destruct (IntegrationAgent.generate_file_content_with_context _ _ _ _)
    as [c printed]. cbn [fst] in Hcontent. subst c. rewrite Hwrite.
  split; [reflexivity |]. cbn [snd].
  apply elem_of_cons. right. rewrite app_assoc. apply elem_of_app. right.
  by apply list_elem_of_singleton.
Qed.

Lemma run_files_snoc (before : list string) (file_path : string) :
  run_files env project_data (before ++ [file_path])
  = (generate_one env project_data (run_files env project_data before)
       file_path).1.
Proof.
  unfold run_files. rewrite generate_files_app. cbn [generate_files fst].
  by destruct (generate_one env project_data _ file_path) as [g1 t1].
Qed.

(** The records of a run: those left by the turn of a file, then records
    of files that come after it. *)
Lemma run_files_split (before : list string) (file_path : string)
    (after : list string) :
  exists later,
    run_files env project_data (before ++ file_path :: after)
    = (generate_one env project_data (run_files env project_data before)
         file_path).1 ++ later
    /\ map gf_path later `sublist_of` after.
Proof.
  unfold run_files. rewrite generate_files_app. cbn [generate_files fst].
  destruct (generate_one env project_data _ file_path) as [g1 t1].
  destruct (generate_files_account after g1)
    as (recorded & Hfiles & _ & _ & Hsub & _).
  destruct (generate_files env project_data after g1) as [g2 t2].
  cbn [fst] in *. by exists recorded.
Qed.

(** What [generate_project] returns when the directory can be cleaned. *)
Lemma generate_project_result (s : Server) :
  fs_clean env (proj_id project_data) = true ->
  result_of (generate_project env project_data s)
  = Ok (run_files env project_data
          (IntegrationAgent.plan_project_structure env project_data)).
Proof.
  intros Hclean. unfold generate_project, run_files. cbv zeta.
  rewrite Hclean.
  destruct (generate_files env project_data _ []) as [generated printed].
  reflexivity.
Qed.

Lemma generate_project_cleaned (s : Server) (files : list GeneratedFile) :
  result_of (generate_project env project_data s) = Ok files ->
  files = run_files env project_data
            (IntegrationAgent.plan_project_structure env project_data).
Proof.
  destruct (fs_clean env (proj_id project_data)) eqn:Hclean.
  - rewrite (generate_project_result s Hclean). by intros [= <-].
  - unfold generate_project. cbv zeta. rewrite Hclean. discriminate.
Qed.

End Generator.

Section FileGenerator.

Import Spec ProjectBuilder.


Lemma content_of_failure (env : Env) (project_data : Project)
    (file_path : string) (existing : list FileContext) (e : string) :
  file_completion env (proj_name project_data) (requirements project_data)
    file_path existing = Failure e ->
  IntegrationAgent.generate_file_content_with_context env project_data
    file_path existing
  = ( IntegrationAgent.error_placeholder file_path e,
      [CompletionFailed file_path e] ).
Proof.
  intros Hfail. unfold IntegrationAgent.generate_file_content_with_context.
  by rewrite Hfail.
Qed.

(** What the turn for one file prints is part of the trace of the run. *)
Lemma run_trace_of_turn (env : Env) (project_data : Project)
    (before : list string) (file_path : string) (after : list string)
    (ev : Event) :
  ev ∈ (generate_one env project_data (run_files env project_data before)
          file_path).2 ->
  ev ∈ run_trace env project_data (before ++ file_path :: after).
Proof.
  intros Hev. unfold run_trace, run_files in *.
  rewrite generate_files_app. simpl.
  destruct (generate_one env project_data _ file_path) as [g1 t1].
  destruct (generate_files env project_data after g1) as [g2 t2].
  simpl in *. apply elem_of_app. right. apply elem_of_app. by left.
Qed.



(** C2, amended. When the completion call for a planned file fails, the
    run does not stop: it makes the generation call for every planned
    file, in the planned order, and every planned file whose content is
    written gets its record after the records of the files before it.
    The content of the failed file is the placeholder text with the
    error. When the placeholder is written the file has a record that
    holds it, after the records of the files before it and before
    records of files after it; when that write fails the file is
    reported as skipped and its turn leaves no record: the records of
    the files before it are followed by records of files after it. The
    records and the skipped files together count the planned files, so
    that with every write succeeding the run returns one record per
    planned file, in the planned order; and [generate_project], once the
    project directory is cleaned, returns that list for the planned
    structure. *)
Theorem failed_completion_yields_placeholder (env : Env)
    (project_data : Project) :
  (forall (before : list string) (file_path : string) (after : list string)
          (e : string),
     completion_after env project_data before file_path = Failure e ->
     let placeholder := IntegrationAgent.error_placeholder file_path e in
     let plan := before ++ file_path :: after in
     Laws.generated_paths (run_trace env project_data plan) = plan
     /\ CompletionFailed file_path e ∈ run_trace env project_data plan
     /\ (IntegrationAgent.generate_file_content_with_context env project_data
           file_path
           (existing_files_context (run_files env project_data before))).1
        = placeholder
     /\ (fs_write env (proj_id project_data) file_path placeholder = true ->
         exists record later,
           run_files env project_data plan
           = run_files env project_data before ++ record :: later
           /\ record = file_record file_path placeholder
           /\ gf_path record = file_path
           /\ gf_content record = placeholder
           /\ map gf_path later `sublist_of` after)
     /\ (fs_write env (proj_id project_data) file_path placeholder = false ->
         exists later,
           run_files env project_data plan
           = run_files env project_data before ++ later
           /\ map gf_path later `sublist_of` after
           /\ run_files env project_data (before ++ [file_path])
              = run_files env project_data before
           /\ FileSkipped file_path ∈ run_trace env project_data plan))
  /\ (forall (before : list string) (file_path : string)
             (after : list string) (content : string),
        (IntegrationAgent.generate_file_content_with_context env project_data
           file_path
           (existing_files_context (run_files env project_data before))).1
        = content ->
        fs_write env (proj_id project_data) file_path content = true ->
        exists later,
          run_files env project_data (before ++ file_path :: after)
          = run_files env project_data before
            ++ file_record file_path content :: later
          /\ gf_content (file_record file_path content) = content
          /\ map gf_path later `sublist_of` after)
  /\ (forall plan,
        length (run_files env project_data plan)
        + length (Laws.skipped_paths (run_trace env project_data plan))
        = length plan
        /\ Laws.skipped_paths (run_trace env project_data plan)
           `sublist_of` plan
        /\ map gf_path (run_files env project_data plan) `sublist_of` plan)
  /\ ((forall file_path content,
         fs_write env (proj_id project_data) file_path content = true) ->
      forall plan,
        map gf_path (run_files env project_data plan) = plan
        /\ length (run_files env project_data plan) = length plan)
  /\ (forall s : Server,
        fs_clean env (proj_id project_data) = true ->
        result_of (generate_project env project_data s)
        = Ok (run_files env project_data
                (IntegrationAgent.plan_project_structure env project_data)))
  /\ (forall (s : Server) (files : list GeneratedFile),
        result_of (generate_project env project_data s) = Ok files ->
        files = run_files env project_data
                  (IntegrationAgent.plan_project_structure env project_data)).
Proof.
  split; [| split; [| split; [| split; [| split]]]].
  - intros before file_path after e Hfail placeholder plan.
    unfold completion_after in Hfail.
    pose proof (content_of_failure _ _ _ _ _ Hfail) as Hcontent.
    assert (Hplaceholder :
      (IntegrationAgent.generate_file_content_with_context env project_data
         file_path
         (existing_files_context (run_files env project_data before))).1
      = placeholder) by (by rewrite Hcontent).
    destruct (run_files_split env project_data before file_path after)
      as (later & Hrun & Hsub).
    split; [| split; [| split; [exact Hplaceholder | split]]].
    + unfold run_trace.
      by destruct (generate_files_account env project_data plan [])
        as (recorded & _ & Hcalls & _).
    + apply run_trace_of_turn. unfold generate_one. rewrite Hcontent.
      destruct (fs_write env _ _ _); cbn [snd];
        apply elem_of_cons; right; apply elem_of_app; left;
        by apply list_elem_of_singleton.
    + intros Hwrite.
      rewrite (generate_one_written env project_data _ _ _
                 Hplaceholder Hwrite), <- app_assoc in Hrun.
      exists (file_record file_path placeholder), later.
      split; [exact Hrun |]. by repeat split.
    + intros Hwrite.
      destruct (generate_one_skipped env project_data
                  (run_files env project_data before) file_path placeholder
                  Hplaceholder Hwrite) as [Hsame Hskipped].
      rewrite Hsame in Hrun. exists later.
      split; [exact Hrun | split; [exact Hsub | split]].
      * by rewrite run_files_snoc.
      * by apply run_trace_of_turn.
  - intros before file_path after content Hcontent Hwrite.
    destruct (run_files_split env project_data before file_path after)
      as (later & Hrun & Hsub).
    rewrite (generate_one_written env project_data _ _ _ Hcontent Hwrite),
      <- app_assoc in Hrun.
    exists later. by repeat split.
  - intros plan. unfold run_files, run_trace.
    destruct (generate_files_account env project_data plan [])
      as (recorded & Hfiles & _ & _ & Hsub & Hskip & Hcount & _).
    rewrite Hfiles. by repeat split.
  - intros Hwrite plan.
    pose proof (run_paths env project_data plan [] Hwrite) as Hpaths.
    simpl in Hpaths. fold (run_files env project_data plan) in Hpaths.
    split; [exact Hpaths |].
    by rewrite <- (length_map gf_path), Hpaths.
  - intros s. apply generate_project_result.
  - apply generate_project_cleaned.
Qed.

Lemma failed_completion_yields_placeholder_witness :
  completion_after Examples.env Examples.fresh [] "app.py"
    = Failure "timed out"
  /\ Laws.generated_paths
       (run_trace Examples.env Examples.fresh IntegrationAgent.essential_files)
     = IntegrationAgent.essential_files
  /\ (exists record later,
        run_files Examples.env Examples.fresh IntegrationAgent.essential_files
        = run_files Examples.env Examples.fresh [] ++ record :: later
        /\ gf_path record = "app.py"
        /\ gf_content record
           = IntegrationAgent.error_placeholder "app.py" "timed out")
  /\ length (run_files Examples.env Examples.fresh
               IntegrationAgent.essential_files) = 5.
Proof.
  destruct (failed_completion_yields_placeholder Examples.env Examples.fresh)
    as (Hfailed & _ & _ & Hcount & _).
  destruct (Hfailed [] "app.py"
              [ "requirements.txt"; "templates/index.html";
                "static/css/style.css"; "static/js/app.js" ]
              "timed out" eq_refl)
    as (Hcalls & _ & _ & Hwritten & _).
  destruct (Hwritten eq_refl)
    as (record & later & Hrun & _ & Hpath & Hcontent & _).
  split; [reflexivity | split; [exact Hcalls | split]].
  - exists record, later. by repeat split.
  - apply (Hcount ltac:(reflexivity) IntegrationAgent.essential_files).
Defined.

(** C2 as stated fails: planning falls back to the five baseline files,
    the completion call for app.py fails, and the run returns five
    records, the first one holding the placeholder. *)
Lemma failed_completion_keeps_count : ~ failed_completion_lowers_count.
Proof.
  intros Hclaim.
  pose proof (generate_project_result Examples.env Examples.fresh
                AIDEServer.initial eq_refl) as Hfiles.
  specialize (Hclaim Examples.env Examples.fresh AIDEServer.initial
                [] "app.py"
                [ "requirements.txt"; "templates/index.html";
                  "static/css/style.css"; "static/js/app.js" ]
                "timed out" _ eq_refl eq_refl Hfiles).
  vm_compute in Hclaim. lia.
Qed.

Example failed_file_is_in_the_output :
  map gf_path (run_files Examples.env Examples.fresh
                 (IntegrationAgent.plan_project_structure
                    Examples.env Examples.fresh))
  = [ "app.py"; "requirements.txt"; "templates/index.html";
      "static/css/style.css"; "static/js/app.js" ]
  /\ gf_content <$>
       head (run_files Examples.env Examples.fresh
               (IntegrationAgent.plan_project_structure
                  Examples.env Examples.fresh))
     = Some (IntegrationAgent.error_placeholder "app.py" "timed out").
Proof. split; reflexivity. Qed.

End FileGenerator.

(** ** C3: what a run leaves in the project document *)

Section StoredFiles.

Import Spec AIDEServer.

Lemma get_project_found (s : Server) (project_id : string) (p : Project) :
  storage s !! project_id = Some p ->
  LocalStorage.get_project project_id s = (Ok p, s, []).
Proof.
  intros Hp. unfold LocalStorage.get_project, bind, get_state. simpl.
  by rewrite Hp.
Qed.

(** A generation run does not touch the state of the server. *)
Lemma generate_project_run (env : Env) (project_data : Project) (s : Server) :
  exists t,
    ProjectBuilder.generate_project env project_data s
    = (result_of (ProjectBuilder.generate_project env project_data s), s, t).
Proof.
  unfold ProjectBuilder.generate_project, result_of, bind, emit, emit_all,
    ret, raise. cbv zeta.
  destruct (fs_clean env (proj_id project_data)); simpl; [| by eexists].
  destruct (ProjectBuilder.generate_files _ _ _ _) as [generated printed].
  simpl. by eexists.
Qed.

Lemma add_generated_file_run (s : Server) (project_id : string) (p : Project)
    (file_path content : string) :
  storage s !! project_id = Some p ->
  LocalStorage.add_generated_file project_id file_path content s
  = (Ok tt,
     mkServer
       (<[project_id :=
            LocalStorage.set_generated_files
              (generated_files p
               ++ [LocalStorage.file_data file_path content]) p]>
          (storage s))
       (agent_progress s) (preview_ports s),
     []).
Proof.
  intros Hp. unfold LocalStorage.add_generated_file.
  unfold bind at 1. rewrite (get_project_found s project_id p Hp).
  reflexivity.
Qed.

(** The loop of [generate_project_code] over the records of the run. *)
Lemma store_files (project_id : string) (files : list GeneratedFile) :
  forall (s : Server) (p : Project),
    storage s !! project_id = Some p ->
    exists s' p',
      for_each files
        (fun f => LocalStorage.add_generated_file project_id
                    (gf_path f) (gf_content f)) s
      = (Ok tt, s', [])
      /\ storage s' !! project_id = Some p'
      /\ generated_files p' = generated_files p ++ map entry_of files.
Proof.
  induction files as [| f rest IH]; intros s p Hp.
  - exists s, p. simpl. by rewrite app_nil_r.
  - cbn [for_each]. unfold bind at 1.
    rewrite (add_generated_file_run s project_id p _ _ Hp).
    edestruct (IH (mkServer
                     (<[project_id :=
                          LocalStorage.set_generated_files
                            (generated_files p ++ [entry_of f]) p]>
                        (storage s))
                     (agent_progress s) (preview_ports s)))
      as (s' & p' & Hrun & Hp' & Hfiles).
    { simpl. apply lookup_insert_eq. }
    unfold entry_of in Hrun at 1. rewrite Hrun.
    exists s', p'. split; [reflexivity | split; [exact Hp' |]].
    rewrite Hfiles. simpl. by rewrite <- app_assoc.
Qed.








Example two_runs_store_ten_entries :
  let s1 := state_of (generate_project_code Examples.env "abcd1234"
                        Examples.after_session) in
  let s2 := state_of (generate_project_code Examples.env "abcd1234" s1) in
  (length ∘ generated_files) <$> storage s2 !! "abcd1234" = Some 10.
Proof. vm_compute. reflexivity. Qed.

End StoredFiles.

(** ** C7 and C8: the structure planner *)

Section Planner.

Import Spec IntegrationAgent.

Lemma add_essential_keeps (l : list string) (e x : string) :
  x ∈ l -> x ∈ add_essential l e.
Proof.
  intros Hx. unfold add_essential. destruct (Py.mem e l); [exact Hx |].
  apply elem_of_app. by left.
Qed.

Lemma add_essential_adds (l : list string) (e : string) :
  e ∈ add_essential l e.
Proof.
  unfold add_essential. destruct (Py.mem e l) eqn:Hmem.
  - by apply mem_true.
  - apply elem_of_app. right. by apply list_elem_of_singleton.
Qed.

Lemma add_essentials_keep (es l : list string) (x : string) :
  x ∈ l -> x ∈ fold_left add_essential es l.
Proof.
  revert l. induction es as [| e rest IH]; intros l Hx; [exact Hx |].
  simpl. apply IH. by apply add_essential_keeps.
Qed.

Lemma add_essentials_add (es l : list string) (e : string) :
  e ∈ es -> e ∈ fold_left add_essential es l.
Proof.
  revert l. induction es as [| e' rest IH]; intros l He.
  - by apply elem_of_nil in He.
  - simpl. apply elem_of_cons in He as [-> | He].
    + apply add_essentials_keep, add_essential_adds.
    + by apply IH.
Qed.

Lemma extracted_list_has_essentials (response e : string) :
  e ∈ essential_files -> e ∈ _extract_file_list_deduplicated response.
Proof. intros He. unfold _extract_file_list_deduplicated. by apply add_essentials_add. Qed.

(** C7. Whatever the completion service answers, the planned structure
    holds the five baseline paths: for every reply text, and so for
    every world; when the call fails the planner returns exactly the
    five paths. The planner is a total function: it returns a list in
    both cases. *)
Theorem planner_returns_baseline :
  (forall response : string,
     Forall (fun b => b ∈ _extract_file_list_deduplicated response)
       [ "app.py"; "requirements.txt"; "templates/index.html";
         "static/css/style.css"; "static/js/app.js" ])
  /\ (forall (env : Env) (project_data : Project),
        Forall (fun b => b ∈ plan_project_structure env project_data)
          [ "app.py"; "requirements.txt"; "templates/index.html";
            "static/css/style.css"; "static/js/app.js" ])
  /\ (forall (env : Env) (project_data : Project) (e : string),
        plan_completion env (proj_name project_data) (proj_id project_data)
          (requirements project_data) = Failure e ->
        plan_project_structure env project_data
        = [ "app.py"; "requirements.txt"; "templates/index.html";
            "static/css/style.css"; "static/js/app.js" ]).
Proof.
  assert (Hreply : forall response : string,
            Forall (fun b => b ∈ _extract_file_list_deduplicated response)
                   essential_files).
  { intros response. apply Forall_forall. intros e He.
    by apply extracted_list_has_essentials. }
  split; [exact Hreply | split].
  - intros env project_data. unfold plan_project_structure.
    destruct (plan_completion env _ _ _) as [content | e].
    + apply Hreply.
    + apply Forall_forall. intros b Hb. exact Hb.
  - intros env project_data e Hfail. unfold plan_project_structure.
    by rewrite Hfail.
Qed.

Lemma planner_returns_baseline_witness :
  plan_completion Examples.env "Todo App" "abcd1234" ∅
    = Failure "connection refused"
  /\ plan_project_structure Examples.env Examples.fresh
     = [ "app.py"; "requirements.txt"; "templates/index.html";
         "static/css/style.css"; "static/js/app.js" ].
Proof.
  split; [reflexivity |].
  destruct planner_returns_baseline as (_ & _ & Hfailure).
  apply (Hfailure Examples.env Examples.fresh "connection refused").
  reflexivity.
Defined.

Example garbage_reply_gives_baseline :
  _extract_file_list_deduplicated "I am sorry, I cannot help with that!"
  = [ "app.py"; "requirements.txt"; "templates/index.html";
      "static/css/style.css"; "static/js/app.js" ].
Proof. reflexivity. Qed.

End Planner.

Section Conflicts.

Import Spec IntegrationAgent.

(** One turn of the loop of [_resolve_file_conflicts] places the path
    that stands for the file, unless it is already placed. *)
Lemma resolve_step_canonical (resolved : list string) (file_path : string) :
  resolve_step resolved file_path
  = if Py.mem (canonical file_path) resolved then resolved
    else resolved ++ [canonical file_path].
Proof.
  unfold resolve_step, canonical, conflict_groups.
  cbn [conflict_step List.find snd].
  repeat match goal with
         | |- context [preferred ?g] =>
             let nested := eval vm_compute in (preferred g) in
             change (preferred g) with nested
         end.
  cbn [head default from_option].
  destruct (Py.mem file_path ["index.html"; "templates/index.html"]);
    [by destruct (Py.mem _ resolved) |].
  destruct (Py.mem file_path
              ["style.css"; "static/css/style.css"; "styles.css"]);
    [by destruct (Py.mem _ resolved) |].
  destruct (Py.mem file_path ["app.js"; "static/js/app.js"; "scripts.js"]);
    by destruct (Py.mem _ resolved).
Qed.

Lemma resolve_snoc (file_list : list string) (file_path : string) :
  _resolve_file_conflicts (file_list ++ [file_path])
  = resolve_step (_resolve_file_conflicts file_list) file_path.
Proof. unfold _resolve_file_conflicts. by rewrite fold_left_app. Qed.

Lemma elem_of_first_seen (l : list string) (x : string) :
  x ∈ first_seen l <-> x ∈ l.
Proof.
  unfold first_seen.
  by rewrite elem_of_reverse, elem_of_remove_dups, elem_of_reverse.
Qed.

Lemma first_seen_snoc (l : list string) (x : string) :
  first_seen (l ++ [x])
  = if Py.mem x (first_seen l) then first_seen l else first_seen l ++ [x].
Proof.
  unfold first_seen at 1. rewrite reverse_snoc. cbn [remove_dups].
  destruct (decide_rel elem_of x (reverse l)) as [Hin | Hout].
  - assert (Hmem : Py.mem x (first_seen l) = true).
    { apply mem_true, elem_of_first_seen. by apply elem_of_reverse. }
    by rewrite Hmem.
  - assert (Hmem : Py.mem x (first_seen l) = false).
    { apply mem_false. intros H. apply Hout.
      apply elem_of_reverse. by apply elem_of_first_seen. }
    rewrite Hmem. by rewrite reverse_cons.
Qed.

(** The resolved list is the list of the standing paths of the input, in
    the order they are first seen. *)
Lemma resolve_is_first_seen (file_list : list string) :
  _resolve_file_conflicts file_list = first_seen (map canonical file_list).
Proof.
  induction file_list as [| file_path rest IH] using rev_ind; [reflexivity |].
  rewrite resolve_snoc, resolve_step_canonical, IH, map_app. simpl.
  by rewrite first_seen_snoc.
Qed.

(** What [canonical] is on the table of the code. *)
Lemma canonical_cases (file_path : string) :
  (file_path ∈ ["index.html"; "templates/index.html"]
   /\ canonical file_path = "templates/index.html")
  \/ (file_path ∈ ["style.css"; "static/css/style.css"; "styles.css"]
      /\ canonical file_path = "static/css/style.css")
  \/ (file_path ∈ ["app.js"; "static/js/app.js"; "scripts.js"]
      /\ canonical file_path = "static/js/app.js")
  \/ (outside_groups file_path /\ canonical file_path = file_path).
Proof.
  unfold canonical, conflict_groups. cbn [List.find snd].
  repeat match goal with
         | |- context [preferred ?g] =>
             let nested := eval vm_compute in (preferred g) in
             change (preferred g) with nested
         end.
  destruct (Py.mem file_path ["index.html"; "templates/index.html"]) eqn:H1.
  { left. split; [by apply mem_true | reflexivity]. }
  destruct (Py.mem file_path
              ["style.css"; "static/css/style.css"; "styles.css"]) eqn:H2.
  { right. left. split; [by apply mem_true | reflexivity]. }
  destruct (Py.mem file_path ["app.js"; "static/js/app.js"; "scripts.js"])
    eqn:H3.
  { right. right. left. split; [by apply mem_true | reflexivity]. }
  right. right. right. split; [| reflexivity].
  apply mem_false in H1, H2, H3.
  intros key group Hgroup. unfold conflict_groups in Hgroup.
  repeat (apply elem_of_cons in Hgroup as [[= -> ->] | Hgroup];
          [assumption |]).
  by apply elem_of_nil in Hgroup.
Qed.

Ltac enumerate H :=
  repeat (apply elem_of_cons in H as [-> | H]);
  try (by apply elem_of_nil in H).

Ltac group_cases Hgroup Hnested :=
  unfold conflict_groups in Hgroup;
  repeat (apply elem_of_cons in Hgroup as [[= -> ->] | Hgroup]);
  [ .. | by apply elem_of_nil in Hgroup ];
  vm_compute in Hnested; injection Hnested as <-.

(** The paths that a group stands for are the paths of the group. *)
Lemma canonical_is_nested (key : string) (group : list string)
    (nested file_path : string) :
  (key, group) ∈ conflict_groups ->
  head (preferred group) = Some nested ->
  canonical file_path = nested <-> file_path ∈ group.
Proof.
  intros Hgroup Hnested. split.
  - intros Hcanonical.
    destruct (canonical_cases file_path)
      as [[Hin Hc] | [[Hin Hc] | [[Hin Hc] | [Hout Hc]]]];
      rewrite Hc in Hcanonical.
    4: { subst file_path. exfalso.
         assert (Hself : nested ∈ group).
         { group_cases Hgroup Hnested; apply mem_true; reflexivity. }
         by apply (Hout key group Hgroup). }
    all: group_cases Hgroup Hnested; try discriminate; exact Hin.
  - intros Hin. group_cases Hgroup Hnested; enumerate Hin; reflexivity.
Qed.

(** No bare alias of a group stands for any path. *)
Lemma alias_is_not_canonical (key : string) (group : list string)
    (nested alias file_path : string) :
  (key, group) ∈ conflict_groups ->
  head (preferred group) = Some nested ->
  alias ∈ group -> alias <> nested ->
  canonical file_path <> alias.
Proof.
  intros Hgroup Hnested Halias Hbare Hcanonical.
  destruct (canonical_cases file_path)
    as [[Hin Hc] | [[Hin Hc] | [[Hin Hc] | [Hout Hc]]]];
    rewrite Hc in Hcanonical.
  4: { subst file_path. by apply (Hout key group Hgroup). }
  all: group_cases Hgroup Hnested; enumerate Halias;
    first [discriminate Hcanonical | by apply Hbare].
Qed.

Ltac listed :=
  first [ apply mem_true; reflexivity
        | apply (bool_decide_unpack _); vm_compute; constructor ].

Lemma outside_is_own_canonical (file_path p : string) :
  outside_groups p -> canonical file_path = p <-> file_path = p.
Proof.
  intros Hout. split.
  - intros Hcanonical.
    destruct (canonical_cases file_path)
      as [[Hin Hc] | [[Hin Hc] | [[Hin Hc] | [_ Hc]]]];
      rewrite Hc in Hcanonical; [| | | exact Hcanonical]; subst p; exfalso.
    + apply (Hout "index.html" ["index.html"; "templates/index.html"]);
        listed.
    + apply (Hout "style.css"
               ["style.css"; "static/css/style.css"; "styles.css"]);
        listed.
    + apply (Hout "app.js" ["app.js"; "static/js/app.js"; "scripts.js"]);
        listed.
  - intros ->.
    destruct (canonical_cases p)
      as [[Hin _] | [[Hin _] | [[Hin _] | [_ Hc]]]]; [| | | exact Hc]; exfalso.
    + apply (Hout "index.html" ["index.html"; "templates/index.html"]);
        [listed | exact Hin].
    + apply (Hout "style.css"
               ["style.css"; "static/css/style.css"; "styles.css"]);
        [listed | exact Hin].
    + apply (Hout "app.js" ["app.js"; "static/js/app.js"; "scripts.js"]);
        [listed | exact Hin].
Qed.

Lemma elem_of_resolved (file_list : list string) (x : string) :
  x ∈ _resolve_file_conflicts file_list
  <-> exists file_path, file_path ∈ file_list /\ canonical file_path = x.
Proof.
  rewrite resolve_is_first_seen, elem_of_first_seen. split.
  - intros H. apply list_elem_of_In, in_map_iff in H as (file_path & Hc & Hin).
    exists file_path. split; [by apply list_elem_of_In | exact Hc].
  - intros (file_path & Hin & Hc). apply list_elem_of_In, in_map_iff.
    exists file_path. split; [exact Hc | by apply list_elem_of_In].
Qed.

(** C8. The plan with the bare and the nested style sheet resolves to
    the nested path alone. In general the resolved list has no repeated
    path; it is the list of the paths that stand for the input paths, in
    the order they are first seen; the nested path of a conflict group is
    in it exactly when a path of the group is planned, and no other path
    of the group is ever in it; a path outside the groups is in it
    exactly when it is planned. *)
Theorem conflicts_resolve_to_nested_paths :
  _resolve_file_conflicts ["style.css"; "static/css/style.css"]
    = ["static/css/style.css"]
  /\ forall file_list : list string,
       let resolved := _resolve_file_conflicts file_list in
       NoDup resolved
       /\ resolved = first_seen (map canonical file_list)
       /\ (forall key group nested,
             (key, group) ∈ conflict_groups ->
             head (preferred group) = Some nested ->
             (nested ∈ resolved <->
              exists file_path, file_path ∈ group /\ file_path ∈ file_list)
             /\ (forall alias, alias ∈ group -> alias <> nested ->
                               alias ∉ resolved))
       /\ (forall p, outside_groups p -> p ∈ resolved <-> p ∈ file_list).
Proof.
  split; [reflexivity |].
  intros file_list resolved. subst resolved.
  split; [| split; [| split]].
  - rewrite resolve_is_first_seen. unfold first_seen.
    rewrite reverse_Permutation. apply NoDup_remove_dups.
  - apply resolve_is_first_seen.
  - intros key group nested Hgroup Hnested. split.
    + rewrite elem_of_resolved. split.
      * intros (file_path & Hin & Hcanonical). exists file_path.
        split; [| exact Hin].
        by apply (canonical_is_nested key group nested).
      * intros (file_path & Hin & Hplanned). exists file_path.
        split; [exact Hplanned |].
        by apply (canonical_is_nested key group nested).
    + intros alias Halias Hbare Hin.
      apply elem_of_resolved in Hin as (file_path & _ & Hcanonical).
      by apply (alias_is_not_canonical key group nested alias file_path).
  - intros p Hout. rewrite elem_of_resolved. split.
    + intros (file_path & Hin & Hcanonical).
      apply (outside_is_own_canonical file_path p Hout) in Hcanonical.
      by subst.
    + intros Hin. exists p. split; [exact Hin |].
      by apply outside_is_own_canonical.
Qed.

Lemma conflicts_resolve_to_nested_paths_witness :
  (("style.css", ["style.css"; "static/css/style.css"; "styles.css"])
     ∈ conflict_groups)
  /\ head (preferred ["style.css"; "static/css/style.css"; "styles.css"])
     = Some "static/css/style.css"
  /\ outside_groups "README.md"
  /\ "static/css/style.css"
       ∈ _resolve_file_conflicts ["styles.css"; "README.md"; "style.css"]
  /\ ("styles.css"
        ∉ _resolve_file_conflicts ["styles.css"; "README.md"; "style.css"])
  /\ "README.md"
       ∈ _resolve_file_conflicts ["styles.css"; "README.md"; "style.css"].
Proof.
  assert (Hgroup : ("style.css",
                    ["style.css"; "static/css/style.css"; "styles.css"])
                     ∈ conflict_groups) by listed.
  assert (Hnested : head (preferred
                            ["style.css"; "static/css/style.css"; "styles.css"])
                    = Some "static/css/style.css") by reflexivity.
  assert (Hout : outside_groups "README.md").
  { intros key group Hin. unfold conflict_groups in Hin.
    repeat (apply elem_of_cons in Hin as [[= -> ->] | Hin];
            [apply mem_false; reflexivity |]).
    by apply elem_of_nil in Hin. }
  destruct conflicts_resolve_to_nested_paths as [_ Hgeneral].
  destruct (Hgeneral ["styles.css"; "README.md"; "style.css"])
    as (_ & _ & Hgroups & Houtside).
  destruct (Hgroups _ _ _ Hgroup Hnested) as [Hplaced Hbare].
  repeat split; try assumption.
  - apply Hplaced. exists "styles.css". split; listed.
  - apply Hbare; [listed | discriminate].
  - apply (Houtside "README.md" Hout). listed.
Defined.

Example resolved_in_first_seen_order :
  _resolve_file_conflicts
    ["a.py"; "scripts.js"; "a.py"; "index.html"; "app.js"; "b.js"]
  = ["a.py"; "static/js/app.js"; "templates/index.html"; "b.js"].
Proof. reflexivity. Qed.

(** The same plan through the whole planner: normalised, resolved, and
    completed with the missing baseline paths. *)
Example planner_keeps_one_style_sheet :
  _extract_file_list_deduplicated
    ("style.css" +:+ Py.nl +:+ "static/css/style.css")
  = [ "static/css/style.css"; "app.py"; "requirements.txt";
      "templates/index.html"; "static/js/app.js" ].
Proof. reflexivity. Qed.

End Conflicts.

(** * Further properties of the code *)

(** ** Requests: errors and answers *)

Section Requests.

Import Laws AIDEServer.


Lemma given_some (project_id : string) :
  Py.len project_id <> 0 -> given (Some project_id) = Some project_id.
Proof.
  intros Hlen. unfold given.
  destruct (Nat.eqb_spec (Py.len project_id) 0); [contradiction | reflexivity].
Qed.



(** X2. A request of the three kinds above with no project id, or an
    empty one, changes nothing and gets the one error message that says
    so; the project is not even looked up. *)
Theorem missing_project_id_is_reported (env : Env)
    (project_id : option string) (message : string) (s : Server) :
  given project_id = None ->
  process_request env (user_message project_id message) s
    = (Ok tt, s, [Send (error "No project ID provided" None)])
  /\ process_request env (check_generation_status project_id) s
     = (Ok tt, s, [Send (error "No project ID provided" None)])
  /\ process_request env (generate_code project_id) s
     = (Ok tt, s, [Send (error "No project ID provided" None)]).
Proof.
  intros Hgiven. repeat split; simpl.
  - unfold handle_user_message, try_except. by rewrite Hgiven.
  - unfold handle_check_generation_status, try_except. by rewrite Hgiven.
  - unfold handle_generate_code, try_except. by rewrite Hgiven.
Qed.

Lemma missing_project_id_is_reported_witness :
  process_request Examples.env (user_message (Some EmptyString) "hello")
    Examples.after_session
  = (Ok tt, Examples.after_session,
     [Send (error "No project ID provided" None)]).
Proof.
  apply (missing_project_id_is_reported Examples.env (Some EmptyString)
           "hello" Examples.after_session).
  reflexivity.
Defined.

End Requests.

(** ** What one conversation turn does to the project document *)

Section Turn.

Import Laws AIDEServer.

Lemma write_project_run (s : Server) (project_id : string) (p : Project) :
  LocalStorage.write_project project_id p s
  = (Ok tt,
     mkServer (<[project_id := p]> (storage s))
              (agent_progress s) (preview_ports s), []).
Proof. reflexivity. Qed.

Lemma add_message_run (s : Server) (project_id role message : string)
    (p : Project) :
  storage s !! project_id = Some p ->
  LocalStorage.add_message project_id role message s
  = (Ok tt,
     mkServer
       (<[project_id :=
            LocalStorage.set_messages
              (messages p ++ [mkMessage role message (active_agent p)]) p]>
          (storage s))
       (agent_progress s) (preview_ports s), []).
Proof.
  intros Hp. unfold LocalStorage.add_message. unfold bind at 1.
  rewrite (get_project_found s project_id p Hp). reflexivity.
Qed.

Lemma set_active_agent_run (s : Server) (project_id agent_name : string)
    (p : Project) :
  storage s !! project_id = Some p ->
  LocalStorage.set_active_agent project_id agent_name s
  = (Ok tt,
     mkServer
       (<[project_id := LocalStorage.set_active agent_name p]> (storage s))
       (agent_progress s) (preview_ports s), []).
Proof.
  intros Hp.
  unfold LocalStorage.set_active_agent, LocalStorage.update_project.
  unfold bind at 1. rewrite (get_project_found s project_id p Hp). reflexivity.
Qed.

Lemma update_requirements_run (s : Server) (project_id agent_name : string)
    (r : RequirementRecord) (p : Project) :
  storage s !! project_id = Some p ->
  LocalStorage.update_requirements project_id agent_name r s
  = (Ok tt,
     mkServer
       (<[project_id := LocalStorage.set_requirement agent_name r p]>
          (storage s))
       (agent_progress s) (preview_ports s), []).
Proof.
  intros Hp. unfold LocalStorage.update_requirements. unfold bind at 1.
  rewrite (get_project_found s project_id p Hp). reflexivity.
Qed.

Lemma track_progress_run (s : Server) (project_id current_agent : string) :
  exists s',
    Orchestrator.track_progress project_id current_agent s = (Ok tt, s', [])
    /\ storage s' = storage s /\ preview_ports s' = preview_ports s.
Proof.
  unfold Orchestrator.track_progress, bind, get_state, put_state, ret. simpl.
  destruct (agent_progress s !! project_id); simpl; by eexists.
Qed.

Lemma can_generate_code_run (s : Server) (project_id : string) (p : Project) :
  storage s !! project_id = Some p ->
  Orchestrator.can_generate_code project_id s
  = (Ok (Orchestrator.status_of p), s, []).
Proof.
  intros Hp. unfold Orchestrator.can_generate_code. unfold bind at 1.
  rewrite (get_project_found s project_id p Hp). reflexivity.
Qed.

Lemma bind_run {A B : Type} (m : M A) (k : A -> M B) (s s1 s2 : Server)
    (a : A) (r : Result B) (t1 t2 : list Event) :
  m s = (Ok a, s1, t1) -> k a s1 = (r, s2, t2) ->
  bind m k s = (r, s2, t1 ++ t2).
Proof. intros Hm Hk. unfold bind. by rewrite Hm, Hk. Qed.

Lemma bind_raised {A B : Type} (m : M A) (k : A -> M B) (s s1 : Server)
    (e : Exn) (t1 : list Event) :
  m s = (Raise e, s1, t1) -> bind m k s = (Raise e, s1, t1).
Proof. intros Hm. unfold bind. by rewrite Hm. Qed.

Lemma try_done {A : Type} (m : M A) (h : Exn -> M A) (s s1 : Server)
    (a : A) (t1 : list Event) :
  m s = (Ok a, s1, t1) -> try_except m h s = (Ok a, s1, t1).
Proof. intros Hm. unfold try_except. by rewrite Hm. Qed.

Lemma try_caught {A : Type} (m : M A) (h : Exn -> M A) (s s1 s2 : Server)
    (e : Exn) (r : Result A) (t1 t2 : list Event) :
  m s = (Raise e, s1, t1) -> h e s1 = (r, s2, t2) ->
  try_except m h s = (r, s2, t1 ++ t2).
Proof. intros Hm Hh. unfold try_except. by rewrite Hm, Hh. Qed.

(** The routed turn on a stored project: the agent the router picks is
    asked, and its record replaces the one it had. *)
Lemma route_message_run (env : Env) (s : Server)
    (project_id message : string) (p : Project) :
  storage s !! project_id = Some p ->
  let next :=
    Orchestrator._determine_next_agent_enhanced (active_agent p) message p in
  let response := agent_reply env next message p in
  exists s',
    Orchestrator.route_message env project_id message s
    = (Ok (Orchestrator.mkRouted response next false), s', [AskAgent next])
    /\ storage s'
       = <[project_id :=
             LocalStorage.set_requirement next
               (record_for next response message)
               (LocalStorage.set_active next p)]> (storage s)
    /\ preview_ports s' = preview_ports s.
Proof.
  intros Hp next response.
  assert (Hswitch : exists s1,
            (if decide (next = active_agent p) then ret tt
             else LocalStorage.set_active_agent project_id next) s
            = (Ok tt, s1, [])
            /\ storage s1
               = <[project_id := LocalStorage.set_active next p]> (storage s)
            /\ preview_ports s1 = preview_ports s).
  { destruct (decide (next = active_agent p)) as [Hstay | Hmove].
    - exists s. split; [reflexivity | split; [| reflexivity]].
      rewrite insert_id; [reflexivity |]. rewrite Hp. f_equal.
      destruct p. simpl in *. by rewrite Hstay.
    - eexists. split; [by apply set_active_agent_run |]. by split. }
  destruct Hswitch as (s1 & Hswitch & Hstorage1 & Hports1).
  assert (Hp1 : storage s1 !! project_id
                = Some (LocalStorage.set_active next p))
    by (rewrite Hstorage1; apply lookup_insert_eq).
  pose proof (update_requirements_run s1 project_id next
                (record_for next response message) _ Hp1) as Hupdate.
  match type of Hupdate with
  | _ = (_, ?st, _) =>
      destruct (track_progress_run st project_id next)
        as (s' & Htrack & Hstorage & Hports)
  end.
  exists s'. split; [| split].
  - unfold Orchestrator.route_message.
    eapply (bind_run _ _ s s _ p _ [] [AskAgent next]);
      [by apply get_project_found |].
    cbv zeta. fold next.
    eapply (bind_run _ _ s s1 _ tt _ [] [AskAgent next]); [exact Hswitch |].
    eapply (bind_run _ _ s1 s1 _ response _ [AskAgent next] []).
    { unfold Orchestrator._call_agent_enhanced.
      eapply (bind_run _ _ s1 s1 _ tt _ [AskAgent next] []); reflexivity. }
    eapply (bind_run _ _ s1 _ _
              (Orchestrator._has_substantial_content response next) _ [] []).
    { unfold Orchestrator._extract_requirements_enhanced. cbv zeta.
      eapply (bind_run _ _ s1 _ _ tt _ [] []); [exact Hupdate | reflexivity]. }
    eapply (bind_run _ _ _ s' _ tt _ [] []); [exact Htrack | reflexivity].
  - rewrite Hstorage. simpl. rewrite Hstorage1. by rewrite insert_insert_eq.
  - rewrite Hports. simpl. exact Hports1.
Qed.

(** What a user message for a stored project runs to. *)
Lemma user_turn_run (env : Env) (project_id message : string)
    (s : Server) (p : Project) :
  storage s !! project_id = Some p ->
  Py.len project_id <> 0 ->
  exists s',
    process_request env (user_message (Some project_id) message) s
    = (Ok tt, s',
       [ AskAgent (turn_agent message p);
         Send (agent_response (Text (turn_reply env message p))
                 (turn_agent message p));
         Send (generation_status project_id
                 (Orchestrator.status_of (after_turn env message p))) ])
    /\ storage s' = <[project_id := after_turn env message p]> (storage s)
    /\ preview_ports s' = preview_ports s.
Proof.
  intros Hp Hlen.
  pose proof (add_message_run s project_id "user" message p Hp) as Hadd.
  fold (heard message p) in Hadd.
  match type of Hadd with
  | _ = (_, ?st, _) => set (s1 := st) in *
  end.
  assert (Hp1 : storage s1 !! project_id = Some (heard message p))
    by (simpl; apply lookup_insert_eq).
  destruct (route_message_run env s1 project_id message _ Hp1)
    as (s2 & Hroute & Hstorage2 & Hports2).
  fold (turn_agent message p) in Hroute, Hstorage2.
  fold (turn_reply env message p) in Hroute, Hstorage2.
  match type of Hstorage2 with
  | _ = <[_ := ?q]> _ => set (p2 := q) in *
  end.
  assert (Hp2 : storage s2 !! project_id = Some p2)
    by (rewrite Hstorage2; apply lookup_insert_eq).
  pose proof (add_message_run s2 project_id "agent"
                (turn_reply env message p) p2 Hp2) as Hreply.
  match type of Hreply with
  | _ = (_, ?st, _) => set (s3 := st) in *
  end.
  assert (Hfinal :
            LocalStorage.set_messages
              (messages p2
               ++ [mkMessage "agent" (turn_reply env message p)
                     (active_agent p2)]) p2
            = after_turn env message p).
  { unfold after_turn, p2, heard. simpl. by rewrite <- app_assoc. }
  assert (Hp3 : storage s3 !! project_id = Some (after_turn env message p))
    by (unfold s3; cbn [storage]; rewrite Hfinal; apply lookup_insert_eq).
  assert (Hrun :
    process_request env (user_message (Some project_id) message) s
    = (Ok tt, s3,
       [ AskAgent (turn_agent message p);
         Send (agent_response (Text (turn_reply env message p))
                 (turn_agent message p));
         Send (generation_status project_id
                 (Orchestrator.status_of (after_turn env message p))) ])).
  { simpl. unfold handle_user_message. apply try_done.
    rewrite (given_some project_id Hlen).
    eapply (bind_run _ _ s s1 _ tt _ [] _); [exact Hadd |].
    eapply (bind_run _ _ s1 s1 _ _ _ [] _);
      [by apply get_project_found |].
    eapply (bind_run _ _ s1 s2 _ _ _ [AskAgent (turn_agent message p)] _);
      [exact Hroute |].
    cbn [Orchestrator.rt_message Orchestrator.rt_agent].
    eapply (bind_run _ _ s2 s3 _ tt _ [] _); [exact Hreply |].
    eapply (bind_run _ _ s3 s3 _ tt _
              [Send (agent_response (Text (turn_reply env message p))
                       (turn_agent message p))] _); [reflexivity |].
    eapply (bind_run _ _ s3 s3 _ _ _ [] _);
      [by apply can_generate_code_run |].
    reflexivity. }
  exists s3. split; [exact Hrun | split].
  - unfold s3. cbn [storage]. rewrite Hfinal, Hstorage2.
    unfold s1. cbn [storage]. by rewrite !insert_insert_eq.
  - unfold s3. cbn [preview_ports]. exact Hports2.
Qed.

(** The dict keeps its keys listed once each when an entry is set. *)
Lemma keys_in_order_set_requirement (k : string) (r : RequirementRecord)
    (p : Project) :
  keys_in_order p -> keys_in_order (LocalStorage.set_requirement k r p).
Proof.
  intros [Hnodup Hkeys]. unfold keys_in_order, LocalStorage.set_requirement.
  cbn [requirements requirements_order]. unfold LocalStorage.keys_with.
  destruct (requirements p !! k) as [old |] eqn:Hk.
  - split; [exact Hnodup |]. intros k'.
    destruct (decide (k = k')) as [<- | Hne].
    + rewrite lookup_insert_eq. split; [by eexists |].
      intros _. apply Hkeys. by eexists.
    + rewrite lookup_insert_ne by exact Hne. apply Hkeys.
  - assert (Hnew : k ∉ requirements_order p).
    { intros Hin. apply Hkeys in Hin as [x Hx]. congruence. }
    split.
    + apply NoDup_app. split; [exact Hnodup | split].
      * intros x Hx Hin. apply list_elem_of_singleton in Hin. by subst.
      * apply NoDup_singleton.
    + intros k'. rewrite elem_of_app, list_elem_of_singleton.
      destruct (decide (k = k')) as [<- | Hne].
      * rewrite lookup_insert_eq. split; [by eexists | by right].
      * rewrite lookup_insert_ne by exact Hne. rewrite Hkeys.
        split; [intros [H | H]; [exact H | congruence] | by left].
Qed.

(** With the keys listed once each, the names of the status are as many
    as the substantial entries it counts. *)
Lemma contributions_are_counted (p : Project) :
  keys_in_order p ->
  length (agent_contributions (Orchestrator.status_of p))
  = st_substantial_agents (Orchestrator.status_of p).
Proof.
  intros [Hnodup Hkeys]. unfold Orchestrator.status_of. cbv zeta.
  cbn [agent_contributions st_substantial_agents].
  unfold Orchestrator.substantial_agents.
  assert (Hperm : requirements_order p ≡ₚ (map_to_list (requirements p)).*1).
  { apply NoDup_Permutation; [exact Hnodup | apply NoDup_fst_map_to_list |].
    intros k. rewrite Hkeys, list_elem_of_fmap. split.
    - intros [x Hx]. exists (k, x). split; [reflexivity |].
      by apply elem_of_map_to_list.
    - intros ([k' x] & -> & Hin). apply elem_of_map_to_list in Hin.
      by eexists. }
  rewrite Hperm. clear Hperm.
  assert (Hentries : Forall (fun kv => requirements p !! kv.1 = Some kv.2)
                       (map_to_list (requirements p))).
  { apply Forall_forall. intros [k x] Hin. by apply elem_of_map_to_list. }
  induction Hentries as [| [k x] l Hkx _ IH]; [reflexivity |].
  rewrite fmap_cons. cbn [fst snd] in *.
  destruct (has_substance x) eqn:Hx.
  - rewrite (filter_cons_True _ k)
      by (unfold Orchestrator.is_substantial; by rewrite Hkx).
    rewrite (filter_cons_True _ (k, x)) by exact Hx.
    cbn [length]. by rewrite IH.
  - rewrite (filter_cons_False _ k)
      by (unfold Orchestrator.is_substantial; rewrite Hkx; congruence).
    rewrite (filter_cons_False _ (k, x)) by (cbn [snd]; congruence).
    exact IH.
Qed.

(** Every document of a session has its keys listed once each. *)
Lemma session_keeps_keys_in_order (env : Env) (requests : list Request) :
  Spec.triple
    (fun s => forall k p, storage s !! k = Some p -> keys_in_order p)
    (fun _ => false) (serve env requests) (fun _ => True).
Proof.
  apply (triple_serve
           (fun s => forall k p, storage s !! k = Some p -> keys_in_order p)
           keys_in_order (fun _ => false)).
  - apply read_by_lookup. intros s k p HI Hp. by eapply HI.
  - apply write_by_insert. intros s k p HI Hp k' q. simpl. intros Hq.
    apply lookup_insert_Some in Hq as [[_ <-] | [_ Hq]]; [exact Hp |].
    by eapply HI.
  - intros s s' Heq HI k q. rewrite Heq. apply HI.
  - intros l p Hp. exact Hp.
  - intros k r p Hp. by apply keys_in_order_set_requirement.
  - intros l p Hp. exact Hp.
  - intros m p p' _ Hp'. exact Hp'.
  - reflexivity.
  - reflexivity.
  - apply cleanup_by_delete. intros s k HI k' q. simpl. intros Hq.
    apply lookup_delete_Some in Hq as [_ Hq]. by eapply HI.
  - intros k name. split; [apply NoDup_nil_2 |].
    intros k'. cbn [LocalStorage.new_project requirements_order requirements].
    rewrite lookup_empty. split; [by intros ?%elem_of_nil | by intros [? ?]].
  - intros p Hp. exact Hp.
  - reflexivity.
Qed.

(** X3. A user message with a text, for a stored project whose messages
    are texts, always succeeds and leaves exactly this: the user message and the reply
    appended to the messages, the first filed under the agent active
    before the turn and the second under the agent that answered; the
    record of the answering agent replaced by one whose substance flag
    is the classifier applied to the reply, in the place the dict had it
    or, for an agent without record, after the other entries; that
    agent active; generated files, other roles' records and the preview
    bindings untouched. The client gets the reply and then the
    generation status of the new document, which names the substantial
    roles in the order of the dict, as many as it counts; the keys of
    the dict are listed once each in every document of a session. *)
Theorem turn_rewrites_the_document (env : Env) (project_id message : string)
    (s : Server) (p : Project) :
  storage s !! project_id = Some p ->
  Py.len project_id <> 0 ->
  let run := process_request env (user_message (Some project_id) message) s in
  result_of run = Ok tt
  /\ storage (state_of run)
     = <[project_id := after_turn env message p]> (storage s)
  /\ preview_ports (state_of run) = preview_ports s
  /\ trace_of run
     = [ AskAgent (turn_agent message p);
         Send (agent_response (Text (turn_reply env message p))
                 (turn_agent message p));
         Send (generation_status project_id
                 (Orchestrator.status_of (after_turn env message p))) ]
  /\ after_turn env message p
     = LocalStorage.set_messages
         (messages p
          ++ [ mkMessage "user" message (active_agent p);
               mkMessage "agent" (turn_reply env message p)
                 (turn_agent message p) ])
         (LocalStorage.set_requirement (turn_agent message p)
            (record_for (turn_agent message p) (turn_reply env message p)
               message)
            (LocalStorage.set_active (turn_agent message p) p))
  /\ agent_contributions (Orchestrator.status_of (after_turn env message p))
     = filter (fun agent_name =>
                 Orchestrator.is_substantial
                   (requirements (after_turn env message p)) agent_name
                 = true)
              (LocalStorage.keys_with (turn_agent message p) p)
  /\ (keys_in_order p ->
      keys_in_order (after_turn env message p)
      /\ length (agent_contributions
                   (Orchestrator.status_of (after_turn env message p)))
         = st_substantial_agents
             (Orchestrator.status_of (after_turn env message p)))
  /\ (forall (requests : list Request) (k : string) (q : Project),
        storage (state_of (serve env requests initial)) !! k = Some q ->
        keys_in_order q).
Proof.
  intros Hp Hlen.
  destruct (user_turn_run env project_id message s p Hp Hlen)
    as (s' & Hrun & Hstorage & Hports).
  cbv zeta. rewrite Hrun. unfold result_of, state_of, trace_of.
  cbn [fst snd].
  split; [reflexivity | split; [exact Hstorage | split; [exact Hports |]]].
  split; [reflexivity | split; [reflexivity | split; [reflexivity |]]].
  split.
  - intros Hkeys.
    assert (Hafter : keys_in_order (after_turn env message p)).
    { apply (keys_in_order_set_requirement (turn_agent message p)
               (record_for (turn_agent message p) (turn_reply env message p)
                  message) p Hkeys). }
    split; [exact Hafter | by apply contributions_are_counted].
  - intros requests k q.
    destruct (session_keeps_keys_in_order env requests initial) as [Hall _].
    + intros k' p'. cbn [initial storage]. rewrite lookup_empty.
      discriminate.
    + apply Hall.
Qed.

Lemma turn_rewrites_the_document_witness :
  storage Examples.designing !! "abcd1234" = Some Examples.two_designers
  /\ keys_in_order Examples.two_designers
  /\ trace_of (process_request Examples.env
                 (user_message (Some "abcd1234")
                    "keep the tasks in a database")
                 Examples.designing)
     = [ AskAgent "data_architect";
         Send (agent_response (Text Examples.reply_text) "data_architect");
         Send (generation_status "abcd1234"
                 (Orchestrator.status_of
                    (after_turn Examples.env "keep the tasks in a database"
                       Examples.two_designers))) ]
  /\ agent_contributions
       (Orchestrator.status_of
          (after_turn Examples.env "keep the tasks in a database"
             Examples.two_designers))
     = [ "ux_architect"; "ui_designer" ]
  /\ length [ "ux_architect"; "ui_designer" ]
     = st_substantial_agents
         (Orchestrator.status_of
            (after_turn Examples.env "keep the tasks in a database"
               Examples.two_designers)).
Proof.
  assert (Hkeys : keys_in_order Examples.two_designers).
  { unfold Examples.two_designers.
    do 2 apply keys_in_order_set_requirement.
    split; [apply NoDup_nil_2 |].
    intros k. cbn. rewrite lookup_empty.
    split; [by intros ?%elem_of_nil | by intros [? ?]]. }
  destruct (turn_rewrites_the_document Examples.env "abcd1234"
              "keep the tasks in a database" Examples.designing
              Examples.two_designers)
    as (_ & _ & _ & Htrace & _ & Hnames & Hcount & _).
  - vm_compute. reflexivity.
  - vm_compute. lia.
  - destruct (Hcount Hkeys) as [_ Hlength].
    split; [vm_compute; reflexivity |].
    split; [exact Hkeys |].
    split; [etransitivity; [exact Htrace | vm_compute; reflexivity] |].
    assert (Hlist :
      agent_contributions
        (Orchestrator.status_of
           (after_turn Examples.env "keep the tasks in a database"
              Examples.two_designers))
      = [ "ux_architect"; "ui_designer" ])
      by (etransitivity; [exact Hnames | vm_compute; reflexivity]).
    split; [exact Hlist |].
    etransitivity; [| exact Hlength].
    apply (f_equal (@length string)). symmetry. exact Hlist.
Defined.

End Turn.

(** ** Requests are always answered *)

Section Answers.

Import Laws AIDEServer.












End Answers.

(** ** The gate in front of the generation run, and the preview binding *)

Section Refusal.

Import Laws AIDEServer.

(** X5. A generate-code request for a stored project whose gate is
    closed starts nothing: the server is left as it was and the client
    gets the one generation_failed message with the status text. *)
Theorem closed_gate_refuses_generation (env : Env) (project_id : string)
    (s : Server) (p : Project) :
  storage s !! project_id = Some p ->
  Py.len project_id <> 0 ->
  Orchestrator._has_minimal_requirements p = false ->
  process_request env (generate_code (Some project_id)) s
  = (Ok tt, s,
     [Send (generation_failed project_id
              (st_message (Orchestrator.status_of p)))]).
Proof.
  intros Hp Hlen Hgate. simpl. unfold handle_generate_code.
  apply try_done. rewrite (given_some project_id Hlen).
  eapply (bind_run _ _ s s _ _ _ [] _); [by apply can_generate_code_run |].
  change (can_generate (Orchestrator.status_of p))
    with (Orchestrator._has_minimal_requirements p).
  cbn [st_message Orchestrator.status_of]. rewrite !Hgate. reflexivity.
Qed.

Lemma closed_gate_refuses_generation_witness :
  process_request Examples.env (generate_code (Some "abcd1234"))
    (state_of (process_request Examples.env
                 (new_project (Some "Todo App")) initial))
  = (Ok tt,
     state_of (process_request Examples.env
                 (new_project (Some "Todo App")) initial),
     [Send (generation_failed "abcd1234"
              "Please describe your project requirements first.")]).
Proof.
  eapply (closed_gate_refuses_generation Examples.env "abcd1234" _
            (LocalStorage.new_project "abcd1234" "Todo App")).
  - vm_compute. reflexivity.
  - vm_compute. lia.
  - vm_compute. reflexivity.
Defined.

(** X6. A project that has a preview port gets the same address again
    without a server being started and without any change of state; a
    first request binds the port the start returns; a start that fails
    (port 0) returns the empty address and binds nothing, so that the
    next request starts a server again. *)
Theorem preview_binding_is_reused (env : Env) (project_id : string)
    (s : Server) :
  (forall port,
     preview_ports s !! project_id = Some port ->
     ProjectBuilder.get_preview_url env project_id s
     = (Ok (ProjectBuilder.url_of port), s, []))
  /\ (forall port,
        preview_ports s !! project_id = None ->
        start_preview_server env project_id (preview_ports s) = port ->
        port <> 0 ->
        let s1 := state_of (ProjectBuilder.get_preview_url env project_id s) in
        ProjectBuilder.get_preview_url env project_id s
        = (Ok (ProjectBuilder.url_of port), s1, [StartPreview project_id])
        /\ preview_ports s1 = <[project_id := port]> (preview_ports s)
        /\ ProjectBuilder.get_preview_url env project_id s1
           = (Ok (ProjectBuilder.url_of port), s1, []))
  /\ (preview_ports s !! project_id = None ->
      start_preview_server env project_id (preview_ports s) = 0 ->
      ProjectBuilder.get_preview_url env project_id s
      = (Ok EmptyString, s, [StartPreview project_id])).
Proof.
  split; [| split].
  - intros port Hbound.
    unfold ProjectBuilder.get_preview_url, bind, get_state. simpl.
    by rewrite Hbound.
  - intros port Hfree Hstart Hport s1.
    assert (Hfirst :
      ProjectBuilder.get_preview_url env project_id s
      = (Ok (ProjectBuilder.url_of port),
         mkServer (storage s) (agent_progress s)
                  (<[project_id := port]> (preview_ports s)),
         [StartPreview project_id])).
    { unfold ProjectBuilder.get_preview_url, bind, get_state, emit, put_state,
        ret. simpl. rewrite Hfree. cbv zeta. rewrite Hstart.
      destruct (Nat.eqb_spec port 0); [contradiction | reflexivity]. }
    unfold s1. rewrite Hfirst. unfold state_of. cbn [fst snd].
    split; [reflexivity | split; [reflexivity |]].
    unfold ProjectBuilder.get_preview_url, bind, get_state. simpl.
    by rewrite lookup_insert_eq.
  - intros Hfree Hstart.
    unfold ProjectBuilder.get_preview_url, bind, get_state, emit, ret. simpl.
    rewrite Hfree. cbv zeta. by rewrite Hstart.
Qed.

Lemma preview_binding_is_reused_witness :
  preview_ports Examples.after_session !! "abcd1234" = None
  /\ start_preview_server Examples.env "abcd1234"
       (preview_ports Examples.after_session) = 3001
  /\ ProjectBuilder.get_preview_url Examples.env "abcd1234"
       (state_of (ProjectBuilder.get_preview_url Examples.env "abcd1234"
                    Examples.after_session))
     = (Ok "http://localhost:3001",
        state_of (ProjectBuilder.get_preview_url Examples.env "abcd1234"
                    Examples.after_session), []).
Proof.
  destruct (preview_binding_is_reused Examples.env "abcd1234"
              Examples.after_session) as (_ & Hfirst & _).
  assert (Hfree : preview_ports Examples.after_session !! "abcd1234" = None)
    by (vm_compute; reflexivity).
  split; [exact Hfree | split; [reflexivity |]].
  apply (Hfirst 3001 Hfree eq_refl). discriminate.
Defined.

End Refusal.

(** ** The port search and the readiness poll of the preview server *)

Section Ports.

Import PreviewServer Laws.

(** The first hit of a search through consecutive numbers. *)
Lemma find_seq_first (f : nat -> bool) (a n : nat) :
  match List.find f (seq a n) with
  | Some p =>
      a <= p < a + n /\ f p = true /\ forall q, a <= q < p -> f q = false
  | None => forall q, a <= q < a + n -> f q = false
  end.
Proof.
  revert a. induction n as [| n IH]; intros a; cbn [seq List.find].
  - intros q Hq. lia.
  - destruct (f a) eqn:Hfa.
    + split; [lia | split; [exact Hfa | intros q Hq; lia]].
    + specialize (IH (S a)).
      destruct (List.find f (seq (S a) n)) as [p |].
      * destruct IH as (Hp & Hfp & Hfirst).
        split; [lia | split; [exact Hfp |]].
        intros q Hq. destruct (decide (q = a)) as [-> | Hne];
          [exact Hfa | apply Hfirst; lia].
      * intros q Hq. destruct (decide (q = a)) as [-> | Hne];
          [exact Hfa | apply IH; lia].
Qed.

Lemma configured_ports :
  seq PREVIEW_PORT_RANGE.1 (PREVIEW_PORT_RANGE.2 + 1 - PREVIEW_PORT_RANGE.1)
  = seq 3001 10.
Proof. reflexivity. Qed.

Lemma fallback_ports : seq 8000 1000 = seq (Z.to_nat 8000) 1000.
Proof. reflexivity. Qed.

(** X7. The port search is a first fit: when a port of the configured
    range 3001..3010 is usable (held by no project and bindable) the
    search returns the lowest usable port of that range; when none is,
    the lowest usable port of 8000..8999; and only when neither range
    has one, the port picked by the system. So a port other than that
    last resort is never one that is held by a project. *)
Theorem port_search_is_first_fit (bindable : nat -> bool) (ephemeral : nat)
    (preview_ports : gmap string nat) :
  let port := _get_available_port bindable ephemeral preview_ports in
  let free := usable bindable preview_ports in
  (forall q, in_range 3001 3011 q -> free q = true ->
     in_range 3001 3011 port /\ port <= q /\ free port = true)
  /\ ((forall q, in_range 3001 3011 q -> free q = false) ->
      forall q, in_range 8000 9000 q -> free q = true ->
        in_range 8000 9000 port /\ port <= q /\ free port = true)
  /\ ((forall q, in_range 3001 3011 q \/ in_range 8000 9000 q ->
                 free q = false) ->
      port = ephemeral)
  /\ (port <> ephemeral ->
      (port ∉ (map_to_list preview_ports).*2) /\ bindable port = true).
Proof.
  intros port free. subst port. unfold _get_available_port. cbv zeta.
  rewrite configured_ports, fallback_ports. fold free. unfold in_range.
  pose proof (find_seq_first free 3001 10) as Hfirst.
  pose proof (find_seq_first free (Z.to_nat 8000) 1000) as Hsecond.
  assert (Hfree : forall p, free p = true ->
            (p ∉ (map_to_list preview_ports).*2) /\ bindable p = true).
  { intros p Hp. unfold free, usable in Hp.
    apply andb_true_iff in Hp as [Hheld Hbind]. split; [| exact Hbind].
    apply negb_true_iff in Hheld. by apply bool_decide_eq_false in Hheld. }
  destruct (List.find free (seq 3001 10)) as [p1 |].
  - destruct Hfirst as (Hrange & Hp1 & Hlowest).
    split; [| split; [| split]].
    + intros q Hq Hfq. split; [lia | split; [| exact Hp1]].
      destruct (decide (p1 <= q)) as [Hle | Hgt]; [exact Hle |].
      rewrite Hlowest in Hfq by lia. discriminate.
    + intros Hnone. rewrite Hnone in Hp1 by lia. discriminate.
    + intros Hnone. rewrite Hnone in Hp1 by (left; lia). discriminate.
    + intros _. by apply Hfree.
  - destruct (List.find free (seq (Z.to_nat 8000) 1000)) as [p2 |].
    + destruct Hsecond as (Hrange & Hp2 & Hlowest).
      split; [| split; [| split]].
      * intros q Hq Hfq. rewrite Hfirst in Hfq by lia. discriminate.
      * intros _ q Hq Hfq. split; [lia | split; [| exact Hp2]].
        destruct (decide (p2 <= q)) as [Hle | Hgt]; [exact Hle |].
        rewrite Hlowest in Hfq by lia. discriminate.
      * intros Hnone. rewrite Hnone in Hp2 by (right; lia). discriminate.
      * intros _. by apply Hfree.
    + split; [| split; [| split]].
      * intros q Hq Hfq. rewrite Hfirst in Hfq by lia. discriminate.
      * intros _ q Hq Hfq. rewrite Hsecond in Hfq by lia. discriminate.
      * reflexivity.
      * intros Hne. by destruct Hne.
Qed.

Lemma port_search_is_first_fit_witness :
  in_range 3001 3011
    (_get_available_port (fun port => negb (port =? 3001)) 0
       {["abcd1234" := 3002]})
  /\ _get_available_port (fun port => negb (port =? 3001)) 0
       {["abcd1234" := 3002]} <= 3003
  /\ usable (fun port => negb (port =? 3001)) {["abcd1234" := 3002]}
       (_get_available_port (fun port => negb (port =? 3001)) 0
          {["abcd1234" := 3002]}) = true.
Proof.
  destruct (port_search_is_first_fit (fun port => negb (port =? 3001)) 0
              {["abcd1234" := 3002]}) as (Hconfigured & _).
  apply (Hconfigured 3003).
  - unfold in_range. lia.
  - vm_compute. reflexivity.
Defined.

Lemma wait_from_spec (probe : nat -> Probe) (attempt remaining : nat) :
  let ready := (wait_from probe attempt remaining).1 in
  let probes := (wait_from probe attempt remaining).2 in
  probes <= remaining
  /\ (ready = true ->
      1 <= probes /\ alive (probe (attempt + probes - 1)) = true
      /\ forall i, i < probes - 1 -> alive (probe (attempt + i)) = false)
  /\ (ready = false ->
      probes = remaining
      /\ forall i, i < remaining -> alive (probe (attempt + i)) = false).
Proof.
  revert attempt. induction remaining as [| n IH]; intros attempt.
  - cbn. split; [lia | split; [discriminate |]].
    intros _. split; [reflexivity | intros i Hi; lia].
  - cbn [wait_from]. destruct (alive (probe attempt)) eqn:Halive.
    + cbn. split; [lia | split; [| discriminate]].
      intros _. split; [lia | split; [| intros i Hi; lia]].
      by replace (attempt + 1 - 1) with attempt by lia.
    + specialize (IH (S attempt)). cbv zeta in IH.
      destruct (wait_from probe (S attempt) n) as [ready probes].
      cbn [fst snd] in *. destruct IH as (Hle & Hready & Hnot).
      split; [lia | split].
      * intros Hr. destruct (Hready Hr) as (Hpos & Hlast & Hbefore).
        split; [lia | split].
        -- by replace (attempt + S probes - 1)
             with (S attempt + probes - 1) by lia.
        -- intros i Hi. destruct i as [| i].
           ++ by rewrite Nat.add_0_r.
           ++ replace (attempt + S i) with (S attempt + i) by lia.
              apply Hbefore. lia.
      * intros Hr. destruct (Hnot Hr) as (-> & Hnone).
        split; [reflexivity |]. intros i Hi. destruct i as [| i].
        -- by rewrite Nat.add_0_r.
        -- replace (attempt + S i) with (S attempt + i) by lia.
           apply Hnone. lia.
Qed.

(** X8. The readiness poll reports the server ready exactly when one of
    the first [max_attempts] probes is answered with status 200 or 404;
    it then stops at the first such probe and has made no probe after
    it. When no probe is answered that way, any other status included,
    it makes all [max_attempts] probes and reports the server not
    ready. *)
Theorem readiness_poll_stops_at_first_answer (probe : nat -> Probe)
    (max_attempts : nat) :
  let ready := (_wait_for_server_ready probe max_attempts).1 in
  let probes := (_wait_for_server_ready probe max_attempts).2 in
  (ready = true <->
   exists i, i < max_attempts /\ alive (probe i) = true)
  /\ (ready = true ->
      1 <= probes <= max_attempts
      /\ alive (probe (probes - 1)) = true
      /\ forall i, i < probes - 1 -> alive (probe i) = false)
  /\ (ready = false -> probes = max_attempts).
Proof.
  intros ready probes. subst ready probes. unfold _wait_for_server_ready.
  pose proof (wait_from_spec probe 0 max_attempts) as Hspec.
  cbv zeta in Hspec. cbn [Nat.add] in Hspec.
  destruct Hspec as (Hle & Hready & Hnot).
  split; [split | split].
  - intros Hr. destruct (Hready Hr) as (Hpos & Hlast & _).
    exists ((wait_from probe 0 max_attempts).2 - 1). split; [lia | exact Hlast].
  - intros (i & Hi & Halive).
    destruct ((wait_from probe 0 max_attempts).1) eqn:Hr; [reflexivity |].
    destruct (Hnot eq_refl) as [_ Hnone]. rewrite Hnone in Halive by exact Hi.
    discriminate.
  - intros Hr. destruct (Hready Hr) as (Hpos & Hlast & Hbefore).
    split; [lia | split; [exact Hlast | exact Hbefore]].
  - intros Hr. by destruct (Hnot Hr).
Qed.

Lemma readiness_poll_stops_at_first_answer_witness :
  (_wait_for_server_ready
     (fun attempt => match attempt with
                     | 0 => NoAnswer
                     | 1 => Answer 500
                     | _ => Answer 404
                     end) 15).2 = 3.
Proof.
  pose (probe := fun attempt => match attempt with
                                | 0 => NoAnswer
                                | 1 => Answer 500
                                | _ => Answer 404
                                end).
  destruct (readiness_poll_stops_at_first_answer probe 15)
    as (Hready & Hstop & _).
  assert (Hr : (_wait_for_server_ready probe 15).1 = true).
  { apply Hready. exists 2. split; [lia | reflexivity]. }
  destruct (Hstop Hr) as (_ & _ & _). reflexivity.
Defined.

End Ports.

(** ** The conversation history *)

Section History.

Import StorageQueries.

Lemma last_slice_positive {A : Type} (limit : Z) (l : list A) :
  (0 < limit)%Z ->
  last_slice limit l = drop (length l - Z.to_nat limit) l.
Proof.
  intros Hlimit. unfold last_slice. cbv zeta.
  destruct (Z.ltb_spec (- limit) 0) as [_ | Hge]; [| lia].
  f_equal. lia.
Qed.

(** X9. The history of a stored project with a positive limit is the
    tail of its messages: the last [limit] of them in their order, or
    all of them when there are fewer. With limit 0 the slice starts at
    the first message, so the whole history comes back, and a negative
    limit drops that many of the oldest messages. The call leaves the
    state as it is. *)
Theorem history_is_the_tail (project_id : string) (s : Server) (p : Project)
    (limit : Z) :
  storage s !! project_id = Some p ->
  exists recent,
    get_conversation_history project_id limit s = (Ok recent, s, [])
    /\ ((0 < limit)%Z ->
        recent = drop (length (messages p) - Z.to_nat limit) (messages p)
        /\ length recent = Nat.min (Z.to_nat limit) (length (messages p)))
    /\ (limit = 0%Z -> recent = messages p)
    /\ ((limit < 0)%Z -> recent = drop (Z.to_nat (- limit)) (messages p)).
Proof.
  intros Hp. exists (last_slice limit (messages p)). split.
  { unfold get_conversation_history. unfold bind at 1.
    by rewrite (get_project_found s project_id p Hp). }
  split; [| split].
  - intros Hlimit. rewrite last_slice_positive by exact Hlimit.
    split; [reflexivity |]. rewrite length_drop. lia.
  - intros ->. unfold last_slice. cbv zeta.
    change (- 0 <? 0)%Z with false. cbv iota.
    rewrite Z.min_l by lia. reflexivity.
  - intros Hlimit. unfold last_slice. cbv zeta.
    destruct (Z.ltb_spec (- limit) 0) as [Hlt | _]; [lia |].
    destruct (decide (Z.to_nat (- limit) <= length (messages p)))
      as [Hle | Hgt].
    + f_equal. lia.
    + rewrite !drop_ge by lia. reflexivity.
Qed.

Lemma history_is_the_tail_witness :
  exists recent,
    get_conversation_history "abcd1234" 3 Examples.after_session
    = (Ok recent, Examples.after_session, [])
    /\ length recent = 3.
Proof.
  destruct (history_is_the_tail "abcd1234" Examples.after_session
              Examples.stored 3) as (recent & Hrun & Hpositive & _).
  - vm_compute. reflexivity.
  - exists recent. split; [exact Hrun |].
    destruct Hpositive as [_ Hlen]; [lia |].
    rewrite Hlen. vm_compute. reflexivity.
Defined.

End History.

(** ** Summaries and the database spec *)

Section Summaries.

Import OrchestratorText.

Lemma len_take (n : nat) (s : string) : Py.len (Py.take n s) <= n.
Proof.
  unfold Py.take, Py.len. revert s. induction n as [| n IH]; intros s.
  - destruct s; cbn; lia.
  - destruct s as [| c s]; cbn; [lia |]. specialize (IH s). lia.
Qed.

Lemma len_append (a b : string) :
  Py.len (a +:+ b) = Py.len a + Py.len b.
Proof.
  unfold Py.len. induction a as [| c a IH]; [reflexivity |].
  change (String c a +:+ b) with (String c (a +:+ b)).
  cbn [String.length Nat.add]. by rewrite IH.
Qed.

(** A text without the separator is the one field of its split. *)
Lemma split_without_separator (sep : ascii) (s : string) :
  Py.count sep s = 0 -> Py.split sep s = [s].
Proof.
  induction s as [| c s IH]; cbn [Py.split Py.count]; [reflexivity |].
  destruct (Ascii.eqb c sep); [discriminate |].
  intros Hcount. by rewrite IH.
Qed.

(** X10. The summary stored with a requirements record never has more
    than 200 characters, whatever the reply. *)
Theorem intelligent_summary_is_short (response : string) :
  Py.len (_create_intelligent_summary_enhanced response) <= 200.
Proof.
  unfold _create_intelligent_summary_enhanced. cbv zeta.
  destruct (Nat.leb_spec (Py.len response) 200) as [Hshort | Hlong];
    [exact Hshort |].
  destruct (Nat.ltb_spec 200
              (Py.len (Py.join Py.nl
                         (meaningful_lines [] (Py.split Py.newline response)))))
    as [Hcut | Hfits]; [| exact Hfits].
  rewrite len_append.
  pose proof (len_take 197
                (Py.join Py.nl
                   (meaningful_lines [] (Py.split Py.newline response)))).
  change (Py.len "...") with 3. lia.
Qed.

(** X11. The summary of a reply for the context of the next agent is
    not bounded that way: a reply of more than 100 characters that has
    no full stop is its own first sentence, and its summary is the whole
    reply followed by three dots, longer than the reply. *)
Theorem summary_without_full_stop_grows (response : string) :
  100 < Py.len response ->
  Py.count "." response = 0 ->
  _create_agent_summary response = response +:+ "..."
  /\ Py.len (_create_agent_summary response) = Py.len response + 3.
Proof.
  intros Hlong Hstop.
  assert (Hsummary : _create_agent_summary response = response +:+ "...").
  { unfold _create_agent_summary. cbv zeta.
    destruct (Nat.leb_spec (Py.len response) 100) as [Hshort | _]; [lia |].
    rewrite (split_without_separator _ _ Hstop). cbn [length Py.first hd].
    destruct (Nat.ltb_spec 20 (Py.len response)) as [_ | Hshort]; [| lia].
    reflexivity. }
  split; [exact Hsummary |]. rewrite Hsummary, len_append. reflexivity.
Qed.

Lemma summary_without_full_stop_grows_witness :
  Py.len (_create_agent_summary Examples.long_text) = 113.
Proof.
  destruct (summary_without_full_stop_grows Examples.long_text)
    as [_ Hlen].
  - vm_compute. lia.
  - vm_compute. reflexivity.
  - rewrite Hlen. vm_compute. reflexivity.
Defined.

Lemma prefix_contains_tail (a b s : string) :
  String.prefix (a +:+ b) s = true -> Py.contains b s = true.
Proof.
  revert s. induction a as [| c a IH]; intros s Hprefix.
  - change (EmptyString +:+ b) with b in Hprefix.
    destruct s; cbn [Py.contains]; by rewrite Hprefix.
  - change (String c a +:+ b) with (String c (a +:+ b)) in Hprefix.
    destruct s as [| d s]; [discriminate |]. cbn [String.prefix] in Hprefix.
    destruct (Ascii.ascii_dec c d) as [_ | _]; [| discriminate].
    cbn [Py.contains]. rewrite (IH s Hprefix). apply orb_true_r.
Qed.

(** A text that holds a keyword holds every tail of the keyword. *)
Lemma contains_tail (a b s : string) :
  Py.contains (a +:+ b) s = true -> Py.contains b s = true.
Proof.
  induction s as [| c s IH]; cbn [Py.contains]; intros Hin.
  - apply orb_true_iff in Hin as [Hprefix | Hnone]; [| discriminate].
    by apply (prefix_contains_tail a b EmptyString) in Hprefix.
  - apply orb_true_iff in Hin as [Hprefix | Hlater].
    + by apply (prefix_contains_tail a b (String c s)) in Hprefix.
    + rewrite (IH Hlater). apply orb_true_r.
Qed.

(** X12. A reply of the data role that names a NoSQL store is filed as
    SQL: the test for the SQL words comes first and "sql" is part of
    "nosql". The database is filed as NoSQL only for a reply that names
    MongoDB and holds none of "sql", "postgres", "mysql". *)
Theorem nosql_is_read_as_sql (response : string) :
  (Py.contains "nosql" (Py.lower response) = true ->
   _extract_data_specs_enhanced response = Some "sql")
  /\ (_extract_data_specs_enhanced response = Some "nosql" ->
      Py.contains "mongodb" (Py.lower response) = true
      /\ Py.any_in ["sql"; "postgres"; "mysql"] (Py.lower response) = false).
Proof.
  assert (Htail : Py.contains "nosql" (Py.lower response) = true ->
                  Py.any_in ["sql"; "postgres"; "mysql"] (Py.lower response)
                  = true).
  { intros Hin. apply (contains_tail "no" "sql") in Hin.
    unfold Py.any_in. cbn [existsb]. by rewrite Hin. }
  unfold _extract_data_specs_enhanced. cbv zeta. split.
  - intros Hin. by rewrite (Htail Hin).
  - destruct (Py.any_in ["sql"; "postgres"; "mysql"] (Py.lower response))
      eqn:Hsql; [discriminate |].
    destruct (Py.any_in ["nosql"; "mongodb"] (Py.lower response)) eqn:Hno.
    + intros _. split; [| reflexivity].
      unfold Py.any_in in Hno. cbn [existsb] in Hno.
      destruct (Py.contains "nosql" (Py.lower response)) eqn:Hnosql.
      * discriminate (Htail eq_refl).
      * by rewrite orb_false_l, orb_false_r in Hno.
    + destruct (Py.any_in ["local storage"; "browser storage"]
                  (Py.lower response)); discriminate.
Qed.

Lemma nosql_is_read_as_sql_witness :
  _extract_data_specs_enhanced "Tasks go to a NoSQL document store."
  = Some "sql".
Proof.
  destruct (nosql_is_read_as_sql "Tasks go to a NoSQL document store.")
    as [Hsql _].
  apply Hsql. vm_compute. reflexivity.
Defined.

End Summaries.

(** ** The walk through the chain *)

Section Chain.

Import Orchestrator Spec Laws AIDEServer.

(** The router never returns the first role of the chain for another
    current role. *)
Lemma next_is_not_first (current message : string) (project_data : Project) :
  current <> "requirements_evolver" ->
  _determine_next_agent_enhanced current message project_data
  <> "requirements_evolver".
Proof.
  intros Hcurrent. unfold _determine_next_agent_enhanced. cbv zeta.
  destruct (if Py.any_in approval_keywords (Py.lower message)
            then approval_override current else None)
    as [a |] eqn:Happroved.
  { destruct (Py.any_in approval_keywords (Py.lower message));
      [| discriminate].
    unfold approval_override in Happroved.
    repeat (destruct (String.eqb current _);
            [by injection Happroved as <- |]).
    discriminate. }
  destruct (keyword_switch agent_keywords (Py.lower message))
    as [a |] eqn:Hkeyword.
  { apply keyword_switch_in_table in Hkeyword. intros ->.
    revert Hkeyword. apply mem_false. reflexivity. }
  destruct (progress_switch current project_data) as [a |] eqn:Hprogress;
    [| exact Hcurrent].
  unfold progress_switch in Hprogress.
  destruct (index_of current agent_chain) as [i |]; [| discriminate].
  destruct (_ && _); [| discriminate].
  rewrite Nat.add_1_r in Hprogress.
  change (agent_chain !! S i) with (tail agent_chain !! i) in Hprogress.
  apply list_elem_of_lookup_2 in Hprogress. intros ->.
  revert Hprogress. apply mem_false. reflexivity.
Qed.

(** X13. Once a project has left the requirements role no user message
    brings it back: over every sequence of user messages to a stored
    project whose active agent is another role, the project stays stored
    and its active agent stays another role. *)
Theorem evolver_is_never_reentered (env : Env) (project_id : string)
    (texts : list string) (s : Server) (p : Project) :
  storage s !! project_id = Some p ->
  Py.len project_id <> 0 ->
  active_agent p <> "requirements_evolver" ->
  exists p',
    storage (state_of (serve env (map (user_message (Some project_id)) texts)
                         s)) !! project_id = Some p'
    /\ active_agent p' <> "requirements_evolver".
Proof.
  intros Hp Hlen. revert s p Hp.
  induction texts as [| text rest IH]; intros s p Hp Hactive.
  - exists p. by split.
  - destruct (user_turn_run env project_id text s p Hp Hlen)
      as (s1 & Hrun & Hstorage & _).
    cbn [map]. rewrite (serve_cons_run _ _ _ _ _ _ Hrun).
    apply (IH s1 (after_turn env text p)).
    + rewrite Hstorage. apply lookup_insert_eq.
    + cbn [after_turn active_agent]. unfold turn_agent.
      by apply next_is_not_first.
Qed.

Lemma evolver_is_never_reentered_witness :
  exists p',
    storage (state_of (serve Examples.env
                         (map (user_message (Some "abcd1234"))
                              ["hello again"; "looks good, proceed"])
                         Examples.after_session)) !! "abcd1234" = Some p'
    /\ active_agent p' <> "requirements_evolver".
Proof.
  apply (evolver_is_never_reentered Examples.env "abcd1234"
           ["hello again"; "looks good, proceed"] Examples.after_session
           Examples.stored).
  - vm_compute. reflexivity.
  - vm_compute. lia.
  - vm_compute. discriminate.
Defined.

(** After a turn the agent that answered has two messages to its name:
    its answer and the next user message. *)
Lemma message_count_after_exchange (env : Env) (m1 m2 : string)
    (p : Project) :
  2 <= message_count (turn_agent m1 p) (heard m2 (after_turn env m1 p)).
Proof.
  unfold message_count, heard.
  cbn [messages LocalStorage.set_messages after_turn active_agent].
  change [mkMessage "user" m1 (active_agent p);
          mkMessage "agent" (turn_reply env m1 p) (turn_agent m1 p)]
    with ([mkMessage "user" m1 (active_agent p)]
          ++ [mkMessage "agent" (turn_reply env m1 p) (turn_agent m1 p)]).
  rewrite !filter_app, !length_app.
  rewrite (filter_cons_True _ (mkMessage "agent" _ _)) by reflexivity.
  rewrite (filter_cons_True _ (mkMessage "user" m2 _)) by reflexivity.
  cbn [length]. lia.
Qed.

(** X14. One exchange is enough to move on: when a user message has
    been answered by an agent that is not the last of the chain, a next
    user message without approval phrase and without keyword of the table
    is answered by the next agent of the chain, whether or not the first
    answer had substance. *)
Theorem one_exchange_moves_the_chain (env : Env) (project_id m1 m2 : string)
    (s : Server) (p : Project) :
  storage s !! project_id = Some p ->
  Py.len project_id <> 0 ->
  Py.any_in approval_keywords (Py.lower m2) = false ->
  keyword_roles m2 = [] ->
  let s1 :=
    state_of (process_request env (user_message (Some project_id) m1) s) in
  let s2 :=
    state_of (process_request env (user_message (Some project_id) m2) s1) in
  exists p1 p2,
    storage s1 !! project_id = Some p1
    /\ storage s2 !! project_id = Some p2
    /\ active_agent p1 = turn_agent m1 p
    /\ forall i,
         index_of (active_agent p1) agent_chain = Some i ->
         i + 1 < length agent_chain ->
         agent_chain !! (i + 1) = Some (active_agent p2).
Proof.
  intros Hp Hlen Hplain Hnone s1 s2.
  destruct (user_turn_run env project_id m1 s p Hp Hlen)
    as (s1' & Hrun1 & Hstorage1 & _).
  assert (Hs1 : s1 = s1') by (unfold s1; by rewrite Hrun1).
  assert (Hp1 : storage s1 !! project_id = Some (after_turn env m1 p))
    by (rewrite Hs1, Hstorage1; apply lookup_insert_eq).
  destruct (user_turn_run env project_id m2 s1 _ Hp1 Hlen)
    as (s2' & Hrun2 & Hstorage2 & _).
  assert (Hs2 : s2 = s2') by (unfold s2; by rewrite Hrun2).
  exists (after_turn env m1 p), (after_turn env m2 (after_turn env m1 p)).
  split; [exact Hp1 | split; [| split; [reflexivity |]]].
  { rewrite Hs2, Hstorage2. apply lookup_insert_eq. }
  intros i Hindex Hlast.
  cbn [after_turn active_agent] in *. unfold turn_agent at 1.
  cbn [after_turn active_agent].
  unfold _determine_next_agent_enhanced. cbv zeta.
  rewrite Hplain, keyword_switch_head. fold (keyword_roles m2).
  rewrite Hnone. cbn [head]. unfold progress_switch. rewrite Hindex.
  assert (Hcount :
    (2 <=? message_count (turn_agent m1 p) (heard m2 (after_turn env m1 p)))
    = true) by apply Nat.leb_le, message_count_after_exchange.
  rewrite Hcount, orb_true_r.
  assert (Hroom : (i <? length agent_chain - 1) = true)
    by (apply Nat.ltb_lt; lia).
  rewrite Hroom. cbn [andb].
  destruct (agent_chain !! (i + 1)) as [a |] eqn:Hnext; [reflexivity |].
  apply lookup_ge_None in Hnext. lia.
Qed.

Lemma one_exchange_moves_the_chain_witness :
  exists p2,
    storage (state_of (process_request Examples.env
                         (user_message (Some "abcd1234") "and then?")
                         (state_of (process_request Examples.env
                                      (user_message (Some "abcd1234") "hello")
                                      (state_of (process_request Examples.env
                                         (new_project (Some "Todo App"))
                                         initial))))))
      !! "abcd1234" = Some p2
    /\ active_agent p2 = "ux_architect".
Proof.
  destruct (one_exchange_moves_the_chain Examples.env "abcd1234"
              "hello" "and then?"
              (state_of (process_request Examples.env
                           (new_project (Some "Todo App")) initial))
              Examples.fresh)
    as (p1 & p2 & Hp1 & Hp2 & Hactive & Hnext).
  - vm_compute. reflexivity.
  - vm_compute. lia.
  - vm_compute. reflexivity.
  - vm_compute. reflexivity.
  - exists p2. split; [exact Hp2 |].
    assert (Hsome : Some "ux_architect" = Some (active_agent p2)).
    { apply (Hnext 0).
      - rewrite Hactive. vm_compute. reflexivity.
      - vm_compute. lia. }
    by injection Hsome as <-.
Defined.

End Chain.

(** ** The file loop, file by file *)

Section Loop.

Import Spec Laws ProjectBuilder.

Context (env : Env) (project_data : Project).

(** X15. The file loop makes exactly one completion call per planned
    file, in the order of the plan, whatever the calls return. Every
    planned file ends either as a record of the run or as a skipped
    file, the records and the skipped files both in the order of the
    plan; and each record carries the size, type and language computed
    from its own path and content. *)
Theorem one_call_per_planned_file (plan : list string) :
  generated_paths (run_trace env project_data plan) = plan
  /\ map gf_path (run_files env project_data plan) `sublist_of` plan
  /\ skipped_paths (run_trace env project_data plan) `sublist_of` plan
  /\ length (run_files env project_data plan)
     + length (skipped_paths (run_trace env project_data plan))
     = length plan
  /\ Forall (fun f => f = file_record (gf_path f) (gf_content f))
       (run_files env project_data plan).
Proof.
  unfold run_files, run_trace.
  destruct (generate_files_account env project_data plan [])
    as (recorded & Hfiles & Hcalls & _ & Hsub & Hskip & Hcount & Hrecords).
  rewrite Hfiles. cbn [app].
  split; [exact Hcalls | split; [exact Hsub | split; [exact Hskip |]]].
  split; [exact Hcount | exact Hrecords].
Qed.

End Loop.

(** ** The planned structure as a whole *)

Section Plans.

Import Spec Laws IntegrationAgent.

(** A line that gives a path gives the normal form of a plain path. *)
Lemma path_of_line_plain (raw_line p : string) :
  path_of_line raw_line = Some p ->
  exists clean_path, p = _normalize_file_path clean_path
                     /\ plain_path clean_path.
Proof.
  unfold path_of_line. cbv zeta.
  destruct (Py.len (Py.strip raw_line) =? 0); [discriminate |].
  destruct (Py.any_in code_patterns (Py.strip raw_line)); [discriminate |].
  destruct (Py.any_in syntax_chars (Py.strip raw_line)); [discriminate |].
  destruct (Py.startswith "#" (Py.strip raw_line)
            || Py.contains "://" (Py.strip raw_line)
            || Py.startswith "//" (Py.strip raw_line)); [discriminate |].
  set (clean_path :=
         Py.strip (Py.first (Py.split "[" (Py.first (Py.split "#" _))))).
  destruct (Nat.eqb_spec (Py.len clean_path) 0) as [_ | Hlen];
    [discriminate |].
  cbn [negb andb].
  destruct (Py.any_in valid_extensions clean_path || _); [| discriminate].
  destruct (Nat.ltb_spec (Py.len clean_path) 100) as [Hshort | _];
    [| discriminate].
  destruct (Py.any_in bad_chars clean_path) eqn:Hbad; [discriminate |].
  destruct (Py.endswith "/" clean_path) eqn:Hdir; [discriminate |].
  intros [= <-]. exists clean_path. split; [reflexivity |].
  by repeat split.
Qed.

(** The normal form of a path is the path or one of the nested paths. *)
Lemma normalize_cases (file_path : string) :
  (_normalize_file_path file_path = file_path
   \/ _normalize_file_path file_path ∈ essential_files)
  /\ canonical (_normalize_file_path file_path) = canonical file_path.
Proof.
  unfold _normalize_file_path, path_mapping. cbn [assoc].
  repeat match goal with
         | |- context [String.eqb file_path ?key] =>
             destruct (String.eqb_spec file_path key) as [-> | _];
             [split; [right; apply mem_true |]; reflexivity |]
         end.
  split; [by left | reflexivity].
Qed.

Lemma canonical_idempotent (file_path : string) :
  canonical (canonical file_path) = canonical file_path.
Proof.
  destruct (canonical_cases file_path)
    as [[_ Hc] | [[_ Hc] | [[_ Hc] | [_ Hc]]]]; rewrite !Hc;
    first [reflexivity | exact Hc].
Qed.

(** The path that stands for a path is a nested path of the baseline or
    the path itself, which is then outside the groups. *)
Lemma canonical_is_essential_or_outside (file_path : string) :
  canonical file_path ∈ essential_files
  \/ (canonical file_path = file_path /\ outside_groups file_path).
Proof.
  destruct (canonical_cases file_path)
    as [[_ Hc] | [[_ Hc] | [[_ Hc] | [Hout Hc]]]]; rewrite Hc;
    [left; apply mem_true; reflexivity ..| by right].
Qed.

Lemma essential_files_are_clean :
  Forall (fun p => plain_path p /\ p ∉ bare_aliases) essential_files.
Proof.
  repeat constructor; try (vm_compute; lia); try reflexivity;
    apply mem_false; reflexivity.
Qed.

Ltac in_table :=
  first [ apply mem_true; reflexivity
        | apply (bool_decide_unpack _); vm_compute; constructor ].

Lemma bare_alias_in_group (p : string) :
  p ∈ bare_aliases -> ~ outside_groups p.
Proof.
  intros Halias Hout. unfold bare_aliases in Halias.
  repeat (apply elem_of_cons in Halias as [-> | Halias];
          [ first
              [ apply (Hout "index.html"
                         ["index.html"; "templates/index.html"]); in_table
              | apply (Hout "style.css"
                         ["style.css"; "static/css/style.css"; "styles.css"]);
                  in_table
              | apply (Hout "app.js"
                         ["app.js"; "static/js/app.js"; "scripts.js"]);
                  in_table ] |]).
  by apply elem_of_nil in Halias.
Qed.

Lemma add_essential_nodup (l : list string) (e : string) :
  NoDup l -> NoDup (add_essential l e).
Proof.
  intros Hl. unfold add_essential. destruct (Py.mem e l) eqn:Hmem;
    [exact Hl |].
  apply mem_false in Hmem. apply NoDup_app. split; [exact Hl | split].
  - intros x Hx Hin. apply list_elem_of_singleton in Hin. by subst.
  - apply NoDup_singleton.
Qed.

Lemma add_essentials_nodup (es l : list string) :
  NoDup l -> NoDup (fold_left add_essential es l).
Proof.
  revert l. induction es as [| e rest IH]; intros l Hl; [exact Hl |].
  cbn [fold_left]. by apply IH, add_essential_nodup.
Qed.

Lemma add_essentials_only (es l : list string) (x : string) :
  x ∈ fold_left add_essential es l -> x ∈ l \/ x ∈ es.
Proof.
  revert l. induction es as [| e rest IH]; intros l Hx; [by left |].
  cbn [fold_left] in Hx. apply IH in Hx as [Hx | Hx].
  - unfold add_essential in Hx. destruct (Py.mem e l); [by left |].
    apply elem_of_app in Hx as [Hx | Hx]; [by left |].
    apply list_elem_of_singleton in Hx. subst. right. by left.
  - right. by right.
Qed.

Lemma resolved_nodup (file_list : list string) :
  NoDup (_resolve_file_conflicts file_list).
Proof.
  rewrite resolve_is_first_seen. unfold first_seen.
  rewrite reverse_Permutation. apply NoDup_remove_dups.
Qed.

(** X16. Whatever the completion service answers, the planned structure
    has no path twice, holds none of the bare names index.html,
    style.css, styles.css, app.js and scripts.js, and holds only paths
    that are not empty, are shorter than 100 characters, have none of
    the characters a file system refuses and do not name a directory. *)
Theorem plan_is_clean (env : Env) (project_data : Project) :
  NoDup (plan_project_structure env project_data)
  /\ Forall (fun p => plain_path p /\ p ∉ bare_aliases)
       (plan_project_structure env project_data).
Proof.
  unfold plan_project_structure.
  destruct (plan_completion env _ _ _) as [content | e].
  2: { split; [| exact essential_files_are_clean].
       apply (bool_decide_unpack _). vm_compute. constructor. }
  unfold _extract_file_list_deduplicated. cbv zeta. split.
  - apply add_essentials_nodup, resolved_nodup.
  - apply Forall_forall. intros x Hx.
    pose proof essential_files_are_clean as Hessential.
    rewrite Forall_forall in Hessential.
    apply add_essentials_only in Hx as [Hx | Hx]; [| by apply Hessential].
    apply elem_of_resolved in Hx as (file_path & Hin & <-).
    apply list_elem_of_omap in Hin as (raw_line & _ & Hline).
    apply path_of_line_plain in Hline as (clean_path & -> & Hplain).
    destruct (normalize_cases clean_path) as [_ ->].
    destruct (canonical_is_essential_or_outside clean_path)
      as [Hnested | [-> Hout]]; [by apply Hessential |].
    split; [exact Hplain |].
    intros Halias. by apply (bare_alias_in_group clean_path).
Qed.

Lemma remove_dups_nodup (l : list string) :
  NoDup l -> remove_dups l = l.
Proof.
  induction 1 as [| x l Hx Hl IH]; [reflexivity |].
  cbn [remove_dups]. destruct (decide_rel elem_of x l); [contradiction |].
  by rewrite IH.
Qed.

Lemma first_seen_nodup (l : list string) : NoDup l -> first_seen l = l.
Proof.
  intros Hl. unfold first_seen. rewrite remove_dups_nodup.
  - apply reverse_involutive.
  - by rewrite reverse_Permutation.
Qed.

(** X17. Resolving the conflicts of a resolved list changes nothing, and
    the normal forms that the line filter applies before are absorbed:
    the list resolves to the same paths with and without them. *)
Theorem resolution_is_idempotent (file_list : list string) :
  _resolve_file_conflicts (_resolve_file_conflicts file_list)
  = _resolve_file_conflicts file_list
  /\ _resolve_file_conflicts (map _normalize_file_path file_list)
     = _resolve_file_conflicts file_list.
Proof.
  split.
  - rewrite (resolve_is_first_seen (_resolve_file_conflicts file_list)).
    assert (Hfixed : map canonical (_resolve_file_conflicts file_list)
                     = _resolve_file_conflicts file_list).
    { assert (Hall : Forall (fun x => canonical x = x)
                       (_resolve_file_conflicts file_list)).
      { apply Forall_forall. intros x Hx.
        apply elem_of_resolved in Hx as (file_path & _ & <-).
        apply canonical_idempotent. }
      induction Hall as [| x l Hx _ IH]; [reflexivity |].
      cbn [map]. by rewrite Hx, IH. }
    rewrite Hfixed. apply first_seen_nodup, resolved_nodup.
  - rewrite !resolve_is_first_seen, map_map. f_equal.
    apply map_ext. intros x. by destruct (normalize_cases x).
Qed.

End Plans.

(** ** New projects and generation requests *)

Section Generation.

Import Spec Laws AIDEServer.

(** X18. A new_project request stores an empty document under the drawn
    id, with the requirements role active and no message: the welcome
    text is sent to the client but not filed in the conversation. A
    document that was stored under the same id is replaced, the
    progress set of the id is emptied, no agent is asked, and the client
    gets project_created and then the welcome text. *)
Theorem new_project_starts_empty (env : Env) (project_name : option string)
    (s : Server) :
  let project_id := uuid4 env (storage s) in
  let name := default "New Project" project_name in
  process_request env (new_project project_name) s
  = (Ok tt,
     mkServer
       (<[project_id := LocalStorage.new_project project_id name]> (storage s))
       (<[project_id := ∅]> (agent_progress s))
       (preview_ports s),
     [ Send (project_created project_id name);
       Send (agent_response Welcome "requirements_evolver") ]).
Proof.
  cbv zeta.
  unfold process_request, handle_new_project, try_except, bind, get_state,
    LocalStorage.create_project, Orchestrator.start_conversation,
    LocalStorage.set_active_agent, LocalStorage.update_project,
    LocalStorage.get_project, LocalStorage.write_project, bind, get_state,
    put_state, ret, send, emit.
  simpl. rewrite lookup_insert_eq. simpl.
  rewrite insert_insert_eq. reflexivity.
Qed.

(** X19. When the project directory cannot be cleaned, a generate_code
    request that passed the gate stops there: no structure is planned,
    no completion call is made, nothing is stored and no preview is
    started; the client gets generation_started, then the
    code_generation_error and the plain error, both with the exception
    of the cleanup. *)
Theorem failed_cleanup_stops_generation (env : Env) (project_id : string)
    (s : Server) (p : Project) :
  storage s !! project_id = Some p ->
  Py.len project_id <> 0 ->
  Orchestrator._has_minimal_requirements p = true ->
  fs_clean env (proj_id p) = false ->
  process_request env (generate_code (Some project_id)) s
  = (Ok tt, s,
     [ Send (generation_started project_id);
       Send (code_generation_error project_id (CleanupFailed (proj_id p)));
       Send (error "Failed to generate code"
               (Some (CleanupFailed (proj_id p)))) ]).
Proof.
  intros Hp Hlen Hgate Hclean. simpl. unfold handle_generate_code.
  apply try_done. rewrite (given_some project_id Hlen).
  eapply (bind_run _ _ s s _ _ _ [] _); [by apply can_generate_code_run |].
  change (can_generate (Orchestrator.status_of p))
    with (Orchestrator._has_minimal_requirements p).
  rewrite Hgate. unfold generate_project_code.
  eapply (try_caught _ _ s s s (CleanupFailed (proj_id p)) _
            [Send (generation_started project_id)] _).
  - eapply (bind_run _ _ s s _ p _ [] _); [by apply get_project_found |].
    eapply (bind_run _ _ s s _ tt _ [Send (generation_started project_id)] []);
      [reflexivity |].
    apply bind_raised. unfold ProjectBuilder.generate_project. cbv zeta.
    rewrite Hclean. reflexivity.
  - reflexivity.
Qed.

Lemma failed_cleanup_stops_generation_witness :
  sent (trace_of
          (process_request
             (mkEnv (agent_reply Examples.env) (plan_completion Examples.env)
                (file_completion Examples.env) (fun _ => false)
                (fs_write Examples.env) (start_preview_server Examples.env)
                (uuid4 Examples.env))
             (generate_code (Some "abcd1234")) Examples.after_session))
  = [ generation_started "abcd1234";
      code_generation_error "abcd1234" (CleanupFailed "abcd1234");
      error "Failed to generate code" (Some (CleanupFailed "abcd1234")) ].
Proof.
  rewrite (failed_cleanup_stops_generation _ "abcd1234"
             Examples.after_session Examples.stored).
  - reflexivity.
  - vm_compute. reflexivity.
  - vm_compute. lia.
  - vm_compute. reflexivity.
  - reflexivity.
Defined.

(** What [generate_project] runs to when the directory can be cleaned. *)
Lemma generate_project_trace (env : Env) (p : Project) (s : Server) :
  fs_clean env (proj_id p) = true ->
  ProjectBuilder.generate_project env p s
  = (Ok (run_files env p (IntegrationAgent.plan_project_structure env p)),
     s,
     PlanStructure (proj_id p)
     :: run_trace env p (IntegrationAgent.plan_project_structure env p)
     ++ [BuildPreview (proj_id p)]).
Proof.
  intros Hclean. unfold ProjectBuilder.generate_project, run_files, run_trace.
  cbv zeta. rewrite Hclean.
  destruct (ProjectBuilder.generate_files env p _ []) as [generated printed].
  reflexivity.
Qed.

(** The preview binding calls no file generator and sends nothing. *)
Lemma preview_run_is_quiet (env : Env) (project_id : string) (s : Server) :
  exists url s' t,
    ProjectBuilder.get_preview_url env project_id s = (Ok url, s', t)
    /\ sent t = [] /\ generated_paths t = [].
Proof.
  unfold ProjectBuilder.get_preview_url, bind, get_state, put_state, emit, ret.
  simpl. destruct (preview_ports s !! project_id); simpl.
  - by repeat eexists.
  - destruct (_ =? 0); simpl; by repeat eexists.
Qed.

Lemma total_size_of_records (files : list GeneratedFile) :
  Forall (fun f => f = ProjectBuilder.file_record (gf_path f) (gf_content f))
    files ->
  foldr (fun f n => gf_size f + n) 0 files
  = sum_list (map (fun f => Py.len (gf_content f)) files).
Proof.
  induction 1 as [| f rest Hf _ IH]; [reflexivity |].
  cbn [foldr map sum_list]. rewrite IH, Hf. reflexivity.
Qed.

(** X20. A generate_code request that passes the gate and finds the
    directory cleaned always completes: one completion call is made for
    each planned file, in the order of the plan, and the client gets
    exactly two messages, generation_started and code_generated, the
    second with the records of the run, their number, and as total size
    the sum of the lengths of their contents. *)
Theorem generation_reports_what_it_made (env : Env) (project_id : string)
    (s : Server) (p : Project) :
  storage s !! project_id = Some p ->
  Py.len project_id <> 0 ->
  Orchestrator._has_minimal_requirements p = true ->
  fs_clean env (proj_id p) = true ->
  let run := process_request env (generate_code (Some project_id)) s in
  let plan := IntegrationAgent.plan_project_structure env p in
  let files := run_files env p plan in
  result_of run = Ok tt
  /\ generated_paths (trace_of run) = plan
  /\ exists url,
       sent (trace_of run)
       = [ generation_started project_id;
           code_generated project_id files url (length files)
             (sum_list (map (fun f => Py.len (gf_content f)) files)) ].
Proof.
  intros Hp Hlen Hgate Hclean run plan files.
  destruct (store_files project_id files s p Hp)
    as (s1 & p1 & Hstore & _ & _).
  destruct (preview_run_is_quiet env project_id s1)
    as (url & s2 & tp & Hurl & Hquiet & Hnone).
  destruct (generate_files_account env p plan [])
    as (recorded & Hfiles & Hcalls & Hsilent & _ & _ & _ & Hrecords).
  fold (run_trace env p plan) in Hcalls, Hsilent.
  cbn [app] in Hfiles. fold (run_files env p plan) in Hfiles.
  fold files in Hfiles. rewrite <- Hfiles in Hrecords.
  assert (Hrun :
    run = (Ok tt, s2,
           [Send (generation_started project_id)]
           ++ (PlanStructure (proj_id p) :: run_trace env p plan
               ++ [BuildPreview (proj_id p)])
           ++ tp
           ++ [Send (code_generated project_id files url (length files)
                       (foldr (fun f n => gf_size f + n) 0 files))])).
  { unfold run. simpl. unfold handle_generate_code.
    apply try_done. rewrite (given_some project_id Hlen).
    eapply (bind_run _ _ s s _ _ _ [] _); [by apply can_generate_code_run |].
    change (can_generate (Orchestrator.status_of p))
      with (Orchestrator._has_minimal_requirements p).
    rewrite Hgate. unfold generate_project_code. apply try_done.
    eapply (bind_run _ _ s s _ p _ [] _); [by apply get_project_found |].
    eapply (bind_run _ _ s s _ tt _ [Send (generation_started project_id)] _);
      [reflexivity |].
    eapply (bind_run _ _ s s _ files _
              (PlanStructure (proj_id p)
               :: run_trace env p plan ++ [BuildPreview (proj_id p)]) _);
      [by apply generate_project_trace |].
    eapply (bind_run _ _ s s1 _ tt _ [] _); [exact Hstore |].
    eapply (bind_run _ _ s1 s2 _ url _ tp _); [exact Hurl |].
    reflexivity. }
  rewrite Hrun. unfold result_of, trace_of. cbn [fst snd].
  change (PlanStructure (proj_id p)
          :: run_trace env p plan ++ [BuildPreview (proj_id p)])
    with ([PlanStructure (proj_id p)]
          ++ run_trace env p plan ++ [BuildPreview (proj_id p)]).
  split; [reflexivity | split].
  - unfold generated_paths in *. rewrite !omap_app, Hcalls, Hnone.
    simpl. by rewrite !app_nil_r.
  - exists url. unfold sent in *. rewrite !omap_app, Hsilent, Hquiet.
    simpl. by rewrite (total_size_of_records files Hrecords).
Qed.

Lemma generation_reports_what_it_made_witness :
  generated_paths
    (trace_of (process_request Examples.env (generate_code (Some "abcd1234"))
                 Examples.after_session))
  = [ "app.py"; "requirements.txt"; "templates/index.html";
      "static/css/style.css"; "static/js/app.js" ].
Proof.
  destruct (generation_reports_what_it_made Examples.env "abcd1234"
              Examples.after_session Examples.stored)
    as (_ & Hcalls & _).
  - vm_compute. reflexivity.
  - vm_compute. lia.
  - vm_compute. reflexivity.
  - reflexivity.
  - rewrite Hcalls. reflexivity.
Defined.

End Generation.

(** ** Readiness over the turns *)

Section Recount.

Import Orchestrator Laws.

(** The count of substantial roles when the record of one role is
    written. *)
Lemma substantial_agents_insert (reqs : gmap string RequirementRecord)
    (agent : string) (r : RequirementRecord) :
  substantial_agents (<[agent := r]> reqs)
  = (if has_substance r then 1 else 0)
    + substantial_agents (delete agent reqs).
Proof.
  unfold substantial_agents. rewrite <- (insert_delete_eq reqs agent r).
  rewrite map_to_list_insert by apply lookup_delete_eq.
  destruct (has_substance r) eqn:Hr.
  - rewrite filter_cons_True by exact Hr. reflexivity.
  - rewrite filter_cons_False; [reflexivity |].
    cbn [snd]. rewrite Hr. discriminate.
Qed.

(** X21. Readiness can be lost again. A turn overwrites the record of
    the agent that answers, so when that agent had a substantial record
    and now answers without substance, the count of substantial roles
    drops by one; a gate that was open on two substantial roles other
    than the requirements role is closed after such a turn. *)
Theorem insubstantial_answer_lowers_the_count (env : Env) (message : string)
    (p : Project) (r : RequirementRecord) :
  requirements p !! turn_agent message p = Some r ->
  has_substance r = true ->
  _has_substantial_content (turn_reply env message p) (turn_agent message p)
    = false ->
  substantial_agents (requirements (after_turn env message p)) + 1
    = substantial_agents (requirements p)
  /\ (turn_agent message p <> "requirements_evolver" ->
      has_requirements_evolver (requirements p) = false ->
      substantial_agents (requirements p) = 2 ->
      _has_minimal_requirements p = true
      /\ _has_minimal_requirements (after_turn env message p) = false).
Proof.
  intros Hr Hsub Hreply.
  assert (Hbefore : substantial_agents (requirements p)
                    = 1 + substantial_agents
                            (delete (turn_agent message p) (requirements p))).
  { rewrite <- (insert_delete_id (requirements p) _ r Hr) at 1.
    rewrite substantial_agents_insert, Hsub.
    by rewrite delete_delete_eq. }
  assert (Hafter : substantial_agents (requirements (after_turn env message p))
                   = substantial_agents
                       (delete (turn_agent message p) (requirements p))).
  { cbn [after_turn requirements]. rewrite substantial_agents_insert.
    cbn [record_for has_substance]. by rewrite Hreply. }
  split; [lia |].
  intros Hother Hevolver Htwo. unfold _has_minimal_requirements. cbv zeta.
  rewrite Hafter. split.
  - by rewrite Htwo.
  - assert (Hone : substantial_agents
                     (delete (turn_agent message p) (requirements p)) = 1)
      by lia.
    rewrite Hone. cbn [after_turn requirements].
    unfold has_requirements_evolver in *.
    rewrite lookup_insert_ne by exact Hother.
    by rewrite Hevolver.
Qed.

Lemma insubstantial_answer_lowers_the_count_witness :
  turn_agent "make the ux simpler" Examples.two_designers = "ux_architect"
  /\ _has_minimal_requirements Examples.two_designers = true
  /\ _has_minimal_requirements
       (after_turn Examples.asking_env "make the ux simpler"
          Examples.two_designers) = false.
Proof.
  split; [vm_compute; reflexivity |].
  destruct (insubstantial_answer_lowers_the_count Examples.asking_env
              "make the ux simpler" Examples.two_designers
              (Examples.record_of "ux_architect" Examples.reply_text))
    as [_ Hgate].
  - vm_compute. reflexivity.
  - vm_compute. reflexivity.
  - vm_compute. reflexivity.
  - apply Hgate.
    + vm_compute. discriminate.
    + vm_compute. reflexivity.
    + vm_compute. reflexivity.
Defined.

End Recount.

(** ** One project at a time *)

Section Isolation.

Import Laws AIDEServer.

Context (q : string).

Lemma same_project_refl (s : Server) : same_project q s s.
Proof. by repeat split. Qed.

Lemma same_project_trans (s1 s2 s3 : Server) :
  same_project q s1 s2 -> same_project q s2 s3 -> same_project q s1 s3.
Proof.
  intros (Hs & Ha & Hp) (Hs' & Ha' & Hp'). repeat split; congruence.
Qed.

Lemma keeps_ret {A : Type} (a : A) : keeps q (ret a).
Proof. intros s. apply same_project_refl. Qed.

Lemma keeps_raise {A : Type} (e : Exn) : keeps q (raise (A := A) e).
Proof. intros s. apply same_project_refl. Qed.

Lemma keeps_emit (ev : Event) : keeps q (emit ev).
Proof. intros s. apply same_project_refl. Qed.

Lemma keeps_emit_all (evs : list Event) : keeps q (emit_all evs).
Proof. intros s. apply same_project_refl. Qed.

Lemma keeps_bind {A B : Type} (m : M A) (k : A -> M B) :
  keeps q m -> (forall a, keeps q (k a)) -> keeps q (bind m k).
Proof.
  intros Hm Hk s. specialize (Hm s). unfold bind, state_of in *.
  destruct (m s) as [[[a | e] s1] t1]; cbn [fst snd] in *; [| exact Hm].
  specialize (Hk a s1). unfold state_of in Hk.
  destruct (k a s1) as [[r s2] t2]. cbn [fst snd] in *.
  by apply (same_project_trans s s1 s2).
Qed.

Lemma keeps_try {A : Type} (m : M A) (h : Exn -> M A) :
  keeps q m -> (forall e, keeps q (h e)) -> keeps q (try_except m h).
Proof.
  intros Hm Hh s. specialize (Hm s). unfold try_except, state_of in *.
  destruct (m s) as [[[a | e] s1] t1]; cbn [fst snd] in *; [exact Hm |].
  specialize (Hh e s1). unfold state_of in Hh.
  destruct (h e s1) as [[r s2] t2]. cbn [fst snd] in *.
  by apply (same_project_trans s s1 s2).
Qed.


(** Reading the state and going on keeps what every continuation
    keeps. *)
Lemma keeps_after_get_state {A : Type} (k : Server -> M A) :
  (forall s, same_project q s (state_of (k s s))) ->
  keeps q (bind get_state k).
Proof.
  intros Hk s. specialize (Hk s). unfold bind, get_state, state_of in *.
  destruct (k s s) as [[r s2] t2]. exact Hk.
Qed.

Lemma keeps_get_project (project_id : string) :
  keeps q (LocalStorage.get_project project_id).
Proof.
  intros s. unfold LocalStorage.get_project, bind, get_state, ret, raise.
  destruct (storage s !! project_id); apply same_project_refl.
Qed.

Lemma keeps_write_project (project_id : string) (p : Project) :
  project_id <> q -> keeps q (LocalStorage.write_project project_id p).
Proof.
  intros Hne s. repeat split. cbn. by apply lookup_insert_ne.
Qed.

Lemma keeps_cleanup_project (project_id : string) :
  project_id <> q -> keeps q (LocalStorage.cleanup_project project_id).
Proof.
  intros Hne s. repeat split. cbn. by apply lookup_delete_ne.
Qed.

Lemma keeps_track_progress (project_id current_agent : string) :
  project_id <> q ->
  keeps q (Orchestrator.track_progress project_id current_agent).
Proof.
  intros Hne s.
  unfold Orchestrator.track_progress, bind, get_state, put_state, ret.
  destruct (agent_progress s !! project_id); [| apply same_project_refl].
  repeat split. cbn. by apply lookup_insert_ne.
Qed.

Lemma keeps_start_conversation (project_id : string) :
  project_id <> q -> keeps q (Orchestrator.start_conversation project_id).
Proof.
  intros Hne. unfold Orchestrator.start_conversation,
    LocalStorage.set_active_agent, LocalStorage.update_project.
  apply keeps_bind.
  { apply keeps_bind; [apply keeps_get_project |].
    intros p. by apply keeps_write_project. }
  intros _. apply keeps_after_get_state. intros s.
  repeat split. cbn. by apply lookup_insert_ne.
Qed.

Lemma keeps_get_preview_url (env : Env) (project_id : string) :
  project_id <> q -> keeps q (ProjectBuilder.get_preview_url env project_id).
Proof.
  intros Hne s.
  unfold ProjectBuilder.get_preview_url, bind, get_state, put_state, emit, ret.
  destruct (preview_ports s !! project_id); [apply same_project_refl |].
  cbn. destruct (_ =? 0); [apply same_project_refl |].
  repeat split. cbn. by apply lookup_insert_ne.
Qed.

Lemma keeps_generate_project (env : Env) (p : Project) :
  keeps q (ProjectBuilder.generate_project env p).
Proof.
  intros s. destruct (generate_project_run env p s) as [t ->].
  apply same_project_refl.
Qed.

Lemma keeps_for_each {A : Type} (l : list A) (body : A -> M unit) :
  (forall x, keeps q (body x)) -> keeps q (for_each l body).
Proof.
  intros Hbody. induction l as [| x rest IH]; [apply keeps_ret |].
  cbn [for_each]. apply keeps_bind; [apply Hbody | intros _; exact IH].
Qed.

Ltac keep :=
  repeat first
    [ apply keeps_ret | apply keeps_raise | apply keeps_emit
    | apply keeps_emit_all | apply keeps_get_project
    | apply keeps_generate_project
    | apply keeps_write_project; assumption
    | apply keeps_cleanup_project; assumption
    | apply keeps_track_progress; assumption
    | apply keeps_start_conversation; assumption
    | apply keeps_get_preview_url; assumption
    | apply keeps_for_each; intros ?
    | apply keeps_try; [| intros ?]
    | apply keeps_bind; [| intros ?]
    | match goal with
      | |- keeps _ (if ?b then _ else _) => destruct b
      end
    | progress cbv zeta ].



End Isolation.


(** ** Extracted content, stored previews and the style sheet check *)

Section Contents.

Import Laws.

(** X23. The extraction of the source text from a raw reply returns
    either a text of at least 10 characters or the stripped reply
    itself: a shorter result of the filter is given up for the reply as
    it came. So a reply that is not blank never gives an empty file. *)
Theorem extraction_never_empties (raw_response : string) :
  (IntegrationAgent._extract_pure_code_enhanced raw_response
     = Py.strip raw_response
   \/ 10 <= Py.len (IntegrationAgent._extract_pure_code_enhanced raw_response))
  /\ (Py.len (Py.strip raw_response) <> 0 ->
      Py.len (IntegrationAgent._extract_pure_code_enhanced raw_response) <> 0).
Proof.
  assert (Hfloor :
    IntegrationAgent._extract_pure_code_enhanced raw_response
      = Py.strip raw_response
    \/ 10 <= Py.len (IntegrationAgent._extract_pure_code_enhanced raw_response)).
  { unfold IntegrationAgent._extract_pure_code_enhanced. cbv zeta.
    destruct (Nat.eqb_spec (Py.len raw_response) 0) as [Hempty | _].
    { left. by destruct raw_response. }
    match goal with
    | |- context [Py.len ?result =? 0] =>
        destruct (Nat.eqb_spec (Py.len result) 0) as [_ | _];
        [by left |];
        destruct (Nat.ltb_spec (Py.len result) 10) as [_ | Hlong];
        [by left | by right]
    end. }
  split; [exact Hfloor |].
  intros Hsome. destruct Hfloor as [-> | Hlong]; [exact Hsome | lia].
Qed.

Lemma extraction_never_empties_witness :
  Py.len (IntegrationAgent._extract_pure_code_enhanced "x = 1") <> 0.
Proof.
  destruct (extraction_never_empties "x = 1") as [_ Hsome].
  apply Hsome. vm_compute. lia.
Defined.





Lemma contains_here (c : ascii) (rest : string) :
  Py.contains (String c EmptyString) (String c rest) = true.
Proof.
  cbn [Py.contains String.prefix].
  destruct (Ascii.ascii_dec c c); [| contradiction]. by destruct rest.
Qed.

Lemma contains_later (k : string) (c : ascii) (rest : string) :
  Py.contains k rest = true -> Py.contains k (String c rest) = true.
Proof. intros Hin. cbn [Py.contains]. rewrite Hin. apply orb_true_r. Qed.

Lemma declaration_has_colon (armed : bool) (s : string) :
  ProjectBuilder.search_declaration armed s = true ->
  Py.contains ":" s = true.
Proof.
  revert armed. induction s as [| c rest IH]; intros armed; [discriminate |].
  cbn [ProjectBuilder.search_declaration]. intros Hfound.
  apply orb_true_iff in Hfound as [Hhere | Hlater].
  - apply andb_true_iff in Hhere as [Hhere _].
    apply andb_true_iff in Hhere as [_ Hcolon].
    apply Ascii.eqb_eq in Hcolon. subst c. apply contains_here.
  - apply contains_later. by apply (IH _ Hlater).
Qed.

Lemma selector_has_mark (s : string) :
  ProjectBuilder.search_selector s = true ->
  Py.contains "." s || Py.contains "#" s = true.
Proof.
  induction s as [| c rest IH]; [discriminate |].
  cbn [ProjectBuilder.search_selector]. destruct rest as [| d rest'];
    [discriminate |].
  intros Hfound. apply orb_true_iff in Hfound as [Hhere | Hlater].
  - apply andb_true_iff in Hhere as [Hhere _].
    apply andb_true_iff in Hhere as [Hmark _].
    apply orb_true_iff in Hmark as [Hdot | Hhash];
      [apply Ascii.eqb_eq in Hdot | apply Ascii.eqb_eq in Hhash]; subst c.
    + by rewrite contains_here.
    + rewrite (contains_here "#"). apply orb_true_r.
  - apply IH in Hlater. apply orb_true_iff in Hlater as [Hdot | Hhash].
    + by rewrite (contains_later _ c _ Hdot).
    + rewrite (contains_later _ c _ Hhash). apply orb_true_r.
Qed.

(** X25. The two pattern searches of the style sheet check of the
    builder never decide: a text in which the declaration pattern is
    found holds a colon, and a text in which the selector pattern is
    found holds a dot or a hash, so the test for the characters
    [: ; # .] has already succeeded. The verdict of the builder is that
    of the check without the two searches. *)
Theorem css_patterns_never_decide (content : string) :
  (ProjectBuilder.search_declaration false content = true
   \/ ProjectBuilder.search_selector content = true ->
   Py.any_in [":"; ";"; "#"; "."] content = true)
  /\ ProjectBuilder._is_valid_css_content_trusted content
     = if (Py.len content =? 0) || (Py.len (Py.strip content) <? 10)
       then false
       else
         (Py.contains "{" (Py.strip content)
          && Py.contains "}" (Py.strip content))
         || Py.any_in [":"; ";"; "#"; "."] (Py.strip content)
         || Py.any_in IntegrationAgent.css_words (Py.lower (Py.strip content))
         || ((Py.count "{" (Py.strip content)
              =? Py.count "}" (Py.strip content))
             && (20 <? Py.len (Py.strip content))).
Proof.
  assert (Hfired : forall text,
            ProjectBuilder.search_declaration false text = true
            \/ ProjectBuilder.search_selector text = true ->
            Py.any_in [":"; ";"; "#"; "."] text = true).
  { intros text [Hdeclaration | Hselector]; unfold Py.any_in; cbn [existsb].
    - by rewrite (declaration_has_colon _ _ Hdeclaration).
    - apply selector_has_mark in Hselector.
      apply orb_true_iff in Hselector as [-> | ->];
        rewrite ?orb_true_r; reflexivity. }
  split; [apply Hfired |].
  unfold ProjectBuilder._is_valid_css_content_trusted. cbv zeta.
  destruct ((Py.len content =? 0) || (Py.len (Py.strip content) <? 10));
    [reflexivity |].
  destruct (Py.any_in [":"; ";"; "#"; "."] (Py.strip content)) eqn:Hchars.
  { by rewrite !orb_true_r. }
  destruct (ProjectBuilder.search_declaration false (Py.strip content))
    eqn:Hdeclaration.
  { rewrite Hfired in Hchars by (by left). discriminate. }
  destruct (ProjectBuilder.search_selector (Py.strip content)) eqn:Hselector.
  { rewrite Hfired in Hchars by (by right). discriminate. }
  by rewrite !orb_false_r.
Qed.

Lemma css_patterns_never_decide_witness :
  Py.any_in [":"; ";"; "#"; "."] Examples.css_text = true.
Proof.
  destruct (css_patterns_never_decide Examples.css_text) as [Hfired _].
  apply Hfired. left. vm_compute. reflexivity.
Defined.

End Contents.

(** ** The status text *)

Section StatusText.

Import Orchestrator.

(** X26. The status computed for a project has one of three texts: the
    ready text with the count of substantial roles, which is then at
    least 1; the request to describe the project, when no role is
    substantial; or the getting-there text, when exactly one role is
    substantial and it is not the requirements role. The fourth text of
    the code, for a closed gate with two or more substantial roles, is
    never produced, since the gate is open from two roles on. *)
Theorem status_text_cases (project_data : Project) :
  let status := status_of project_data in
  let n := substantial_agents (requirements project_data) in
  (can_generate status = true /\ 1 <= n
   /\ st_message status
      = "Ready to generate! Collected requirements from " +:+ pretty n
        +:+ " agents.")
  \/ (can_generate status = false /\ n = 0
      /\ st_message status
         = "Please describe your project requirements first.")
  \/ (can_generate status = false /\ n = 1
      /\ has_requirements_evolver (requirements project_data) = false
      /\ st_message status
         = "Getting there! A bit more detail about design or functionality would help.").
Proof.
  cbv zeta. unfold status_of. cbv zeta.
  cbn [can_generate st_message]. unfold _has_minimal_requirements. cbv zeta.
  unfold _get_generation_status_message.
  destruct (substantial_agents (requirements project_data)) as [| [| n]].
  - right. left. rewrite andb_false_r. cbn. by repeat split.
  - destruct (has_requirements_evolver (requirements project_data)).
    + left. cbn. repeat split. lia.
    + right. right. cbn. by repeat split.
  - left. cbn [Nat.leb orb]. repeat split. lia.
Qed.

End StatusText.

(** ** The two fence substitutions *)

Section Fences.

Import IntegrationAgent.

Ltac by_bits c :=
  let b0 := fresh in let b1 := fresh in let b2 := fresh in
  let b3 := fresh in let b4 := fresh in let b5 := fresh in
  let b6 := fresh in let b7 := fresh in
  destruct c as [b0 b1 b2 b3 b4 b5 b6 b7];
  destruct b0, b1, b2, b3, b4, b5, b6, b7;
  first [reflexivity | contradiction | discriminate].

(** The test for three backticks at the head of a text, as the two
    substitutions make it. *)
Lemma fence_match_no {A : Type} (c : ascii) (s1 : string)
    (yes : string -> A) (no : A) :
  String.prefix "```" (String c s1) = false ->
  match c, s1 with
  | "`"%char, String "`"%char (String "`"%char s3) => yes s3
  | _, _ => no
  end = no.
Proof.
  intros Hnone. destruct (Ascii.ascii_dec c "`") as [-> | Hc].
  2: { clear Hnone. by_bits c. }
  destruct s1 as [| d s2]; [reflexivity |].
  destruct (Ascii.ascii_dec d "`") as [-> | Hd].
  2: { clear Hnone. by_bits d. }
  destruct s2 as [| e s3]; [reflexivity |].
  destruct (Ascii.ascii_dec e "`") as [-> | He].
  2: { clear Hnone. by_bits e. }
  destruct s3; vm_compute in Hnone; discriminate Hnone.
Qed.

Lemma fence_head (s : string) :
  String.prefix "```" s = true -> exists s3, s = "```" +:+ s3.
Proof.
  destruct s as [| c [| d [| e s3]]]; cbn [String.prefix]; try discriminate.
  - destruct (Ascii.ascii_dec "`" c); discriminate.
  - destruct (Ascii.ascii_dec "`" c); [| discriminate].
    destruct (Ascii.ascii_dec "`" d); discriminate.
  - destruct (Ascii.ascii_dec "`" c) as [<- |]; [| discriminate].
    destruct (Ascii.ascii_dec "`" d) as [<- |]; [| discriminate].
    destruct (Ascii.ascii_dec "`" e) as [<- |]; [| discriminate].
    intros _. by exists s3.
Qed.

Lemma sub_fence_open_fence (in_tag : bool) (s3 : string) :
  sub_fence_open in_tag ("```" +:+ s3) = sub_fence_open true s3.
Proof. by destruct in_tag. Qed.

Lemma sub_fence_open_keep (in_tag : bool) (c : ascii) (s1 : string) :
  in_tag && Py.isalpha_ascii c = false ->
  in_tag && Ascii.eqb c Py.newline = false ->
  String.prefix "```" (String c s1) = false ->
  sub_fence_open in_tag (String c s1) = String c (sub_fence_open false s1).
Proof.
  intros Hletter Hnewline Hnone. cbn [sub_fence_open].
  rewrite Hletter, Hnewline.
  apply (fence_match_no c s1 (fun s3 => sub_fence_open true s3)
           (String c (sub_fence_open false s1)) Hnone).
Qed.

(** Two backticks at the head of the result were two backticks at the
    head of the text. *)
Lemma no_new_pair (s : string) :
  String.prefix "``" s = false ->
  String.prefix "``" (sub_fence_open false s) = false.
Proof.
  intros Hpair. destruct s as [| x r]; [reflexivity |].
  assert (Hnone : String.prefix "```" (String x r) = false).
  { destruct (String.prefix "```" (String x r)) eqn:Hfence; [| reflexivity].
    apply fence_head in Hfence as [s3 Hfence]. rewrite Hfence in Hpair.
    discriminate. }
  rewrite (sub_fence_open_keep false x r eq_refl eq_refl Hnone).
  cbn [String.prefix] in *.
  destruct (Ascii.ascii_dec "`" x) as [<- | _]; [| reflexivity].
  destruct r as [| y r']; [reflexivity |].
  destruct (Ascii.ascii_dec "`" y) as [<- | Hy]; [by destruct r' |].
  assert (Hnone' : String.prefix "```" (String y r') = false).
  { cbn [String.prefix]. by destruct (Ascii.ascii_dec "`" y). }
  rewrite (sub_fence_open_keep false y r' eq_refl eq_refl Hnone').
  cbn [String.prefix].
  destruct (Ascii.ascii_dec "`" y); [contradiction | reflexivity].
Qed.

Lemma first_pass_leaves_no_fence (n : nat) :
  forall (s : string) (in_tag : bool),
    String.length s <= n ->
    Py.contains "```" (sub_fence_open in_tag s) = false.
Proof.
  induction n as [| n IH]; intros s in_tag Hlen.
  { destruct s; [reflexivity | cbn in Hlen; lia]. }
  destruct s as [| c s1]; [reflexivity |]. cbn [String.length] in Hlen.
  destruct (in_tag && Py.isalpha_ascii c) eqn:Hletter.
  { cbn [sub_fence_open]. rewrite Hletter. apply IH. lia. }
  destruct (in_tag && Ascii.eqb c Py.newline) eqn:Hnewline.
  { cbn [sub_fence_open]. rewrite Hletter, Hnewline. apply IH. lia. }
  destruct (String.prefix "```" (String c s1)) eqn:Hfence.
  - apply fence_head in Hfence as [s3 Hfence]. rewrite Hfence.
    rewrite sub_fence_open_fence. apply IH.
    assert (Hl : String.length (String c s1) = 3 + String.length s3)
      by (rewrite Hfence; reflexivity).
    cbn [String.length] in Hl. lia.
  - rewrite (sub_fence_open_keep in_tag c s1 Hletter Hnewline Hfence).
    cbn [Py.contains]. rewrite (IH s1 false) by lia.
    rewrite orb_false_r. cbn [String.prefix] in *.
    destruct (Ascii.ascii_dec "`" c) as [<- | _]; [| reflexivity].
    by apply no_new_pair.
Qed.

Lemma sub_fence_without_fence (s : string) :
  Py.contains "```" s = false -> sub_fence s = s.
Proof.
  induction s as [| c s1 IH]; [reflexivity |].
  cbn [Py.contains]. intros Hnone.
  apply orb_false_iff in Hnone as [Hhead Hrest].
  cbn [sub_fence].
  rewrite (fence_match_no c s1 (fun s3 => sub_fence s3)
             (String c (sub_fence s1)) Hhead).
  by rewrite (IH Hrest).
Qed.

(** X27. The first substitution of the extraction, which removes every
    fence with its language tag, leaves no three backticks in a row in
    any text; so the second substitution, which removes the fences that
    are left, never changes anything. *)
Theorem second_fence_pass_is_idle (raw_response : string) :
  Py.contains "```" (sub_fence_open false raw_response) = false
  /\ sub_fence (sub_fence_open false raw_response)
     = sub_fence_open false raw_response.
Proof.
  assert (Hnone : Py.contains "```" (sub_fence_open false raw_response)
                  = false).
  { apply (first_pass_leaves_no_fence (String.length raw_response)). lia. }
  split; [exact Hnone |]. by apply sub_fence_without_fence.
Qed.

End Fences.

(** ** Keywords that cannot decide *)

Section Keywords.

Import Orchestrator Laws.

Lemma prefix_head (a b s : string) :
  String.prefix (a +:+ b) s = true -> String.prefix a s = true.
Proof.
  revert s. induction a as [| c a IH]; intros s; [by destruct s |].
  change (String c a +:+ b) with (String c (a +:+ b)).
  destruct s as [| d s]; [discriminate |]. cbn [String.prefix].
  destruct (Ascii.ascii_dec c d); [apply IH | discriminate].
Qed.

(** A text that holds a keyword holds every head of the keyword. *)
Lemma contains_head (a b s : string) :
  Py.contains (a +:+ b) s = true -> Py.contains a s = true.
Proof.
  induction s as [| c s IH]; cbn [Py.contains]; intros Hin.
  - apply orb_true_iff in Hin as [Hprefix | Hnone]; [| discriminate].
    by rewrite (prefix_head a b _ Hprefix).
  - apply orb_true_iff in Hin as [Hprefix | Hlater].
    + by rewrite (prefix_head a b _ Hprefix).
    + rewrite (IH Hlater). apply orb_true_r.
Qed.

(** A keyword that has another keyword of the list as its head adds
    nothing to the list. *)
Lemma longer_keyword_is_idle (a b : string) (m : string) :
  Py.contains (a +:+ b) m || Py.contains a m = Py.contains a m.
Proof.
  destruct (Py.contains (a +:+ b) m) eqn:Hlong; [| reflexivity].
  by rewrite (contains_head a b m Hlong).
Qed.

(** X28. Three keywords of the routing table never decide where a
    message goes: "ui design" and "database", because the shorter
    keywords "ui" and "data" of the same roles are found wherever they
    are, and the "server" of the deployment role, because the API role
    comes first in the table and has the same keyword. The router
    answers every message as it would with the table without them, and
    a message that holds "server" is never routed to the deployment
    role. *)
Theorem three_keywords_never_decide (current_agent user_message : string)
    (project_data : Project) :
  keyword_switch agent_keywords (Py.lower user_message)
  = keyword_switch decisive_keywords (Py.lower user_message)
  /\ (Py.contains "server" (Py.lower user_message) = true ->
      _determine_next_agent_enhanced current_agent user_message project_data
      <> "devops").
Proof.
  assert (Hui :
    Py.any_in ["change design"; "change color"; "ui design"; "ui"]
      (Py.lower user_message)
    = Py.any_in ["change design"; "change color"; "ui"]
        (Py.lower user_message)).
  { unfold Py.any_in. cbn [existsb].
    by rewrite !orb_false_r, (longer_keyword_is_idle "ui" " design"). }
  assert (Hdata :
    Py.any_in ["database"; "data"; "store"; "save"; "storage"; "persist"]
      (Py.lower user_message)
    = Py.any_in ["data"; "store"; "save"; "storage"; "persist"]
        (Py.lower user_message)).
  { unfold Py.any_in. cbn [existsb].
    by rewrite orb_assoc, (longer_keyword_is_idle "data" "base"). }
  assert (Hserver :
    Py.any_in ["api"; "backend"; "server"; "endpoint"; "rest"; "json"]
      (Py.lower user_message) = false ->
    Py.contains "server" (Py.lower user_message) = false).
  { unfold Py.any_in. cbn [existsb]. intros Hnone.
    destruct (Py.contains "server" (Py.lower user_message));
      [| reflexivity].
    by rewrite !orb_true_r, ?orb_true_l in Hnone. }
  split.
  - unfold agent_keywords, decisive_keywords. cbn [keyword_switch].
    rewrite Hui, Hdata.
    repeat match goal with
           | |- (if ?b then _ else _) = (if ?b then _ else _) =>
               destruct b eqn:?; [reflexivity |]
           end.
    pose proof (Hserver eq_refl) as Hnone.
    assert (Hdevops :
      Py.any_in ["deploy"; "host"; "server"; "domain"; "production"; "cloud"]
        (Py.lower user_message)
      = Py.any_in ["deploy"; "host"; "domain"; "production"; "cloud"]
          (Py.lower user_message)).
    { unfold Py.any_in. cbn [existsb]. by rewrite Hnone. }
    by rewrite Hdevops.
  - intros Hin. unfold _determine_next_agent_enhanced. cbv zeta.
    destruct (if Py.any_in approval_keywords (Py.lower user_message)
              then approval_override current_agent else None)
      as [a |] eqn:Happroved.
    { destruct (Py.any_in approval_keywords (Py.lower user_message));
        [| discriminate].
      unfold approval_override in Happroved.
      repeat (destruct (String.eqb current_agent _);
              [by injection Happroved as <- |]).
      discriminate. }
    unfold agent_keywords. cbn [keyword_switch].
    repeat match goal with
           | |- context [if Py.any_in ?ks ?m then Some ?a else _] =>
               destruct (Py.any_in ks m) eqn:?; [discriminate |]
           end.
    rewrite (Hserver eq_refl) in Hin. discriminate Hin.
Qed.

Lemma three_keywords_never_decide_witness :
  _determine_next_agent_enhanced "ux_architect" "which server do we need"
    Examples.fresh <> "devops".
Proof.
  destruct (three_keywords_never_decide "ux_architect"
              "which server do we need" Examples.fresh) as [_ Hserver].
  apply Hserver. vm_compute. reflexivity.
Defined.

End Keywords.
